(** * Path-based permission model of the sub-organisation CMS demo

    A shallow embedding of the backend request handlers described in
    [GUIDE.md] (Python, FastAPI) and of the frontend route guard
    [frontend/src/components/groups.tsx] (TypeScript, React).

    Pages are addressed by slash-delimited paths and are backed one-to-one
    by organisations of an external identity platform; the groups a
    person has in an organisation are the permissions the person has on
    the page. *)

From Stdlib Require Import Ascii.
From stdpp Require Import gmap strings list fin_maps.

Open Scope string_scope.
Open Scope list_scope.

(* ===================================================================== *)
(** * Python string primitives used by the handlers                      *)
(* ===================================================================== *)

Module Py.

(** [s.split(sep)] for a one-character separator: the pieces between
    the occurrences of [sep]; the empty string splits into one empty piece. *)
Fixpoint split (sep : Ascii.ascii) (s : string) : list string :=
  match s with
  | EmptyString => [EmptyString]
  | String c s' =>
      if Ascii.eqb c sep then EmptyString :: split sep s'
      else match split sep s' with
           | [] => [String c EmptyString]
           | x :: xs => String c x :: xs
           end
  end.

(** [sep.join(l)]. *)
Fixpoint join (sep : string) (l : list string) : string :=
  match l with
  | [] => EmptyString
  | [x] => x
  | x :: xs => x +:+ sep +:+ join sep xs
  end.

(** Truthiness of a [str]: every string but the empty one. *)
Definition truthy (s : string) : bool :=
  match s with
  | EmptyString => false
  | String _ _ => true
  end.

(** [l[:-1]]: all elements but the last; the empty list stays empty. *)
Definition init {A} (l : list A) : list A := take (length l - 1) l.

End Py.

(* ===================================================================== *)
(** * Path resolver                                                      *)
(* ===================================================================== *)

Definition UserID := string.
Definition PageID := string.
Definition PagePath := list string.

(** [get_page_path]: [[x for x in page_path.split("/") if x]]. *)
Definition get_page_path (page_path : string) : PagePath :=
  List.filter Py.truthy (Py.split "/"%char page_path).

(** The organisation name of a page, as [get_page_id] and [post_page]
    build it: ["/".join([ROOT_ORG_NAME] + page_path)]. *)
Definition org_name (ROOT_ORG_NAME : string) (page_path : PagePath) : string :=
  Py.join "/" ([ROOT_ORG_NAME] ++ page_path).

(** Two raw paths differ only in empty segments when one is obtained from
    the other by adding or removing a leading slash, a trailing slash or
    a slash next to another slash, any number of times. *)
Inductive slash_variant : string -> string -> Prop :=
| sv_refl p : slash_variant p p
| sv_sym p q : slash_variant p q -> slash_variant q p
| sv_trans p q r : slash_variant p q -> slash_variant q r -> slash_variant p r
| sv_leading p : slash_variant ("/" +:+ p) p
| sv_trailing p : slash_variant (p +:+ "/") p
| sv_repeated p q : slash_variant (p +:+ "//" +:+ q) (p +:+ "/" +:+ q).

(* ===================================================================== *)
(** * Data model                                                         *)
(* ===================================================================== *)

(** [class Permission(Enum)]. *)
Inductive Permission := Read | Write | Admin.

Definition Permission_value (p : Permission) : string :=
  match p with
  | Read => "read"
  | Write => "write"
  | Admin => "admin"
  end.

(** [Permission(group)]: the member with that value; Python raises
    [ValueError] when there is none. *)
Definition Permission_of_value (group : string) : option Permission :=
  if decide (group = "read") then Some Read
  else if decide (group = "write") then Some Write
  else if decide (group = "admin") then Some Admin
  else None.

Global Instance Permission_eq_dec : EqDecision Permission.
Proof. solve_decision. Defined.

Global Instance Permission_countable : Countable Permission.
Proof.
  refine (inj_countable'
            (fun p => match p with Read => 0 | Write => 1 | Admin => 2 end)
            (fun n => match n with 0 => Read | 1 => Write | _ => Admin end) _).
  by intros [].
Defined.

Inductive PersonHandleType := EMAIL_ADDRESS | PHONE_NUMBER.

Record PersonHandle := {
  handle_type : PersonHandleType;
  handle_value : string;
}.

Global Instance PersonHandleType_eq_dec : EqDecision PersonHandleType.
Proof. solve_decision. Defined.

Global Instance PersonHandle_eq_dec : EqDecision PersonHandle.
Proof. solve_decision. Defined.

Global Instance PersonHandle_countable : Countable PersonHandle.
Proof.
  refine (inj_countable'
            (fun h => (bool_decide (handle_type h = EMAIL_ADDRESS), handle_value h))
            (fun '(b, v) => {| handle_type := if b then EMAIL_ADDRESS else PHONE_NUMBER;
                               handle_value := v |}) _).
  by intros [[] v].
Defined.

(** [class Page(BaseModel)]. *)
Record Page := {
  public : bool;
  contents : string;
}.

(** The value the [defaultdict] of pages creates on a missing key. *)
Definition default_page : Page :=
  {| public := false; contents := "default content" |}.

(** [PersonCreateReq]; the fields the handlers always leave [None]
    ([active], [roles], [attributes], [region]) are omitted. *)
Record PersonCreateReq := {
  req_handles : list PersonHandle;
  req_groups : list string;
}.

Record SuborganizationCreateRequest := {
  sub_org_name : string;
  admins : list PersonHandle;
  persons_org_id : PageID;
  groups_org_id : PageID;
}.

Record UserInfo := {
  user_id : UserID;
  user_name : option string;
  emails : list string;
  phones : list string;
}.

Record UserPermissions := {
  up_user : UserInfo;
  up_permissions : gset Permission;
}.

Record PageSettings := {
  settings_id : PageID;
  settings_public : bool;
  settings_users : list UserPermissions;
}.

Record UserPermissionsPatch := {
  patch_id : UserID;
  patch_permissions : option (gset Permission);
}.

Record PageSettingsPatch := {
  patch_public : option bool;
  patch_users : option (list UserPermissionsPatch);
}.

(** The exceptions a handler can end with. FastAPI answers an
    [HTTPException] with its status code and any other exception with
    500. *)
Inductive Exception :=
| HTTPException (status_code : nat)
| ApiException (status : nat)
| ValueError.

Definition HTTP_400_BAD_REQUEST := 400.
Definition HTTP_401_UNAUTHORIZED := 401.
Definition HTTP_403_FORBIDDEN := 403.
Definition HTTP_404_NOT_FOUND := 404.
Definition HTTP_409_CONFLICT := 409.
Definition HTTP_501_NOT_IMPLEMENTED := 501.

(* ===================================================================== *)
(** * The identity platform and the page registry                        *)
(* ===================================================================== *)

(** One organisation of the platform: its name, the administrators it
    was created with, and for each member the groups the member has in
    this organisation. *)
Record Organization := {
  name : string;
  org_admins : list PersonHandle;
  persons : gmap UserID (list string);
}.

(** The state of the external identity platform, as far as the handlers
    observe it through its API: the organisations by id, the index of
    organisation ids by name, the owner of every handle of the person
    pool (the pool is shared by all organisations), and the [name]
    attribute of the persons that have one. *)
Record Platform := {
  organizations : gmap PageID Organization;
  org_ids : gmap string PageID;
  handle_owner : gmap PersonHandle UserID;
  name_attribute : gmap UserID string;
}.

(** What a request can read and change: the platform and the in-memory
    [pages] registry. *)
Record World := {
  slashid : Platform;
  pages : gmap PageID Page;
}.

Inductive Result (A : Type) :=
| Ok (a : A)
| Raise (e : Exception).
Arguments Ok {A} a.
Arguments Raise {A} e.

(** A coroutine of the backend: it runs on a world and ends with a value
    or an exception, in the world it leaves behind. *)
Definition M (A : Type) : Type := World -> Result A * World.

Global Instance M_ret : MRet M := fun A a w => (Ok a, w).

Global Instance M_bind : MBind M := fun A B f c w =>
  match c w with
  | (Ok a, w') => f a w'
  | (Raise e, w') => (Raise e, w')
  end.

Definition raise {A} (e : Exception) : M A := fun w => (Raise e, w).

Definition get_world : M World := fun w => (Ok w, w).

Definition set_platform (p : Platform) : M unit :=
  fun w => (Ok tt, {| slashid := p; pages := pages w |}).

Definition set_pages (ps : gmap PageID Page) : M unit :=
  fun w => (Ok tt, {| slashid := slashid w; pages := ps |}).

(** [try: c except ApiException as e: h e]. *)
Definition try_except_api {A} (c : M A) (h : nat -> M A) : M A := fun w =>
  match c w with
  | (Raise (ApiException st), w') => h st w'
  | r => r
  end.

(** [await asyncio.gather] over a list of awaitables: every awaitable runs to its end, also
    when another one raises; the value is the list of results, or the
    first exception. The awaitables are run in the order of the list. *)
Fixpoint gather {A} (aws : list (M A)) : M (list A) := fun w =>
  match aws with
  | [] => (Ok [], w)
  | c :: cs =>
      let '(r, w1) := c w in
      let '(rs, w2) := gather cs w1 in
      (match r, rs with
       | Raise e, _ => Raise e
       | Ok _, Raise e => Raise e
       | Ok a, Ok l => Ok (a :: l)
       end, w2)
  end.

(** ** The platform's API, as the generated client exposes it

    The platform is an external collaborator; these definitions state
    what each call of the client does to the model above. A call on an
    organisation or a person the platform does not know raises
    [ApiException] with status 404. *)
Module Api.

Definition org_with_persons (o : Organization) (ps : gmap UserID (list string))
  : Organization :=
  {| name := name o; org_admins := org_admins o; persons := ps |}.

Definition with_organizations (p : Platform) (os : gmap PageID Organization)
  : Platform :=
  {| organizations := os; org_ids := org_ids p;
     handle_owner := handle_owner p; name_attribute := name_attribute p |}.

(** The members of an organisation with their groups (none when the
    organisation does not exist). *)
Definition members (p : Platform) (org_id : PageID) : gmap UserID (list string) :=
  match organizations p !! org_id with
  | Some o => persons o
  | None => ∅
  end.

(** The handles of the pool that belong to a person. *)
Definition handles_of (p : Platform) (person_id : UserID) : list PersonHandle :=
  fst <$> List.filter (fun ho => bool_decide (ho.2 = person_id))
                      (map_to_list (handle_owner p)).

(** The person a list of handles identifies: the owner of its first
    handle. *)
Definition person_of_handles (p : Platform) (hs : list PersonHandle)
  : option UserID :=
  match hs with
  | [] => None
  | h :: _ => handle_owner p !! h
  end.

(** [GroupsApi().persons_person_id_groups_get]. *)
Definition persons_person_id_groups_get (person_id : UserID) (slash_id_org_id : PageID)
  : M (list string) :=
  w ← get_world;
  match members (slashid w) slash_id_org_id !! person_id with
  | Some groups => mret groups
  | None => raise (ApiException 404)
  end.

(** [PersonsApi().persons_person_id_handles_get]. *)
Definition persons_person_id_handles_get (person_id : UserID) (slash_id_org_id : PageID)
  : M (list PersonHandle) :=
  w ← get_world;
  match members (slashid w) slash_id_org_id !! person_id with
  | Some _ => mret (handles_of (slashid w) person_id)
  | None => raise (ApiException 404)
  end.

(** [PersonsApi().persons_person_id_delete]: removes the person from
    the organisation. *)
Definition persons_person_id_delete (person_id : UserID) (slash_id_org_id : PageID)
  : M unit :=
  w ← get_world;
  match organizations (slashid w) !! slash_id_org_id with
  | Some o =>
      match persons o !! person_id with
      | Some _ =>
          set_platform
            (with_organizations (slashid w)
               (<[slash_id_org_id := org_with_persons o (delete person_id (persons o))]>
                  (organizations (slashid w))))
      | None => raise (ApiException 404)
      end
  | None => raise (ApiException 404)
  end.

(** [PersonsApi().persons_put]: create-or-update of a person in an
    organisation. The person is identified by the handles of the
    request; the person becomes a member of the organisation if needed
    and its groups there become the groups of the request. The
    handlers only send handles they have read from the pool; a request
    whose handles identify nobody is rejected here with status 400. *)
Definition persons_put (slash_id_org_id : PageID) (person_create_req : PersonCreateReq)
  : M unit :=
  w ← get_world;
  match organizations (slashid w) !! slash_id_org_id with
  | Some o =>
      match person_of_handles (slashid w) (req_handles person_create_req) with
      | Some person_id =>
          set_platform
            (with_organizations (slashid w)
               (<[slash_id_org_id :=
                    org_with_persons o
                      (<[person_id := req_groups person_create_req]> (persons o))]>
                  (organizations (slashid w))))
      | None => raise (ApiException 400)
      end
  | None => raise (ApiException 404)
  end.

(** [PersonsApi().persons_get]: the ids of the members of an
    organisation. *)
Definition persons_get (slash_id_org_id : PageID) : M (list UserID) :=
  w ← get_world;
  match organizations (slashid w) !! slash_id_org_id with
  | Some o => mret (fst <$> map_to_list (persons o))
  | None => raise (ApiException 404)
  end.

(** [AttributesApi().persons_person_id_attributes_bucket_name_get] on
    the bucket of user names. *)
Definition persons_person_id_attributes_bucket_name_get
    (person_id : UserID) (slash_id_org_id : PageID) : M (gmap string string) :=
  w ← get_world;
  match members (slashid w) slash_id_org_id !! person_id with
  | Some _ =>
      mret (match name_attribute (slashid w) !! person_id with
            | Some n => {[ "name" := n ]}
            | None => ∅
            end)
  | None => raise (ApiException 404)
  end.

(** [OrganizationsApi().organizations_suborganizations_post]: creates
    an organisation under an existing one, with a name no organisation
    has yet, and returns its new id; the new organisation has no
    member. *)
Definition organizations_suborganizations_post
    (slash_id_org_id : PageID) (req : SuborganizationCreateRequest) : M PageID :=
  w ← get_world;
  match organizations (slashid w) !! slash_id_org_id with
  | Some _ =>
      match org_ids (slashid w) !! sub_org_name req with
      | Some _ => raise (ApiException 409)
      | None =>
          let id := fresh (dom (organizations (slashid w))) in
          _ ← set_platform
                {| organizations :=
                     <[id := {| name := sub_org_name req;
                                org_admins := admins req;
                                persons := ∅ |}]> (organizations (slashid w));
                   org_ids := <[sub_org_name req := id]> (org_ids (slashid w));
                   handle_owner := handle_owner (slashid w);
                   name_attribute := name_attribute (slashid w) |};
          mret id
      end
  | None => raise (ApiException 404)
  end.

End Api.

(** Modelled from the spec: the body of the helper [get_org_id], which
    the guide uses without showing it. It returns the id of the
    organisation that has the given name, and [None] when the page
    (organisation) does not exist. *)
Definition get_org_id (org_name : string) : M (option PageID) :=
  w ← get_world;
  mret (org_ids (slashid w) !! org_name).

(** [pages[page_id]] on the [defaultdict]: a missing key is first given
    the default page. *)
Definition pages_getitem (page_id : PageID) : M Page :=
  w ← get_world;
  match pages w !! page_id with
  | Some page => mret page
  | None =>
      _ ← set_pages (<[page_id := default_page]> (pages w));
      mret default_page
  end.

(** [pages[page_id] = page]. *)
Definition pages_setitem (page_id : PageID) (page : Page) : M unit :=
  w ← get_world;
  set_pages (<[page_id := page]> (pages w)).

(* ===================================================================== *)
(** * Backend handlers                                                   *)
(* ===================================================================== *)

(** The bearer credentials of a request, after the JWT library has
    looked at them: a token that validates carries the person id in its
    [sub] claim; any other token makes [jwt.decode] raise. *)
Inductive Credentials :=
| ValidToken (sub : UserID)
| InvalidToken.

(** [{Permission(group) for group in groups}]. *)
Fixpoint permissions_of_groups (groups : list string) : M (gset Permission) :=
  match groups with
  | [] => mret ∅
  | group :: rest =>
      match Permission_of_value group with
      | Some p => ps ← permissions_of_groups rest; mret ({[p]} ∪ ps)
      | None => raise ValueError
      end
  end.

Section Backend.

Variable ROOT_ORG_ID : PageID.
Variable ROOT_ORG_NAME : string.
Variable ADMIN_EMAILS : list string.

(** ** Building blocks *)

Definition get_user_id (token : option Credentials) : M (option UserID) :=
  match token with
  | None => mret None
  | Some (ValidToken sub) => mret (Some sub)
  | Some InvalidToken => raise (HTTPException HTTP_401_UNAUTHORIZED)
  end.

Definition require_user_id (user_id : option UserID) : M UserID :=
  match user_id with
  | Some user_id => mret user_id
  | None => raise (HTTPException HTTP_401_UNAUTHORIZED)
  end.

Definition get_page_id (page_path : PagePath) : M (option PageID) :=
  org_id ← get_org_id (org_name ROOT_ORG_NAME page_path);
  match org_id with
  | None => mret None
  | Some org_id => mret (Some org_id)
  end.

Definition require_page_id (page_id : option PageID) : M PageID :=
  match page_id with
  | Some page_id => mret page_id
  | None => raise (HTTPException HTTP_404_NOT_FOUND)
  end.

Definition get_permissions (user_id : option UserID) (page_id : option PageID)
  : M (gset Permission) :=
  match user_id, page_id with
  | Some user_id, Some page_id =>
      groups ← Api.persons_person_id_groups_get user_id page_id;
      permissions_of_groups groups
  | _, _ => mret ∅
  end.

(** The loop of [require_permissions]: 403 at the first required
    permission that is missing. *)
Fixpoint check_permissions (permissions : list Permission)
    (actual_permissions : gset Permission) : M unit :=
  match permissions with
  | [] => mret tt
  | permission :: rest =>
      if decide (permission ∈ actual_permissions)
      then check_permissions rest actual_permissions
      else raise (HTTPException HTTP_403_FORBIDDEN)
  end.

Definition require_permissions (permissions : list Permission)
    (user_id : option UserID) (page_id : option PageID) : M (gset Permission) :=
  match user_id with
  | None => raise (HTTPException HTTP_401_UNAUTHORIZED)
  | Some _ =>
      match page_id with
      | None => raise (HTTPException HTTP_404_NOT_FOUND)
      | Some _ =>
          actual_permissions ← get_permissions user_id page_id;
          _ ← check_permissions permissions actual_permissions;
          mret actual_permissions
      end
  end.

Definition set_user_permissions (user_id : UserID) (page_id : PageID)
    (permissions : gset Permission) : M unit :=
  if bool_decide (page_id <> ROOT_ORG_ID) && bool_decide (permissions = ∅)
  then Api.persons_person_id_delete user_id page_id
  else
    handles ← Api.persons_person_id_handles_get user_id ROOT_ORG_ID;
    Api.persons_put page_id
      {| req_handles := handles;
         req_groups := Permission_value <$> elements permissions |}.

(** ** Users *)

Definition get_user_by_id (user_id : UserID) : M UserInfo :=
  try_except_api
    (person_attrs ← Api.persons_person_id_attributes_bucket_name_get user_id ROOT_ORG_ID;
     let name := person_attrs !! "name" in
     person_handles ← Api.persons_person_id_handles_get user_id ROOT_ORG_ID;
     mret {| user_id := user_id;
             user_name := name;
             emails := handle_value <$>
               List.filter (fun h => bool_decide (handle_type h = EMAIL_ADDRESS))
                           person_handles;
             phones := handle_value <$>
               List.filter (fun h => bool_decide (handle_type h = PHONE_NUMBER))
                           person_handles |})
    (fun status =>
       if bool_decide (status ∈ [HTTP_404_NOT_FOUND; HTTP_400_BAD_REQUEST])
       then raise (HTTPException HTTP_404_NOT_FOUND)
       else raise (ApiException status)).

(** ** Pages *)

Definition get_page (person_id : option UserID) (page_id : PageID) : M string :=
  content ← pages_getitem page_id;
  _ ← (if negb (public content)
       then _ ← require_permissions [Read] person_id (Some page_id); mret tt
       else mret tt);
  mret (contents content).

Definition put_page (page_id : PageID) (body : string) : M unit :=
  page ← pages_getitem page_id;
  pages_setitem page_id {| public := public page; contents := body |}.

Definition delete_page (page_id : PageID) : M unit :=
  raise (HTTPException HTTP_501_NOT_IMPLEMENTED).

Definition post_page (person_id : UserID) (page_path : PagePath)
    (page_id : option PageID) (body : string) : M unit :=
  match page_id with
  | Some _ => raise (HTTPException HTTP_409_CONFLICT)
  | None =>
      let parent_page_path := Py.init page_path in
      parent_page_id ← get_page_id parent_page_path ≫= require_page_id;
      parent_page_permissions ←
        require_permissions [Admin] (Some person_id) (Some parent_page_id);
      page_id ← Api.organizations_suborganizations_post parent_page_id
        {| sub_org_name := org_name ROOT_ORG_NAME page_path;
           admins := (fun admin_email =>
                        {| handle_type := EMAIL_ADDRESS;
                           handle_value := admin_email |}) <$> ADMIN_EMAILS;
           persons_org_id := parent_page_id;
           groups_org_id := parent_page_id |};
      _ ← set_user_permissions person_id page_id parent_page_permissions;
      parent_page ← pages_getitem parent_page_id;
      pages_setitem page_id {| public := public parent_page; contents := body |}
  end.

(** ** Pages administration *)

Definition get_user_permissions (page_id : PageID) (user_id : UserID)
  : M (option UserPermissions) :=
  person_groups ← Api.persons_person_id_groups_get user_id page_id;
  match person_groups with
  | [] => mret None
  | _ :: _ =>
      user ← get_user_by_id user_id;
      permissions ← permissions_of_groups person_groups;
      mret (Some {| up_user := user; up_permissions := permissions |})
  end.

Definition get_page_settings (page_id : PageID) : M PageSettings :=
  persons ← Api.persons_get page_id;
  page ← pages_getitem page_id;
  users ← gather (get_user_permissions page_id <$> persons);
  mret {| settings_id := page_id;
          settings_public := public page;
          settings_users := omap id users |}.

(** The coroutines [patch_page_settings] hands to [asyncio.gather]:
    one per listed user whose permissions are not [None]. *)
Definition permission_updates (page_id : PageID) (users : list UserPermissionsPatch)
  : list (M unit) :=
  omap (fun user =>
          match patch_permissions user with
          | Some permissions =>
              Some (set_user_permissions (patch_id user) page_id permissions)
          | None => None
          end) users.

Definition patch_page_settings (page_id : PageID) (updates : PageSettingsPatch)
  : M unit :=
  _ ← match patch_public updates with
      | Some b =>
          page ← pages_getitem page_id;
          pages_setitem page_id {| public := b; contents := contents page |}
      | None => mret tt
      end;
  match patch_users updates with
  | Some users => _ ← gather (permission_updates page_id users); mret tt
  | None => mret tt
  end.

(** ** Routes

    A route first resolves its dependencies, those of the decorator
    before those of the parameters and each one once per request, and
    then runs its handler. *)

(** [Depends(require_permissions(...))]: the wrapped function with its
    own dependencies [require_user_id] and [require_page_id]. *)
Definition depends_require_permissions (permissions : list Permission)
    (token : option Credentials) (page_path : string) : M PageID :=
  user_id ← get_user_id token ≫= require_user_id;
  page_id ← get_page_id (get_page_path page_path) ≫= require_page_id;
  _ ← require_permissions permissions (Some user_id) (Some page_id);
  mret page_id.

Definition GET_pages (token : option Credentials) (page_path : string) : M string :=
  person_id ← get_user_id token;
  page_id ← get_page_id (get_page_path page_path) ≫= require_page_id;
  get_page person_id page_id.

Definition PUT_pages (token : option Credentials) (page_path : string)
    (body : string) : M unit :=
  page_id ← depends_require_permissions [Write] token page_path;
  put_page page_id body.

Definition DELETE_pages (token : option Credentials) (page_path : string) : M unit :=
  page_id ← depends_require_permissions [Admin] token page_path;
  delete_page page_id.

Definition POST_pages (token : option Credentials) (page_path : string)
    (body : string) : M unit :=
  person_id ← get_user_id token ≫= require_user_id;
  let page_path := get_page_path page_path in
  page_id ← get_page_id page_path;
  post_page person_id page_path page_id body.

Definition GET_admin (token : option Credentials) (page_path : string)
  : M PageSettings :=
  page_id ← depends_require_permissions [Admin] token page_path;
  get_page_settings page_id.

Definition PATCH_admin (token : option Credentials) (page_path : string)
    (updates : PageSettingsPatch) : M unit :=
  page_id ← depends_require_permissions [Admin] token page_path;
  patch_page_settings page_id updates.

End Backend.

(* ===================================================================== *)
(** * Outcomes of the permission gate                                    *)
(* ===================================================================== *)

(** A run is allowed when it ends with a value, denied when it ends with
    403 Forbidden, unauthenticated when it ends with 401 Unauthorized. *)
Definition Allowed {A} (r : Result A * World) : Prop := exists a, r.1 = Ok a.
Definition Denied {A} (r : Result A * World) : Prop :=
  r.1 = Raise (HTTPException HTTP_403_FORBIDDEN).
Definition Unauthenticated {A} (r : Result A * World) : Prop :=
  r.1 = Raise (HTTPException HTTP_401_UNAUTHORIZED).

(** The permission set the platform reports for a caller on a page. *)
Definition caller_permissions (user_id : option UserID) (page_id : PageID)
    (w : World) (S : gset Permission) : Prop :=
  get_permissions user_id (Some page_id) w = (Ok S, w).

(** The record the registry holds for a page, the default one when it
    holds none yet. *)
Definition page_record (w : World) (page_id : PageID) : Page :=
  default default_page (pages w !! page_id).

(** The groups a person has in the organisation of a page, [None] when
    the person is not a member of it (or there is no such
    organisation). *)
Definition groups_of (w : World) (page_id : PageID) (user_id : UserID)
  : option (list string) :=
  Api.members (slashid w) page_id !! user_id.

(** Membership of a person in the organisation of a page. *)
Definition member (w : World) (page_id : PageID) (user_id : UserID) : Prop :=
  is_Some (groups_of w page_id user_id).

(* ===================================================================== *)
(** * Frontend route guard                                               *)
(* ===================================================================== *)

Module Frontend.

(** The [UserPermission] type is a union of string literals; at run
    time a permission is a string. *)
Definition UserPermission := string.

Record User := {
  id : string;
  name : string;
  phones : list string;
  emails : list string;
}.

Record AdminPageUser := {
  user : User;
  permissions : list UserPermission;
}.

Record AdminPageInfo := {
  public : bool;
  users : list AdminPageUser;
}.

(** What a component renders: the loading indicator, the error page
    with an optional message, or other markup. *)
Inductive Element :=
| Loading (center : bool)
| Oops (message : option string)
| Markup (tag : string).

Record Props := {
  root : string;
  belongsTo : list UserPermission;
  children : Element;
  fallback : option Element;
}.

(** What the hook [useGroups] returns in a render. *)
Record GroupsQuery := {
  isGroupsLoading : bool;
  isGroupsError : bool;
  isViewer : bool;
  isAdmin : bool;
  isEditor : bool;
  raw : list string;
}.

(** What the hook [useAdminPageInfo] returns in a render; [data] is
    [None] while it is undefined. *)
Record AdminPageInfoQuery := {
  data : option AdminPageInfo;
  isAdminPageInfoLoading : bool;
  isAdminPageInfoError : bool;
}.

(** [array.includes(x)] on strings. *)
Definition includes (array : list string) (x : string) : bool :=
  bool_decide (x ∈ array).

(** The loop over [belongsTo]: the fallback at the first permission
    that [raw] does not include, the children when there is none. *)
Fixpoint for_permissions (raw : list string) (belongsTo : list UserPermission)
    (children fallback : Element) : Element :=
  match belongsTo with
  | [] => children
  | permission :: rest =>
      if negb (includes raw permission) then fallback
      else for_permissions raw rest children fallback
  end.

(** The component [AssertGroups], as a function of its props and of
    what its hooks return in the render. *)
Definition AssertGroups (props : Props) (groups : GroupsQuery)
    (info : AdminPageInfoQuery) : Element :=
  let fallback :=
    default (Oops (Some "You do not have permission to view this page"))
            (fallback props) in
  if isGroupsLoading groups || isAdminPageInfoLoading info then Loading true
  else if isGroupsError groups || isAdminPageInfoError info then Oops None
  else if match data info with Some d => public d | None => false end
       then children props
       else for_permissions (raw groups) (belongsTo props) (children props) fallback.

End Frontend.

(* ===================================================================== *)
(** * A small deployment, used to run the handlers                       *)
(* ===================================================================== *)

Module Demo.

Definition ROOT_ORG_ID : PageID := "00000000-0000-0000-0000-000000000000".
Definition ROOT_ORG_NAME : string := "MyOrg".
Definition ADMIN_EMAILS : list string := ["me@example.com"].

Definition FOO_ID : PageID := "11111111-1111-1111-1111-111111111111".

Definition email (value : string) : PersonHandle :=
  {| handle_type := EMAIL_ADDRESS; handle_value := value |}.

(** The root page and the page [/foo]. On [/foo], [alice] can read and
    write, [bob] can only read and [carol] is only an administrator. *)
Definition platform : Platform :=
  {| organizations :=
       {[ ROOT_ORG_ID :=
            {| name := "MyOrg";
               org_admins := [email "me@example.com"];
               persons := {[ "alice" := ["admin"; "read"; "write"];
                             "bob" := ["read"];
                             "carol" := [] ]} |};
          FOO_ID :=
            {| name := "MyOrg/foo";
               org_admins := [email "me@example.com"];
               persons := {[ "alice" := ["write"; "read"];
                             "bob" := ["read"];
                             "carol" := ["admin"] ]} |} ]};
     org_ids := {[ "MyOrg" := ROOT_ORG_ID; "MyOrg/foo" := FOO_ID ]};
     handle_owner := {[ email "me@example.com" := "alice";
                        email "bob@example.com" := "bob";
                        email "carol@example.com" := "carol" ]};
     name_attribute := {[ "alice" := "Alice" ]} |}.

(** The root page is public, the page [/foo] is not. *)
Definition world : World :=
  {| slashid := platform;
     pages := {[ ROOT_ORG_ID := {| public := true; contents := "#ffffff" |};
                 FOO_ID := {| public := false; contents := "#00ff00" |} ]} |}.

(** [alice], an administrator of the root page, creates [/bar]. *)
Definition world_after_post : World :=
  (post_page ROOT_ORG_ID ROOT_ORG_NAME ADMIN_EMAILS "alice" ["bar"] None "#abcdef"
             world).2.

(** A patch that empties the permissions of [bob]. *)
Definition remove_bob : PageSettingsPatch :=
  {| patch_public := None;
     patch_users := Some [ {| patch_id := "bob"; patch_permissions := Some ∅ |} ] |}.

End Demo.

(* ===================================================================== *)
(** * The current user: [/users/me]                                      *)
(* ===================================================================== *)

Module PyData.

(** [s[n:]] on a [str]. *)
Fixpoint slice_from (n : nat) (s : string) : string :=
  match n, s with
  | 0, _ => s
  | S n', String _ s' => slice_from n' s'
  | S _, EmptyString => EmptyString
  end.

(** One step of a stable insertion sort by a string key: [x] goes before
    the first element whose key is not smaller than its own. *)
Fixpoint insert_by_key {A} (key : A -> string) (x : A) (l : list A) : list A :=
  match l with
  | [] => [x]
  | y :: l' =>
      if String.leb (key x) (key y) then x :: y :: l'
      else y :: insert_by_key key x l'
  end.

(** [l.sort(key=key)]: ascending by key, elements with equal keys in
    their original order. *)
Fixpoint sort_by_key {A} (key : A -> string) (l : list A) : list A :=
  match l with
  | [] => []
  | x :: l' => insert_by_key key x (sort_by_key key l')
  end.

(** [d[k] = v] on a [dict], kept as the list of its items in insertion
    order: an existing key keeps its place and gets the new value. *)
Fixpoint dict_setitem {V} (k : string) (v : V) (d : list (string * V))
  : list (string * V) :=
  match d with
  | [] => [(k, v)]
  | (k', v') :: d' =>
      if decide (k = k') then (k, v) :: d' else (k', v') :: dict_setitem k v d'
  end.

End PyData.

(** An organisation as the platform lists it for a person. *)
Record PersonOrganization := {
  po_id : PageID;
  po_org_name : string;
}.

Module ApiUsers.

(** [PersonsApi().persons_person_id_organizations_get]: the
    organisations the person is a member of. *)
Definition persons_person_id_organizations_get (person_id : UserID)
    (slash_id_org_id : PageID) : M (list PersonOrganization) :=
  w ← get_world;
  match Api.members (slashid w) slash_id_org_id !! person_id with
  | Some _ =>
      mret ((fun io => {| po_id := io.1; po_org_name := name io.2 |})
              <$> List.filter (fun io => bool_decide (is_Some (persons io.2 !! person_id)))
                              (map_to_list (organizations (slashid w))))
  | None => raise (ApiException 404)
  end.

(** [AttributesApi().persons_person_id_attributes_bucket_name_put] on
    the bucket of user names, with a body that sets the [name]
    attribute. *)
Definition persons_person_id_attributes_bucket_name_put (person_id : UserID)
    (slash_id_org_id : PageID) (name : string) : M unit :=
  w ← get_world;
  match Api.members (slashid w) slash_id_org_id !! person_id with
  | Some _ =>
      set_platform
        {| organizations := organizations (slashid w);
           org_ids := org_ids (slashid w);
           handle_owner := handle_owner (slashid w);
           name_attribute := <[person_id := name]> (name_attribute (slashid w)) |}
  | None => raise (ApiException 404)
  end.

End ApiUsers.

Record MeInfo := {
  me_user : UserInfo;
  me_pages : list (string * gset Permission);
}.

Record UserInfoPatch := {
  patch_name : option string;
}.

Record MeInfoPatch := {
  patch_user : option UserInfoPatch;
}.

Section UsersMe.

Variable ROOT_ORG_ID : PageID.
Variable ROOT_ORG_NAME : string.

(** The key of a page in the map of [get_user_me]: the name of its
    organisation without the name of the root organisation in front,
    followed by a slash. *)
Definition page_name (org_name : string) : string :=
  PyData.slice_from (String.length ROOT_ORG_NAME) org_name +:+ "/".

(** The dict comprehension of [get_user_me] over the zipped
    organisations and groups, the pages with no group skipped. *)
Fixpoint pages_permissions (items : list (PersonOrganization * list string))
    (acc : list (string * gset Permission)) : M (list (string * gset Permission)) :=
  match items with
  | [] => mret acc
  | (org, groups) :: rest =>
      match groups with
      | [] => pages_permissions rest acc
      | _ :: _ =>
          permissions ← permissions_of_groups groups;
          pages_permissions rest
            (PyData.dict_setitem (page_name (po_org_name org)) permissions acc)
      end
  end.

Definition get_user_me (user_id : UserID) : M MeInfo :=
  person_orgs ← ApiUsers.persons_person_id_organizations_get user_id ROOT_ORG_ID;
  let person_orgs := PyData.sort_by_key po_org_name person_orgs in
  person_orgs_groups ←
    gather ((fun org => Api.persons_person_id_groups_get user_id (po_id org))
              <$> person_orgs);
  pages_permissions ← pages_permissions (zip person_orgs person_orgs_groups) [];
  user ← get_user_by_id ROOT_ORG_ID user_id;
  mret {| me_user := user; me_pages := pages_permissions |}.

Definition patch_user_me (user_id : UserID) (updates : MeInfoPatch) : M unit :=
  match patch_user updates with
  | Some user =>
      match patch_name user with
      | Some name =>
          ApiUsers.persons_person_id_attributes_bucket_name_put user_id ROOT_ORG_ID name
      | None => mret tt
      end
  | None => mret tt
  end.

Definition GET_users_me (token : option Credentials) : M MeInfo :=
  user_id ← get_user_id token ≫= require_user_id;
  get_user_me user_id.

Definition PATCH_users_me (token : option Credentials) (updates : MeInfoPatch)
  : M unit :=
  user_id ← get_user_id token ≫= require_user_id;
  patch_user_me user_id updates.

End UsersMe.

(* ===================================================================== *)
(** * Frontend hooks and pages                                           *)
(* ===================================================================== *)

Module Js.

(** Whether [sub] occurs in [s]. *)
Fixpoint occurs (sub s : string) : bool :=
  String.prefix sub s
  || match s with
     | EmptyString => false
     | String _ s' => occurs sub s'
     end.

(** [s.split(sep)] for a separator that is not empty, read from left to
    right; [skip] counts the characters of a separator just found that
    are still to be passed over. *)
Fixpoint split_from (sep : string) (skip : nat) (s : string) : list string :=
  match s with
  | EmptyString => [EmptyString]
  | String c s' =>
      match skip with
      | S k => split_from sep k s'
      | 0 =>
          if String.prefix sep s
          then EmptyString :: split_from sep (String.length sep - 1) s'
          else match split_from sep 0 s' with
               | [] => [String c EmptyString]
               | x :: xs => String c x :: xs
               end
      end
  end.

Definition split (sep s : string) : list string := split_from sep 0 s.

(** [s.replace(pattern, replacement)] for a string pattern and a
    replacement without [$]: the first occurrence is replaced. *)
Fixpoint replace (pattern replacement s : string) : string :=
  if String.prefix pattern s
  then replacement +:+ PyData.slice_from (String.length pattern) s
  else match s with
       | EmptyString => EmptyString
       | String c s' => String c (replace pattern replacement s')
       end.

(** Truthiness of a string. *)
Definition truthy (s : string) : bool :=
  match s with
  | EmptyString => false
  | String _ _ => true
  end.

End Js.

Module Hooks.

Record PageId := {
  pageId : string;
  pageKey : string;
}.

(** [usePageId], given the [pathname] of the current location. *)
Definition usePageId (root : string) (pathname : string) : PageId :=
  let pageId := default EmptyString (Js.split ("/" +:+ root +:+ "/") pathname !! 1) in
  let pageKey :=
    Js.replace "//" "/"
      ("/" +:+ (if Js.truthy pageId then pageId +:+ "/" else EmptyString)) in
  {| pageId := pageId; pageKey := pageKey |}.

(** The [UserMeta] the backend answers on [users/me]; [pages] holds the
    entries of the object in their order. *)
Record UserMeta := {
  pages : list (string * list Frontend.UserPermission);
  user : Frontend.User;
}.

(** What [useGetOne] returns for the [users/me] query in a render. *)
Record UserMetaQuery := {
  data : option UserMeta;
  isLoading : bool;
  isError : bool;
}.

(** [object[key]]: the value of the entry with that key, if any. *)
Fixpoint property {V} (object : list (string * V)) (key : string) : option V :=
  match object with
  | [] => None
  | (k, v) :: rest => if decide (k = key) then Some v else property rest key
  end.

(** The five state cells of [useGroups]. *)
Record GroupsState := {
  initialised : bool;
  isViewer : bool;
  isEditor : bool;
  isAdmin : bool;
  raw : list string;
}.

(** The initial values given to [useState]. *)
Definition initial_state : GroupsState :=
  {| initialised := false; isViewer := false; isEditor := false; isAdmin := false;
     raw := [] |}.

(** One render of [useGroups]: what it returns, read from the state
    cells as they are in this render, and the state cells after the
    updates it has asked for. *)
Definition useGroups (root pathname : string) (query : UserMetaQuery)
    (state : GroupsState) : Frontend.GroupsQuery * GroupsState :=
  let pageKey := pageKey (usePageId root pathname) in
  let initReady :=
    negb (isLoading query) && negb (isError query)
    && bool_decide (is_Some (data query)) && negb (initialised state) in
  let state' :=
    if initReady then
      let groups := data query ≫= fun user => property (pages user) pageKey in
      match groups with
      | Some groups =>
          {| initialised := true;
             isViewer := Frontend.includes groups "read";
             isEditor := Frontend.includes groups "write";
             isAdmin := Frontend.includes groups "admin";
             raw := groups |}
      | None =>
          {| initialised := true;
             isViewer := isViewer state;
             isEditor := isEditor state;
             isAdmin := isAdmin state;
             raw := raw state |}
      end
    else state in
  ({| Frontend.isGroupsLoading := isLoading query;
      Frontend.isGroupsError := isError query;
      Frontend.isViewer := isViewer state;
      Frontend.isAdmin := isAdmin state;
      Frontend.isEditor := isEditor state;
      Frontend.raw := raw state |},
   state').

(** The state cells after a sequence of renders. *)
Fixpoint renders (root : string) (inputs : list (string * UserMetaQuery))
    (state : GroupsState) : GroupsState :=
  match inputs with
  | [] => state
  | (pathname, query) :: rest =>
      renders root rest (useGroups root pathname query state).2
  end.

End Hooks.

Module Pages.

(** [toPath] of the page that creates a page. *)
Definition toPath (pageId : string) (id : string) : string :=
  if Js.truthy pageId then Js.replace "//" "/" (pageId +:+ "/" +:+ id) else id.

End Pages.

(* ===================================================================== *)
(** * Auxiliary notions used to state properties                         *)
(* ===================================================================== *)

(** Whether a character occurs in a string ([c in s] for a one-character
    [c]). *)
Fixpoint has_char (c : Ascii.ascii) (s : string) : bool :=
  match s with
  | EmptyString => false
  | String c' s' => Ascii.eqb c' c || has_char c s'
  end.

(* ===================================================================== *)
(** * Properties of the path resolver                                   *)
(* ===================================================================== *)

Section PathResolver.

Lemma split_nonempty sep s : Py.split sep s <> [].
Proof.
  destruct s as [|c s]; simpl; [discriminate|].
  destruct (Ascii.eqb c sep); [discriminate|].
  destruct (Py.split sep s); discriminate.
Qed.

(** Splitting distributes over a separator placed between two strings. *)
Lemma split_app_sep sep p q :
  Py.split sep (p +:+ String sep q) = Py.split sep p ++ Py.split sep q.
Proof.
  induction p as [|c p IH]; simpl.
  - by rewrite Ascii.eqb_refl.
  - destruct (Ascii.eqb c sep); [by rewrite IH|].
    rewrite IH. destruct (Py.split sep p) eqn:E; [|done].
    by destruct (split_nonempty sep p).
Qed.

Lemma get_page_path_app_sep p q :
  get_page_path (p +:+ String "/"%char q) = get_page_path p ++ get_page_path q.
Proof.
  unfold get_page_path. by rewrite split_app_sep, List.filter_app.
Qed.

Lemma get_page_path_empty : get_page_path EmptyString = [].
Proof. reflexivity. Qed.

Lemma get_page_path_leading p : get_page_path (String "/"%char p) = get_page_path p.
Proof. apply (get_page_path_app_sep EmptyString p). Qed.

Lemma get_page_path_segments p : Forall (fun x => x <> EmptyString) (get_page_path p).
Proof.
  unfold get_page_path. apply Forall_forall. intros x Hx.
  apply list_elem_of_In, List.filter_In in Hx as [_ Hx].
  by destruct x.
Qed.

Lemma slash_variant_sound p q :
  slash_variant p q -> get_page_path p = get_page_path q.
Proof.
  induction 1 as [p|p q _ IH|p q r _ IH1 _ IH2|p|p|p q].
  - done.
  - done.
  - congruence.
  - apply get_page_path_leading.
  - rewrite (get_page_path_app_sep p EmptyString), get_page_path_empty.
    apply app_nil_r.
  - change (p +:+ "//" +:+ q) with (p +:+ String "/"%char (String "/"%char q)).
    change (p +:+ "/" +:+ q) with (p +:+ String "/"%char q).
    by rewrite !get_page_path_app_sep, get_page_path_leading.
Qed.

End PathResolver.

(** C6. Raw paths that differ only in empty segments (leading, trailing
    or repeated slashes) resolve to the same page path; [get_page_path]
    is a total function, its segments are never empty, and the empty
    path and the root path ["/"] resolve to the empty segment
    sequence. *)
Theorem get_page_path_ignores_extra_slashes :
  (forall p q, slash_variant p q -> get_page_path p = get_page_path q)
  /\ (forall p, Forall (fun x => x <> EmptyString) (get_page_path p))
  /\ get_page_path EmptyString = []
  /\ get_page_path "/" = [].
Proof.
  split; [exact slash_variant_sound|].
  split; [exact get_page_path_segments|].
  split; reflexivity.
Qed.

Example get_page_path_foo_bar :
  get_page_path "/foo/bar/" = ["foo"; "bar"]
  /\ get_page_path "foo/bar" = ["foo"; "bar"]
  /\ get_page_path "//foo//bar//" = ["foo"; "bar"].
Proof. repeat split. Qed.

Lemma slash_variant_foo_bar : slash_variant "//foo//bar//" "foo/bar".
Proof.
  apply sv_trans with "/foo//bar//"; [apply (sv_leading "/foo//bar//")|].
  apply sv_trans with "foo//bar//"; [apply (sv_leading "foo//bar//")|].
  apply sv_trans with "foo/bar//"; [apply (sv_repeated "foo" "bar//")|].
  apply sv_trans with "foo/bar/"; [apply (sv_trailing "foo/bar/")|].
  apply (sv_trailing "foo/bar").
Defined.

Lemma get_page_path_ignores_extra_slashes_witness :
  slash_variant "//foo//bar//" "foo/bar"
  /\ get_page_path "//foo//bar//" = get_page_path "foo/bar".
Proof.
  split; [exact slash_variant_foo_bar|].
  apply (proj1 get_page_path_ignores_extra_slashes "//foo//bar//" "foo/bar").
  exact slash_variant_foo_bar.
Defined.

(** C7 (as amended). The organisation name of a page is
    ["/".join([ROOT_ORG_NAME] + page_path)]: for a page path with at least
    one segment it is the root name, a slash and the segments joined by
    slashes; for the root page (no segment) it is the root name alone,
    with no slash after it. *)
Theorem org_name_spec (ROOT_ORG_NAME : string) :
  org_name ROOT_ORG_NAME [] = ROOT_ORG_NAME
  /\ (forall x l,
        org_name ROOT_ORG_NAME (x :: l)
        = ROOT_ORG_NAME +:+ "/" +:+ Py.join "/" (x :: l)).
Proof. split; reflexivity. Qed.

(** C7 (as stated) fails at the root page: the organisation name of the
    empty page path is the root name itself, not the root name followed
    by a slash. *)
Lemma org_name_root_has_no_slash :
  org_name "MyOrg" [] <> "MyOrg" +:+ "/" +:+ Py.join "/" [].
Proof. discriminate. Qed.

(* ===================================================================== *)
(** * Properties of the permission gate                                  *)
(* ===================================================================== *)

Ltac unfold_M :=
  unfold mbind, mret, M_bind, M_ret, raise, get_world, set_platform, set_pages in *.

Section Gate.

Context {A B : Type}.

Lemma bind_run (c : M A) (f : A -> M B) w :
  (c ≫= f) w = match c w with
               | (Ok a, w') => f a w'
               | (Raise e, w') => (Raise e, w')
               end.
Proof. reflexivity. Qed.

Lemma bind_ok (c : M A) (f : A -> M B) w a w' :
  c w = (Ok a, w') -> (c ≫= f) w = f a w'.
Proof. intros H. by rewrite bind_run, H. Qed.

Lemma bind_raise (c : M A) (f : A -> M B) w e w' :
  c w = (Raise e, w') -> (c ≫= f) w = (Raise e, w').
Proof. intros H. by rewrite bind_run, H. Qed.

End Gate.

Lemma permissions_of_groups_readonly groups w :
  (permissions_of_groups groups w).2 = w.
Proof.
  induction groups as [|g gs IH]; simpl; [done|].
  destruct (Permission_of_value g); [|done].
  rewrite bind_run. destruct (permissions_of_groups gs w) as [[ps|e] w'] eqn:E;
    simpl in *; by subst.
Qed.

Lemma get_permissions_readonly user_id page_id w :
  (get_permissions user_id page_id w).2 = w.
Proof.
  destruct user_id as [u|], page_id as [p|]; simpl; try done.
  unfold Api.persons_person_id_groups_get. unfold_M.
  destruct (Api.members (slashid w) p !! u); [|done].
  apply permissions_of_groups_readonly.
Qed.

Lemma check_permissions_run permissions actual w :
  check_permissions permissions actual w
  = if decide (Forall (fun p => p ∈ actual) permissions)
    then (Ok tt, w)
    else (Raise (HTTPException HTTP_403_FORBIDDEN), w).
Proof.
  induction permissions as [|p ps IH]; cbn [check_permissions].
  - by rewrite decide_True.
  - destruct (decide (p ∈ actual)) as [Hp|Hp].
    + rewrite IH. destruct (decide (Forall _ ps)) as [Hps|Hps].
      * by rewrite decide_True by (by constructor).
      * rewrite decide_False; [done|]. by inversion 1.
    + rewrite decide_False; [done|]. by inversion 1.
Qed.

(** The gate, given the caller's permission set: it lets the caller
    through with that set when every required permission is in it, and
    ends with 403 otherwise. *)
Lemma require_permissions_run permissions user_id page_id w S :
  caller_permissions (Some user_id) page_id w S ->
  require_permissions permissions (Some user_id) (Some page_id) w
  = if decide (Forall (fun p => p ∈ S) permissions)
    then (Ok S, w)
    else (Raise (HTTPException HTTP_403_FORBIDDEN), w).
Proof.
  unfold caller_permissions, require_permissions. intros HS.
  rewrite (bind_ok _ _ _ _ _ HS), bind_run, check_permissions_run.
  by destruct (decide (Forall _ permissions)).
Qed.

Lemma require_permissions_readonly permissions user_id page_id w :
  (require_permissions permissions user_id page_id w).2 = w.
Proof.
  destruct user_id as [u|]; [|done]. destruct page_id as [p|]; [|done].
  unfold require_permissions. rewrite bind_run.
  pose proof (get_permissions_readonly (Some u) (Some p) w) as Hg.
  destruct (get_permissions (Some u) (Some p) w) as [[S|e] w1]; simpl in *; subst;
    [|done].
  rewrite bind_run.
  rewrite check_permissions_run. by destruct (decide (Forall _ permissions)).
Qed.

(** The platform's answer about a caller depends on the platform only,
    not on the page registry. *)
Lemma permissions_of_groups_fst groups w w' :
  (permissions_of_groups groups w).1 = (permissions_of_groups groups w').1.
Proof.
  induction groups as [|g gs IH]; simpl; [done|].
  destruct (Permission_of_value g); [|done].
  rewrite !bind_run.
  pose proof (permissions_of_groups_readonly gs w).
  pose proof (permissions_of_groups_readonly gs w').
  destruct (permissions_of_groups gs w) as [[ps|e] w1],
           (permissions_of_groups gs w') as [[ps'|e'] w1'];
    simpl in *; congruence.
Qed.

Lemma get_permissions_fst user_id page_id w w' :
  slashid w = slashid w' ->
  (get_permissions user_id page_id w).1 = (get_permissions user_id page_id w').1.
Proof.
  intros Hp. destruct user_id as [u|], page_id as [p|]; simpl; try done.
  unfold Api.persons_person_id_groups_get. unfold_M. rewrite Hp.
  destruct (Api.members (slashid w') p !! u); [|done].
  apply permissions_of_groups_fst.
Qed.

Lemma caller_permissions_registry user_id page_id w w' S :
  slashid w = slashid w' ->
  caller_permissions user_id page_id w S -> caller_permissions user_id page_id w' S.
Proof.
  unfold caller_permissions. intros Hp HS.
  pose proof (get_permissions_fst user_id (Some page_id) w w' Hp) as H1.
  pose proof (get_permissions_readonly user_id (Some page_id) w') as H2.
  rewrite HS in H1.
  destruct (get_permissions user_id (Some page_id) w') as [r w1]; simpl in *.
  congruence.
Qed.

Lemma caller_permissions_absent page_id w S :
  caller_permissions None page_id w S <-> S = ∅.
Proof. unfold caller_permissions. simpl. unfold_M. split; congruence. Qed.

Lemma pages_getitem_run page_id w :
  pages_getitem page_id w
  = (Ok (page_record w page_id),
     match pages w !! page_id with
     | Some _ => w
     | None => {| slashid := slashid w;
                  pages := <[page_id := default_page]> (pages w) |}
     end).
Proof.
  unfold pages_getitem, page_record. unfold_M.
  by destruct (pages w !! page_id).
Qed.

Lemma pages_getitem_platform page_id w :
  slashid (pages_getitem page_id w).2 = slashid w.
Proof. rewrite pages_getitem_run. simpl. by destruct (pages w !! page_id). Qed.

(** What [get_page] answers, by the [public] flag of the record. *)
Lemma get_page_public person_id page_id w :
  public (page_record w page_id) = true ->
  get_page person_id page_id w
  = (Ok (contents (page_record w page_id)), (pages_getitem page_id w).2).
Proof.
  intros Hpub. unfold get_page.
  rewrite bind_run, pages_getitem_run. simpl. by rewrite Hpub.
Qed.

Lemma get_page_not_public person_id page_id w :
  public (page_record w page_id) = false ->
  let w1 := (pages_getitem page_id w).2 in
  get_page person_id page_id w
  = match require_permissions [Read] person_id (Some page_id) w1 with
    | (Ok _, _) => (Ok (contents (page_record w page_id)), w1)
    | (Raise e, _) => (Raise e, w1)
    end.
Proof.
  intros Hpub. unfold get_page.
  rewrite bind_run, pages_getitem_run. cbn [snd]. rewrite Hpub. cbn [negb].
  set (w1 := match pages w !! page_id with Some _ => w | None => _ end).
  rewrite !bind_run.
  pose proof (require_permissions_readonly [Read] person_id (Some page_id) w1) as Hr.
  destruct (require_permissions [Read] person_id (Some page_id) w1) as [[S|e] w2];
    simpl in *; by subst.
Qed.

(** The gate for one required permission, whoever the caller is. *)
Lemma require_permissions_allowed p user_id page_id w S :
  caller_permissions user_id page_id w S ->
  Allowed (require_permissions [p] user_id (Some page_id) w) <-> p ∈ S.
Proof.
  intros HS. destruct user_id as [u|].
  - rewrite (require_permissions_run _ _ _ _ _ HS).
    destruct (decide (Forall _ [p])) as [H|H].
    + split; [intros _; by inversion H|intros _; by eexists].
    + split; [intros [a Ha]; discriminate|].
      intros Hp. destruct H. by repeat constructor.
  - apply caller_permissions_absent in HS as ->. simpl.
    split; [intros [a Ha]; discriminate|intros H; by apply not_elem_of_empty in H].
Qed.

Lemma require_permissions_denied p user_id page_id w S :
  caller_permissions (Some user_id) page_id w S ->
  p ∉ S ->
  require_permissions [p] (Some user_id) (Some page_id) w
  = (Raise (HTTPException HTTP_403_FORBIDDEN), w).
Proof.
  intros HS Hp. rewrite (require_permissions_run _ _ _ _ _ HS).
  rewrite decide_False; [done|]. by inversion 1.
Qed.

(* ===================================================================== *)
(** * Routes and their dependencies                                      *)
(* ===================================================================== *)

Section Routes.

Variable ROOT_ORG_NAME : string.

Lemma get_page_id_run page_path w :
  get_page_id ROOT_ORG_NAME page_path w
  = (Ok (org_ids (slashid w) !! org_name ROOT_ORG_NAME page_path), w).
Proof.
  unfold get_page_id, get_org_id. unfold_M.
  by destruct (org_ids (slashid w) !! _).
Qed.

Lemma get_page_id_resolves page_path w page_id :
  get_page_id ROOT_ORG_NAME page_path w = (Ok page_id, w)
  <-> org_ids (slashid w) !! org_name ROOT_ORG_NAME page_path = page_id.
Proof. rewrite get_page_id_run. split; congruence. Qed.

(** A route that depends on [require_permissions]: 401 without valid
    credentials, then 404 without a page, then the gate. *)
Lemma depends_require_permissions_run permissions token page_path w :
  depends_require_permissions ROOT_ORG_NAME permissions token page_path w
  = match token with
    | Some (ValidToken user_id) =>
        match org_ids (slashid w) !! org_name ROOT_ORG_NAME (get_page_path page_path) with
        | Some page_id =>
            match require_permissions permissions (Some user_id) (Some page_id) w with
            | (Ok _, _) => (Ok page_id, w)
            | (Raise e, _) => (Raise e, w)
            end
        | None => (Raise (HTTPException HTTP_404_NOT_FOUND), w)
        end
    | _ => (Raise (HTTPException HTTP_401_UNAUTHORIZED), w)
    end.
Proof.
  unfold depends_require_permissions.
  destruct token as [[u|]|]; try reflexivity.
  cbn [get_user_id]. rewrite !bind_run. cbn [mret M_ret require_user_id].
  rewrite !bind_run, get_page_id_run.
  destruct (org_ids (slashid w) !! _) as [id|]; [|done].
  cbn [require_page_id mret M_ret]. rewrite !bind_run.
  pose proof (require_permissions_readonly permissions (Some u) (Some id) w) as Hr.
  destruct (require_permissions permissions (Some u) (Some id) w) as [[S|e] w1];
    simpl in *; by subst.
Qed.

Lemma depends_require_permissions_unauthenticated permissions page_path w :
  depends_require_permissions ROOT_ORG_NAME permissions None page_path w
  = (Raise (HTTPException HTTP_401_UNAUTHORIZED), w).
Proof. by rewrite depends_require_permissions_run. Qed.

Lemma GET_pages_run token page_path w :
  GET_pages ROOT_ORG_NAME token page_path w
  = match token with
    | Some InvalidToken => (Raise (HTTPException HTTP_401_UNAUTHORIZED), w)
    | _ =>
        match org_ids (slashid w) !! org_name ROOT_ORG_NAME (get_page_path page_path) with
        | Some page_id =>
            get_page (match token with Some (ValidToken u) => Some u | _ => None end)
                     page_id w
        | None => (Raise (HTTPException HTTP_404_NOT_FOUND), w)
        end
    end.
Proof.
  unfold GET_pages. destruct token as [[u|]|]; try reflexivity;
    cbn [get_user_id]; rewrite !bind_run; cbn [mret M_ret];
    rewrite !bind_run, get_page_id_run;
    by destruct (org_ids (slashid w) !! _).
Qed.

End Routes.

(** C1. On a page whose record is public, reading is allowed to every
    caller, whatever groups the platform reports for the caller and even
    without credentials: [get_page] answers the contents. The override
    is for reading only: on the same record the gate for [Write] lets a
    caller through if and only if [Write] is in the caller's permission
    set, a caller with an empty permission set is denied with 403, and
    the [PUT] route succeeds only for an authenticated caller whose
    permission set holds [Write]. *)
Theorem public_override_is_read_only
    (ROOT_ORG_NAME : string) (w : World) (page_id : PageID) (page : Page) :
  pages w !! page_id = Some page ->
  public page = true ->
  (forall person_id, get_page person_id page_id w = (Ok (contents page), w))
  /\ (forall token page_path,
        token <> Some InvalidToken ->
        get_page_id ROOT_ORG_NAME (get_page_path page_path) w = (Ok (Some page_id), w) ->
        GET_pages ROOT_ORG_NAME token page_path w = (Ok (contents page), w))
  /\ (forall user_id S,
        caller_permissions user_id page_id w S ->
        Allowed (require_permissions [Write] user_id (Some page_id) w) <-> Write ∈ S)
  /\ (forall user_id,
        caller_permissions (Some user_id) page_id w ∅ ->
        Denied (require_permissions [Write] (Some user_id) (Some page_id) w))
  /\ (forall token page_path body,
        get_page_id ROOT_ORG_NAME (get_page_path page_path) w = (Ok (Some page_id), w) ->
        Allowed (PUT_pages ROOT_ORG_NAME token page_path body w) ->
        exists user_id S,
          token = Some (ValidToken user_id)
          /\ caller_permissions (Some user_id) page_id w S
          /\ Write ∈ S).
Proof.
  intros Hpage Hpub.
  assert (Hrec : page_record w page_id = page) by (unfold page_record; by rewrite Hpage).
  assert (Hget : forall person_id,
             get_page person_id page_id w = (Ok (contents page), w)).
  { intros person_id. rewrite get_page_public by (by rewrite Hrec).
    by rewrite Hrec, pages_getitem_run, Hpage. }
  split; [exact Hget|].
  split.
  { intros token page_path Htok Hid. apply get_page_id_resolves in Hid.
    rewrite GET_pages_run, Hid. destruct token as [[u|]|]; try done. }
  split; [intros user_id S; apply require_permissions_allowed|].
  split.
  { intros user_id HS. unfold Denied.
    rewrite (require_permissions_denied Write user_id page_id w ∅ HS); [done|].
    apply not_elem_of_empty. }
  intros token page_path body Hid [a Ha]. apply get_page_id_resolves in Hid.
  unfold PUT_pages in Ha. rewrite bind_run, depends_require_permissions_run in Ha.
  destruct token as [[u|]|]; try discriminate Ha.
  rewrite Hid in Ha.
  pose proof (get_permissions_readonly (Some u) (Some page_id) w) as Hro.
  destruct (get_permissions (Some u) (Some page_id) w) as [[S|e] w1] eqn:HS;
    simpl in Hro; subst w1.
  - exists u, S. split; [done|]. split; [exact HS|].
    rewrite (require_permissions_run _ _ _ _ _ HS) in Ha.
    destruct (decide (Forall _ [Write])) as [H|H]; [by inversion H|discriminate Ha].
  - unfold require_permissions in Ha. rewrite (bind_raise _ _ _ _ _ HS) in Ha.
    discriminate Ha.
Qed.

Lemma public_override_is_read_only_witness :
  pages Demo.world !! Demo.ROOT_ORG_ID
  = Some {| public := true; contents := "#ffffff" |}
  /\ (forall person_id,
        get_page person_id Demo.ROOT_ORG_ID Demo.world = (Ok "#ffffff", Demo.world)).
Proof.
  split; [reflexivity|].
  apply (public_override_is_read_only Demo.ROOT_ORG_NAME Demo.world Demo.ROOT_ORG_ID
           {| public := true; contents := "#ffffff" |}); reflexivity.
Defined.

Lemma put_page_run page_id body w :
  exists w', put_page page_id body w = (Ok tt, w').
Proof.
  unfold put_page. rewrite bind_run, pages_getitem_run.
  unfold pages_setitem. unfold_M. by eexists.
Qed.

(** C2. On a page whose record is not public, whoever the caller is and
    whatever permission is required, the gate lets the caller through
    if and only if the required permission is in the caller's
    permission set. Reading through [get_page] is allowed if and only if
    the set holds [Read], writing through the [PUT] route if and only if
    it holds [Write]. No permission stands for another: an authenticated
    caller whose set lacks the required permission is denied with 403,
    whatever else the set holds. *)
Theorem non_public_page_requires_membership
    (ROOT_ORG_NAME : string) (w : World) (page_id : PageID)
    (user_id : option UserID) (S : gset Permission) :
  public (page_record w page_id) = false ->
  caller_permissions user_id page_id w S ->
  (forall p, Allowed (require_permissions [p] user_id (Some page_id) w) <-> p ∈ S)
  /\ (Allowed (get_page user_id page_id w) <-> Read ∈ S)
  /\ (forall u page_path body,
        user_id = Some u ->
        get_page_id ROOT_ORG_NAME (get_page_path page_path) w = (Ok (Some page_id), w) ->
        Allowed (PUT_pages ROOT_ORG_NAME (Some (ValidToken u)) page_path body w)
        <-> Write ∈ S)
  /\ (forall u p,
        user_id = Some u ->
        p ∉ S ->
        require_permissions [p] user_id (Some page_id) w
        = (Raise (HTTPException HTTP_403_FORBIDDEN), w)).
Proof.
  intros Hpub HS.
  split; [intros p; by apply require_permissions_allowed|].
  split.
  { rewrite (get_page_not_public _ _ _ Hpub). cbv zeta.
    assert (HS1 : caller_permissions user_id page_id (pages_getitem page_id w).2 S).
    { eapply caller_permissions_registry; [|exact HS].
      symmetry. apply pages_getitem_platform. }
    rewrite <- (require_permissions_allowed Read _ _ _ _ HS1).
    destruct (require_permissions [Read] user_id (Some page_id) _) as [[S'|e] w2].
    - split; intros _; by eexists.
    - split; intros [a Ha]; discriminate. }
  split.
  { intros u page_path body -> Hid. apply get_page_id_resolves in Hid.
    rewrite <- (require_permissions_allowed Write _ _ _ _ HS).
    unfold PUT_pages. rewrite bind_run, depends_require_permissions_run, Hid.
    destruct (require_permissions [Write] (Some u) (Some page_id) w) as [[S'|e] w2].
    - destruct (put_page_run page_id body w) as [w' ->].
      split; intros _; by eexists.
    - split; intros [a Ha]; discriminate. }
  intros u p -> Hp. by apply require_permissions_denied with S.
Qed.

Lemma non_public_page_requires_membership_witness :
  (public (page_record Demo.world Demo.FOO_ID) = false
   /\ caller_permissions (Some "carol") Demo.FOO_ID Demo.world {[Admin]})
  /\ require_permissions [Write] (Some "carol") (Some Demo.FOO_ID) Demo.world
     = (Raise (HTTPException HTTP_403_FORBIDDEN), Demo.world).
Proof.
  split; [split; vm_compute; reflexivity|].
  apply (non_public_page_requires_membership Demo.ROOT_ORG_NAME Demo.world
           Demo.FOO_ID (Some "carol") {[Admin]}) with (u := "carol").
  - reflexivity.
  - vm_compute; reflexivity.
  - reflexivity.
  - vm_compute. intros H. discriminate H.
Defined.

(** The scenarios of the gate on the page [/foo], which is not public:
    [bob] holds only [read] and is denied a write, [alice] holds [write]
    and [read] and is allowed one. *)
Example gate_scenarios :
  (PUT_pages Demo.ROOT_ORG_NAME (Some (ValidToken "bob")) "/foo" "#000000" Demo.world).1
  = Raise (HTTPException HTTP_403_FORBIDDEN)
  /\ (PUT_pages Demo.ROOT_ORG_NAME (Some (ValidToken "alice")) "/foo" "#000000"
        Demo.world).1 = Ok tt
  /\ (PUT_pages Demo.ROOT_ORG_NAME (Some (ValidToken "carol")) "/foo" "#000000"
        Demo.world).1 = Raise (HTTPException HTTP_403_FORBIDDEN).
Proof. repeat split; vm_compute; reflexivity. Qed.

(* ===================================================================== *)
(** * Properties of the page registry                                    *)
(* ===================================================================== *)

Section Registry.

Variable ROOT_ORG_ID : PageID.
Variable ROOT_ORG_NAME : string.
Variable ADMIN_EMAILS : list string.

(** A successful creation of an organisation records the new id under
    the new name, which was free before, and leaves the pool, the
    other organisations and the registry alone. *)
Lemma organizations_suborganizations_post_ok parent req w id w' :
  Api.organizations_suborganizations_post parent req w = (Ok id, w') ->
  org_ids (slashid w) !! sub_org_name req = None
  /\ org_ids (slashid w') = <[sub_org_name req := id]> (org_ids (slashid w))
  /\ handle_owner (slashid w') = handle_owner (slashid w)
  /\ pages w' = pages w.
Proof.
  unfold Api.organizations_suborganizations_post. unfold_M.
  destruct (organizations (slashid w) !! parent); [|discriminate].
  destruct (org_ids (slashid w) !! sub_org_name req); [discriminate|].
  intros [= <- <-]. done.
Qed.

Lemma persons_person_id_delete_frame person_id org_id w :
  let w' := (Api.persons_person_id_delete person_id org_id w).2 in
  pages w' = pages w
  /\ org_ids (slashid w') = org_ids (slashid w)
  /\ handle_owner (slashid w') = handle_owner (slashid w).
Proof.
  unfold Api.persons_person_id_delete. unfold_M.
  destruct (organizations (slashid w) !! org_id) as [o|]; [|done].
  by destruct (persons o !! person_id).
Qed.

Lemma persons_put_frame org_id req w :
  let w' := (Api.persons_put org_id req w).2 in
  pages w' = pages w
  /\ org_ids (slashid w') = org_ids (slashid w)
  /\ handle_owner (slashid w') = handle_owner (slashid w).
Proof.
  unfold Api.persons_put. unfold_M.
  destruct (organizations (slashid w) !! org_id) as [o|]; [|done].
  by destruct (Api.person_of_handles (slashid w) (req_handles req)).
Qed.

Lemma persons_person_id_handles_get_run person_id org_id w :
  Api.persons_person_id_handles_get person_id org_id w
  = (match Api.members (slashid w) org_id !! person_id with
     | Some _ => Ok (Api.handles_of (slashid w) person_id)
     | None => Raise (ApiException 404)
     end, w).
Proof.
  unfold Api.persons_person_id_handles_get. unfold_M.
  by destruct (Api.members (slashid w) org_id !! person_id).
Qed.

(** Setting permissions touches neither the registry, nor the index of
    organisation names, nor the handles of the pool. *)
Lemma set_user_permissions_frame user_id page_id permissions w :
  let w' := (set_user_permissions ROOT_ORG_ID user_id page_id permissions w).2 in
  pages w' = pages w
  /\ org_ids (slashid w') = org_ids (slashid w)
  /\ handle_owner (slashid w') = handle_owner (slashid w).
Proof.
  unfold set_user_permissions.
  destruct (bool_decide (page_id <> ROOT_ORG_ID) && bool_decide (permissions = ∅)).
  - apply persons_person_id_delete_frame.
  - rewrite bind_run, persons_person_id_handles_get_run.
    destruct (Api.members (slashid w) ROOT_ORG_ID !! user_id); [|done].
    apply persons_put_frame.
Qed.

Lemma post_page_conflict_run person_id page_path page_id body w :
  post_page ROOT_ORG_ID ROOT_ORG_NAME ADMIN_EMAILS person_id page_path
            (Some page_id) body w
  = (Raise (HTTPException HTTP_409_CONFLICT), w).
Proof. reflexivity. Qed.

Lemma POST_pages_run u page_path body w :
  POST_pages ROOT_ORG_ID ROOT_ORG_NAME ADMIN_EMAILS (Some (ValidToken u))
             page_path body w
  = post_page ROOT_ORG_ID ROOT_ORG_NAME ADMIN_EMAILS u (get_page_path page_path)
      (org_ids (slashid w) !! org_name ROOT_ORG_NAME (get_page_path page_path))
      body w.
Proof.
  unfold POST_pages. cbn [get_user_id]. rewrite !bind_run.
  cbn [mret M_ret require_user_id]. by rewrite bind_run, get_page_id_run.
Qed.

Lemma post_page_ok person_id page_path page_id body w w' :
  post_page ROOT_ORG_ID ROOT_ORG_NAME ADMIN_EMAILS person_id page_path page_id body w
  = (Ok tt, w') ->
  page_id = None
  /\ org_ids (slashid w) !! org_name ROOT_ORG_NAME page_path = None
  /\ exists parent_page_id new_page_id,
      org_ids (slashid w) !! org_name ROOT_ORG_NAME (Py.init page_path)
      = Some parent_page_id
      /\ org_ids (slashid w') !! org_name ROOT_ORG_NAME page_path = Some new_page_id
      /\ pages w' !! new_page_id
         = Some {| public := public (page_record w parent_page_id);
                   contents := body |}.
Proof.
  intros H. destruct page_id as [?|]; [discriminate|]. split; [done|].
  unfold post_page in H. rewrite !bind_run, get_page_id_run in H.
  destruct (org_ids (slashid w) !! org_name ROOT_ORG_NAME (Py.init page_path))
    as [parent|] eqn:Hparent; [|discriminate H].
  cbn [require_page_id mret M_ret] in H. rewrite bind_run in H.
  pose proof (require_permissions_readonly [Admin] (Some person_id) (Some parent) w)
    as Hro.
  destruct (require_permissions [Admin] (Some person_id) (Some parent) w)
    as [[S|e] w0]; simpl in Hro; subst w0; [|discriminate H].
  rewrite bind_run in H.
  destruct (Api.organizations_suborganizations_post _ _ w) as [[id|e] w1] eqn:Hpost;
    [|discriminate H].
  apply organizations_suborganizations_post_ok in Hpost as (Hfree & Hids & _ & Hpages).
  simpl in Hfree, Hids. split; [done|].
  rewrite bind_run in H.
  pose proof (set_user_permissions_frame person_id id S w1) as (Hp2 & Hi2 & _).
  destruct (set_user_permissions ROOT_ORG_ID person_id id S w1) as [[[]|e] w2];
    [|discriminate H].
  simpl in Hp2, Hi2.
  rewrite bind_run, pages_getitem_run in H.
  unfold pages_setitem in H. unfold_M. cbn [fst snd] in H.
  injection H as <-. exists parent, id. split; [done|].
  split.
  - destruct (pages w2 !! parent); simpl; rewrite Hi2, Hids; apply lookup_insert_eq.
  - assert (page_record w2 parent = page_record w parent) as ->
      by (unfold page_record; by rewrite Hp2, Hpages).
    destruct (pages w2 !! parent); simpl; apply lookup_insert_eq.
Qed.

End Registry.

(** C4. Creating a page that already exists ends with 409 Conflict and
    changes nothing: [post_page], given the id of the existing page,
    raises the conflict in the world it was called in, so does the
    [POST] route for an authenticated caller, and whatever the
    credentials are the route does not succeed and leaves the world,
    with the record of the existing page, as it was. *)
Theorem create_existing_page_conflicts
    (ROOT_ORG_ID : PageID) (ROOT_ORG_NAME : string) (ADMIN_EMAILS : list string)
    (w : World) (page_path : string) (page_id : PageID) :
  get_page_id ROOT_ORG_NAME (get_page_path page_path) w = (Ok (Some page_id), w) ->
  (forall person_id body,
     post_page ROOT_ORG_ID ROOT_ORG_NAME ADMIN_EMAILS person_id
               (get_page_path page_path) (Some page_id) body w
     = (Raise (HTTPException HTTP_409_CONFLICT), w))
  /\ (forall u body,
        POST_pages ROOT_ORG_ID ROOT_ORG_NAME ADMIN_EMAILS (Some (ValidToken u))
                   page_path body w
        = (Raise (HTTPException HTTP_409_CONFLICT), w))
  /\ (forall token body,
        ~ Allowed (POST_pages ROOT_ORG_ID ROOT_ORG_NAME ADMIN_EMAILS token
                     page_path body w)
        /\ (POST_pages ROOT_ORG_ID ROOT_ORG_NAME ADMIN_EMAILS token
              page_path body w).2 = w).
Proof.
  intros Hid. apply get_page_id_resolves in Hid.
  split; [intros; apply post_page_conflict_run|].
  split; [intros u body; by rewrite POST_pages_run, Hid|].
  intros [[u|]|] body.
  - rewrite POST_pages_run, Hid. split; [intros [a Ha]; discriminate Ha|done].
  - split; [intros [a Ha]; discriminate Ha|done].
  - split; [intros [a Ha]; discriminate Ha|done].
Qed.

Lemma create_existing_page_conflicts_witness :
  get_page_id Demo.ROOT_ORG_NAME (get_page_path "/foo/") Demo.world
  = (Ok (Some Demo.FOO_ID), Demo.world)
  /\ POST_pages Demo.ROOT_ORG_ID Demo.ROOT_ORG_NAME Demo.ADMIN_EMAILS
       (Some (ValidToken "alice")) "/foo/" "#123456" Demo.world
     = (Raise (HTTPException HTTP_409_CONFLICT), Demo.world).
Proof.
  split; [vm_compute; reflexivity|].
  apply (create_existing_page_conflicts Demo.ROOT_ORG_ID Demo.ROOT_ORG_NAME
           Demo.ADMIN_EMAILS Demo.world "/foo/" Demo.FOO_ID).
  vm_compute; reflexivity.
Defined.

(** C5. When [post_page] succeeds, the page did not exist, its parent
    did, and the new page, found under its path in the world after the
    call, has a record whose [public] flag is the flag of the parent's
    record at the time of the creation (the default record's when the
    registry held none for the parent) and whose contents are the body
    of the request. The creating user's permissions play no part in the
    flag. *)
Theorem created_page_inherits_public
    (ROOT_ORG_ID : PageID) (ROOT_ORG_NAME : string) (ADMIN_EMAILS : list string)
    (person_id : UserID) (page_path : PagePath) (page_id : option PageID)
    (body : string) (w w' : World) :
  post_page ROOT_ORG_ID ROOT_ORG_NAME ADMIN_EMAILS person_id page_path page_id body w
  = (Ok tt, w') ->
  exists parent_page_id new_page_id,
    get_page_id ROOT_ORG_NAME (Py.init page_path) w = (Ok (Some parent_page_id), w)
    /\ get_page_id ROOT_ORG_NAME page_path w = (Ok None, w)
    /\ get_page_id ROOT_ORG_NAME page_path w' = (Ok (Some new_page_id), w')
    /\ pages w' !! new_page_id
       = Some {| public := public (page_record w parent_page_id);
                 contents := body |}.
Proof.
  intros H. apply post_page_ok in H as (_ & Hfree & parent & id & Hparent & Hid & Hrec).
  exists parent, id. rewrite !get_page_id_resolves. done.
Qed.

Lemma created_page_inherits_public_witness :
  post_page Demo.ROOT_ORG_ID Demo.ROOT_ORG_NAME Demo.ADMIN_EMAILS "alice" ["bar"] None
            "#abcdef" Demo.world
  = (Ok tt, Demo.world_after_post)
  /\ exists parent_page_id new_page_id,
      get_page_id Demo.ROOT_ORG_NAME (Py.init ["bar"]) Demo.world
      = (Ok (Some parent_page_id), Demo.world)
      /\ get_page_id Demo.ROOT_ORG_NAME ["bar"] Demo.world = (Ok None, Demo.world)
      /\ get_page_id Demo.ROOT_ORG_NAME ["bar"] Demo.world_after_post
         = (Ok (Some new_page_id), Demo.world_after_post)
      /\ pages Demo.world_after_post !! new_page_id
         = Some {| public := public (page_record Demo.world parent_page_id);
                   contents := "#abcdef" |}.
Proof.
  split; [vm_compute; reflexivity|].
  apply (created_page_inherits_public Demo.ROOT_ORG_ID Demo.ROOT_ORG_NAME
           Demo.ADMIN_EMAILS "alice" ["bar"] None "#abcdef").
  vm_compute; reflexivity.
Defined.

(** Under the public root page the new page is public; under the page
    [/foo], which is not public, the new page is not. *)
Example created_page_scenarios :
  (GET_pages Demo.ROOT_ORG_NAME None "/bar" Demo.world_after_post).1 = Ok "#abcdef"
  /\ (GET_pages Demo.ROOT_ORG_NAME None "/foo/baz"
        (POST_pages Demo.ROOT_ORG_ID Demo.ROOT_ORG_NAME Demo.ADMIN_EMAILS
           (Some (ValidToken "carol")) "/foo/baz" "#abcdef" Demo.world).2).1
     = Raise (HTTPException HTTP_401_UNAUTHORIZED)
  /\ (GET_pages Demo.ROOT_ORG_NAME (Some (ValidToken "carol")) "/foo/baz"
        (POST_pages Demo.ROOT_ORG_ID Demo.ROOT_ORG_NAME Demo.ADMIN_EMAILS
           (Some (ValidToken "carol")) "/foo/baz" "#abcdef" Demo.world).2).1
     = Raise (HTTPException HTTP_403_FORBIDDEN).
Proof. repeat split; vm_compute; reflexivity. Qed.

(* ===================================================================== *)
(** * Properties of the membership updates                               *)
(* ===================================================================== *)

Section Gather.

Context {A : Type}.

Lemma gather_cons_world (c : M A) cs w :
  (gather (c :: cs) w).2 = (gather cs (c w).2).2.
Proof.
  simpl. destruct (c w) as [r w1]. simpl.
  by destruct (gather cs w1) as [rs w2].
Qed.

(** A property that the awaitables establish and keep, under an
    invariant they all keep, holds after [gather]. *)
Lemma gather_establishes (I Q : World -> Prop) (cs : list (M A)) :
  Forall (fun c => forall w, I w -> I (c w).2) cs ->
  Forall (fun c => forall w, I w -> Q w -> Q (c w).2) cs ->
  Exists (fun c => forall w, I w -> Q (c w).2) cs ->
  forall w, I w -> Q (gather cs w).2.
Proof.
  intros HI HQ. induction cs as [|c cs IH]; intros Hex w Hw.
  - by apply Exists_nil in Hex.
  - apply Forall_cons in HI as [HIc HIcs]. apply Forall_cons in HQ as [HQc HQcs].
    rewrite gather_cons_world.
    apply Exists_cons in Hex as [Hc|Hcs].
    + clear IH. specialize (Hc w Hw). specialize (HIc w Hw).
      revert Hc HIc. generalize (c w).2. clear w Hw.
      induction cs as [|c' cs IH]; intros w HQw HIw; [done|].
      apply Forall_cons in HIcs as [HIc' HIcs].
      apply Forall_cons in HQcs as [HQc' HQcs].
      rewrite gather_cons_world. apply IH; auto.
    + apply IH; auto.
Qed.

Lemma gather_preserves (I : World -> Prop) (cs : list (M A)) :
  Forall (fun c => forall w, I w -> I (c w).2) cs ->
  forall w, I w -> I (gather cs w).2.
Proof.
  induction cs as [|c cs IH]; intros HI w Hw; [done|].
  apply Forall_cons in HI as [HIc HIcs].
  rewrite gather_cons_world. apply IH; auto.
Qed.

End Gather.

Section Membership.

Variable ROOT_ORG_ID : PageID.

Lemma handles_of_owner p person_id h :
  h ∈ Api.handles_of p person_id -> handle_owner p !! h = Some person_id.
Proof.
  unfold Api.handles_of. intros Hh.
  apply list_elem_of_fmap in Hh as ([h' o] & -> & Hin).
  apply list_elem_of_In, List.filter_In in Hin as [Hin Ho].
  apply bool_decide_eq_true in Ho. simpl in Ho. subst o.
  by apply list_elem_of_In, elem_of_map_to_list in Hin.
Qed.

Lemma person_of_handles_of p person_id :
  Api.handles_of p person_id <> [] ->
  Api.person_of_handles p (Api.handles_of p person_id) = Some person_id.
Proof.
  intros Hne. pose proof (handles_of_owner p person_id) as Ho.
  destruct (Api.handles_of p person_id) as [|h hs]; [done|].
  simpl. apply Ho. by left.
Qed.

Lemma person_of_handles_of_inv p person_id person :
  Api.person_of_handles p (Api.handles_of p person_id) = Some person ->
  person = person_id.
Proof.
  intros H. destruct (decide (Api.handles_of p person_id = [])) as [E|E].
  - by rewrite E in H.
  - rewrite (person_of_handles_of _ _ E) in H. by injection H.
Qed.

Lemma members_insert p org_id o ps page_id :
  Api.members (Api.with_organizations p
                 (<[org_id := Api.org_with_persons o ps]> (organizations p))) page_id
  = if decide (org_id = page_id) then ps else Api.members p page_id.
Proof.
  unfold Api.members. simpl. rewrite lookup_insert.
  by destruct (decide (org_id = page_id)).
Qed.

(** Deleting a person from an organisation: that person is no member
    of it afterwards; nothing else changes. *)
Lemma persons_person_id_delete_groups person_id org_id w page_id u :
  groups_of (Api.persons_person_id_delete person_id org_id w).2 page_id u
  = if decide (page_id = org_id /\ u = person_id) then None
    else groups_of w page_id u.
Proof.
  unfold groups_of, Api.persons_person_id_delete. unfold_M.
  destruct (organizations (slashid w) !! org_id) as [o|] eqn:Ho.
  - destruct (persons o !! person_id) as [gs|] eqn:Hgs; simpl.
    + rewrite members_insert.
      destruct (decide (org_id = page_id)) as [<-|Hne].
      * rewrite lookup_delete. unfold Api.members. rewrite Ho.
        destruct (decide (person_id = u)) as [<-|Hu].
        -- by rewrite decide_True.
        -- rewrite decide_False; [done|]. intros [_ ->]. done.
      * rewrite decide_False; [done|]. intros [-> _]. done.
    + destruct (decide _) as [[-> ->]|]; [|done].
      unfold Api.members. by rewrite Ho.
  - simpl. destruct (decide _) as [[-> ->]|]; [|done].
    unfold Api.members. by rewrite Ho.
Qed.

(** Putting a person in an organisation: the person the handles
    identify gets the groups of the request there; nothing else
    changes. *)
Lemma persons_put_groups org_id req w page_id u :
  groups_of (Api.persons_put org_id req w).2 page_id u
  = match organizations (slashid w) !! org_id,
          Api.person_of_handles (slashid w) (req_handles req) with
    | Some _, Some person_id =>
        if decide (page_id = org_id /\ u = person_id) then Some (req_groups req)
        else groups_of w page_id u
    | _, _ => groups_of w page_id u
    end.
Proof.
  unfold groups_of, Api.persons_put. unfold_M.
  destruct (organizations (slashid w) !! org_id) as [o|] eqn:Ho; [|done].
  destruct (Api.person_of_handles (slashid w) (req_handles req)) as [person|];
    [|done].
  simpl. rewrite members_insert.
  destruct (decide (org_id = page_id)) as [<-|Hne].
  - rewrite lookup_insert. unfold Api.members. rewrite Ho.
    destruct (decide (person = u)) as [<-|Hu].
    + by rewrite decide_True.
    + rewrite decide_False; [done|]. intros [_ ->]. done.
  - rewrite decide_False; [done|]. intros [-> _]. done.
Qed.

Lemma set_user_permissions_other user_id page_id permissions w page u :
  u <> user_id ->
  groups_of (set_user_permissions ROOT_ORG_ID user_id page_id permissions w).2 page u
  = groups_of w page u.
Proof.
  intros Hu. unfold set_user_permissions.
  destruct (bool_decide (page_id <> ROOT_ORG_ID) && bool_decide (permissions = ∅)).
  - rewrite persons_person_id_delete_groups.
    rewrite decide_False; [done|]. by intros [_ ?].
  - rewrite bind_run, persons_person_id_handles_get_run.
    destruct (Api.members (slashid w) ROOT_ORG_ID !! user_id); [|done].
    rewrite persons_put_groups. cbn [req_handles req_groups].
    destruct (organizations (slashid w) !! page_id); [|done].
    destruct (Api.person_of_handles _ _) as [person|] eqn:Hp; [|done].
    apply person_of_handles_of_inv in Hp as ->.
    rewrite decide_False; [done|]. by intros [_ ?].
Qed.

(** Outside the root page, an empty permission set removes the user
    from the organisation of the page. *)
Lemma set_user_permissions_removes user_id page_id w :
  page_id <> ROOT_ORG_ID ->
  groups_of (set_user_permissions ROOT_ORG_ID user_id page_id ∅ w).2 page_id user_id
  = None.
Proof.
  intros Hne. unfold set_user_permissions.
  rewrite !bool_decide_eq_true_2 by done. cbn [andb].
  rewrite persons_person_id_delete_groups. by rewrite decide_True.
Qed.

(** On the root page no call removes anybody. *)
Lemma set_user_permissions_root_keeps user_id permissions w u :
  member w ROOT_ORG_ID u ->
  member (set_user_permissions ROOT_ORG_ID user_id ROOT_ORG_ID permissions w).2
         ROOT_ORG_ID u.
Proof.
  intros Hm. unfold member, set_user_permissions.
  rewrite bool_decide_eq_false_2 by (intros H; by apply H). cbn [andb].
  rewrite bind_run, persons_person_id_handles_get_run.
  destruct (Api.members (slashid w) ROOT_ORG_ID !! user_id); [|done].
  rewrite persons_put_groups. cbn [req_handles req_groups].
  destruct (organizations (slashid w) !! ROOT_ORG_ID); [|done].
  destruct (Api.person_of_handles _ _) as [person|]; [|done].
  by destruct (decide _).
Qed.

(** On the root page an empty permission set leaves the user a member,
    with no group. *)
Lemma set_user_permissions_root_empties user_id w :
  member w ROOT_ORG_ID user_id ->
  Api.handles_of (slashid w) user_id <> [] ->
  groups_of (set_user_permissions ROOT_ORG_ID user_id ROOT_ORG_ID ∅ w).2
            ROOT_ORG_ID user_id
  = Some [].
Proof.
  intros [gs Hm] Hh. unfold set_user_permissions.
  rewrite bool_decide_eq_false_2 by (intros H; by apply H). cbn [andb].
  unfold groups_of in Hm.
  rewrite bind_run, persons_person_id_handles_get_run, Hm.
  rewrite persons_put_groups. cbn [req_handles req_groups].
  rewrite (person_of_handles_of _ _ Hh).
  unfold Api.members in Hm.
  destruct (organizations (slashid w) !! ROOT_ORG_ID); [|done].
  rewrite decide_True by done. by rewrite elements_empty.
Qed.

Lemma elem_of_permission_updates page_id users c :
  c ∈ permission_updates ROOT_ORG_ID page_id users
  <-> exists entry permissions,
      entry ∈ users
      /\ patch_permissions entry = Some permissions
      /\ c = set_user_permissions ROOT_ORG_ID (patch_id entry) page_id permissions.
Proof.
  unfold permission_updates. rewrite list_elem_of_omap. split.
  - intros (entry & Hin & Hc). exists entry.
    destruct (patch_permissions entry) as [ps|]; [|done].
    exists ps. by injection Hc as <-.
  - intros (entry & ps & Hin & Hps & ->). exists entry. by rewrite Hps.
Qed.

(** What [patch_page_settings] leaves behind: the registry part does
    not touch the platform, and the updates of the users follow. *)
Lemma patch_page_settings_world page_id updates w :
  exists w0,
    slashid w0 = slashid w
    /\ (patch_page_settings ROOT_ORG_ID page_id updates w).2
       = match patch_users updates with
         | Some users => (gather (permission_updates ROOT_ORG_ID page_id users) w0).2
         | None => w0
         end.
Proof.
  unfold patch_page_settings.
  set (c := match patch_public updates with Some b => _ | None => mret tt end).
  assert (Hc : exists w0, c w = (Ok tt, w0) /\ slashid w0 = slashid w).
  { subst c. destruct (patch_public updates) as [b|].
    - rewrite bind_run, pages_getitem_run. unfold pages_setitem. unfold_M.
      cbn [fst snd]. eexists. split; [reflexivity|].
      by destruct (pages w !! page_id).
    - by exists w. }
  destruct Hc as (w0 & Hc & Hs). exists w0. split; [done|].
  rewrite (bind_ok _ _ _ _ _ Hc).
  destruct (patch_users updates) as [us|]; [|done].
  rewrite bind_run. by destruct (gather _ _) as [[r|e] w2].
Qed.

End Membership.

Lemma groups_of_platform w w' page_id u :
  slashid w = slashid w' -> groups_of w page_id u = groups_of w' page_id u.
Proof. unfold groups_of. by intros ->. Qed.

Lemma handles_of_frame p p' u :
  handle_owner p = handle_owner p' -> Api.handles_of p u = Api.handles_of p' u.
Proof. unfold Api.handles_of. by intros ->. Qed.

(** C3. A patch of the administration endpoint that lists a user with an
    empty permission set (and lists the user in no other way) removes
    the user from the organisation of the page when the page is not the
    root page. On the root page the same patch leaves a member a member:
    no deletion is sent, and for a user the pool has a handle of, the
    groups are set to none. *)
Theorem empty_permissions_remove_member_except_root
    (ROOT_ORG_ID page_id : PageID) (updates : PageSettingsPatch)
    (users : list UserPermissionsPatch) (u : UserID) (w : World) :
  patch_users updates = Some users ->
  (exists entry, entry ∈ users /\ patch_id entry = u) ->
  (forall entry, entry ∈ users -> patch_id entry = u ->
                 patch_permissions entry = Some ∅) ->
  (page_id <> ROOT_ORG_ID ->
   ~ member (patch_page_settings ROOT_ORG_ID page_id updates w).2 page_id u)
  /\ (page_id = ROOT_ORG_ID ->
      member w page_id u ->
      member (patch_page_settings ROOT_ORG_ID page_id updates w).2 page_id u
      /\ (Api.handles_of (slashid w) u <> [] ->
          groups_of (patch_page_settings ROOT_ORG_ID page_id updates w).2 page_id u
          = Some [])).
Proof.
  intros Husers (entry & Hin & Hid) Hempty.
  destruct (patch_page_settings_world ROOT_ORG_ID page_id updates w)
    as (w0 & Hplat & ->).
  rewrite Husers.
  set (cs := permission_updates ROOT_ORG_ID page_id users).
  assert (Hentry : set_user_permissions ROOT_ORG_ID u page_id ∅ ∈ cs).
  { apply elem_of_permission_updates. exists entry, ∅.
    split; [done|]. split; [by apply Hempty|by rewrite Hid]. }
  split.
  - intros Hne. unfold member.
    enough (groups_of (gather cs w0).2 page_id u = None) as -> by (by intros [? ?]).
    apply (gather_establishes (fun _ => True)
             (fun w => groups_of w page_id u = None)); [| | |done].
    + apply Forall_forall. done.
    + apply Forall_forall. intros c Hc w1 _ Hq.
      apply elem_of_permission_updates in Hc as (e & ps & He & Hps & ->).
      destruct (decide (patch_id e = u)) as [Heq|Hneq].
      * rewrite (Hempty e He Heq) in Hps. injection Hps as <-. rewrite Heq.
        by apply set_user_permissions_removes.
      * rewrite set_user_permissions_other by done. exact Hq.
    + apply Exists_exists. exists (set_user_permissions ROOT_ORG_ID u page_id ∅).
      split; [done|]. intros w1 _. by apply set_user_permissions_removes.
  - intros -> Hm.
    assert (Hm0 : member w0 ROOT_ORG_ID u).
    { unfold member. by rewrite (groups_of_platform w0 w). }
    assert (Hkeep : Forall (fun c : M unit =>
                forall w1, member w1 ROOT_ORG_ID u -> member (c w1).2 ROOT_ORG_ID u) cs).
    { apply Forall_forall. intros c Hc w1 Hw1.
      apply elem_of_permission_updates in Hc as (e & ps & He & Hps & ->).
      by apply set_user_permissions_root_keeps. }
    split; [by apply (gather_preserves (fun w => member w ROOT_ORG_ID u))|].
    intros Hh.
    apply (gather_establishes
             (fun w1 => member w1 ROOT_ORG_ID u
                        /\ Api.handles_of (slashid w1) u <> [])
             (fun w1 => groups_of w1 ROOT_ORG_ID u = Some [])).
    + apply Forall_forall. intros c Hc w1 [Hw1 Hh1]. split.
      * rewrite Forall_forall in Hkeep. by apply Hkeep.
      * apply elem_of_permission_updates in Hc as (e & ps & He & Hps & ->).
        pose proof (set_user_permissions_frame ROOT_ORG_ID (patch_id e) ROOT_ORG_ID
                      ps w1) as (_ & _ & Hho).
        by rewrite (handles_of_frame _ _ u Hho).
    + apply Forall_forall. intros c Hc w1 [Hw1 Hh1] Hq.
      apply elem_of_permission_updates in Hc as (e & ps & He & Hps & ->).
      destruct (decide (patch_id e = u)) as [Heq|Hneq].
      * rewrite (Hempty e He Heq) in Hps. injection Hps as <-. rewrite Heq.
        by apply set_user_permissions_root_empties.
      * rewrite set_user_permissions_other by done. exact Hq.
    + apply Exists_exists. exists (set_user_permissions ROOT_ORG_ID u ROOT_ORG_ID ∅).
      split; [done|]. intros w1 [Hw1 Hh1].
      by apply set_user_permissions_root_empties.
    + split; [done|]. by rewrite (handles_of_frame _ (slashid w) u) by (by rewrite Hplat).
Qed.

Lemma empty_permissions_remove_member_except_root_witness :
  (patch_users Demo.remove_bob
   = Some [ {| patch_id := "bob"; patch_permissions := Some ∅ |} ]
   /\ member Demo.world Demo.FOO_ID "bob")
  /\ ~ member (patch_page_settings Demo.ROOT_ORG_ID Demo.FOO_ID Demo.remove_bob
                 Demo.world).2 Demo.FOO_ID "bob".
Proof.
  split; [split; [reflexivity|by eexists]|].
  apply (empty_permissions_remove_member_except_root Demo.ROOT_ORG_ID Demo.FOO_ID
           Demo.remove_bob
           [ {| patch_id := "bob"; patch_permissions := Some ∅ |} ] "bob" Demo.world).
  - reflexivity.
  - eexists. split; [apply list_elem_of_here|reflexivity].
  - intros entry Hentry _. apply list_elem_of_singleton in Hentry. by subst entry.
  - vm_compute. intros H. discriminate H.
Defined.

(** The scenario on the two pages: after the patch [bob] is no member of
    the organisation of [/foo]; after the same patch on the root page he
    is still a member of the root organisation, with no group. *)
Example remove_bob_scenarios :
  groups_of Demo.world Demo.FOO_ID "bob" = Some ["read"]
  /\ groups_of Demo.world Demo.ROOT_ORG_ID "bob" = Some ["read"]
  /\ groups_of (patch_page_settings Demo.ROOT_ORG_ID Demo.FOO_ID Demo.remove_bob
                  Demo.world).2 Demo.FOO_ID "bob" = None
  /\ groups_of (patch_page_settings Demo.ROOT_ORG_ID Demo.ROOT_ORG_ID Demo.remove_bob
                  Demo.world).2 Demo.ROOT_ORG_ID "bob" = Some [].
Proof. repeat split; vm_compute; reflexivity. Qed.

(* ===================================================================== *)
(** * Deletion and missing credentials                                   *)
(* ===================================================================== *)

(** C9. Deleting a page is not implemented: [delete_page] raises 501
    for every page and changes nothing; the [DELETE] route never
    succeeds and never changes the platform or the registry, and for a
    caller the gate lets through it ends with 501. *)
Theorem delete_is_not_implemented (ROOT_ORG_NAME : string) :
  (forall page_id w,
     delete_page page_id w = (Raise (HTTPException HTTP_501_NOT_IMPLEMENTED), w))
  /\ (forall token page_path w,
        ~ Allowed (DELETE_pages ROOT_ORG_NAME token page_path w)
        /\ (DELETE_pages ROOT_ORG_NAME token page_path w).2 = w)
  /\ (forall u page_path page_id S w,
        get_page_id ROOT_ORG_NAME (get_page_path page_path) w = (Ok (Some page_id), w) ->
        caller_permissions (Some u) page_id w S ->
        Admin ∈ S ->
        DELETE_pages ROOT_ORG_NAME (Some (ValidToken u)) page_path w
        = (Raise (HTTPException HTTP_501_NOT_IMPLEMENTED), w)).
Proof.
  split; [reflexivity|]. split.
  - intros token page_path w. unfold DELETE_pages.
    rewrite bind_run, depends_require_permissions_run.
    destruct token as [[u|]|];
      try (split; [intros [a Ha]; discriminate Ha|reflexivity]).
    destruct (org_ids (slashid w) !! _) as [id|];
      [|split; [intros [a Ha]; discriminate Ha|reflexivity]].
    destruct (require_permissions [Admin] (Some u) (Some id) w) as [[S|e] w1];
      (split; [intros [a Ha]; discriminate Ha|reflexivity]).
  - intros u page_path page_id S w Hid HS HAdmin.
    apply get_page_id_resolves in Hid. unfold DELETE_pages.
    rewrite bind_run, depends_require_permissions_run, Hid.
    rewrite (require_permissions_run _ _ _ _ _ HS).
    rewrite decide_True by (by repeat constructor). reflexivity.
Qed.

Lemma delete_is_not_implemented_witness :
  (get_page_id Demo.ROOT_ORG_NAME (get_page_path "/foo") Demo.world
   = (Ok (Some Demo.FOO_ID), Demo.world)
   /\ caller_permissions (Some "carol") Demo.FOO_ID Demo.world {[Admin]})
  /\ DELETE_pages Demo.ROOT_ORG_NAME (Some (ValidToken "carol")) "/foo" Demo.world
     = (Raise (HTTPException HTTP_501_NOT_IMPLEMENTED), Demo.world).
Proof.
  split; [split; vm_compute; reflexivity|].
  apply (proj2 (proj2 (delete_is_not_implemented Demo.ROOT_ORG_NAME))
           "carol" "/foo" Demo.FOO_ID {[Admin]} Demo.world).
  - vm_compute; reflexivity.
  - vm_compute; reflexivity.
  - vm_compute; reflexivity.
Defined.

(** C8 (as amended). Without credentials, writing, deleting, creating
    and the two administration routes end with 401 on every path and
    change nothing, and reading a page whose record is not public ends
    with 401 as well; 401 is not the 403 of a denied caller. Reading a
    page whose record is public needs no credentials: it answers the
    contents. *)
Theorem absent_caller_is_unauthenticated
    (ROOT_ORG_ID : PageID) (ROOT_ORG_NAME : string) (ADMIN_EMAILS : list string)
    (w : World) (page_path : string) :
  (forall body,
     PUT_pages ROOT_ORG_NAME None page_path body w
     = (Raise (HTTPException HTTP_401_UNAUTHORIZED), w))
  /\ DELETE_pages ROOT_ORG_NAME None page_path w
     = (Raise (HTTPException HTTP_401_UNAUTHORIZED), w)
  /\ (forall body,
        POST_pages ROOT_ORG_ID ROOT_ORG_NAME ADMIN_EMAILS None page_path body w
        = (Raise (HTTPException HTTP_401_UNAUTHORIZED), w))
  /\ GET_admin ROOT_ORG_ID ROOT_ORG_NAME None page_path w
     = (Raise (HTTPException HTTP_401_UNAUTHORIZED), w)
  /\ (forall updates,
        PATCH_admin ROOT_ORG_ID ROOT_ORG_NAME None page_path updates w
        = (Raise (HTTPException HTTP_401_UNAUTHORIZED), w))
  /\ (forall page_id,
        get_page_id ROOT_ORG_NAME (get_page_path page_path) w = (Ok (Some page_id), w) ->
        public (page_record w page_id) = false ->
        Unauthenticated (GET_pages ROOT_ORG_NAME None page_path w)
        /\ ~ Denied (GET_pages ROOT_ORG_NAME None page_path w))
  /\ (forall page_id,
        get_page_id ROOT_ORG_NAME (get_page_path page_path) w = (Ok (Some page_id), w) ->
        public (page_record w page_id) = true ->
        (GET_pages ROOT_ORG_NAME None page_path w).1
        = Ok (contents (page_record w page_id))).
Proof.
  split; [|split; [|split; [|split; [|split; [|split]]]]].
  - intros body. unfold PUT_pages.
    by rewrite bind_run, depends_require_permissions_unauthenticated.
  - unfold DELETE_pages.
    by rewrite bind_run, depends_require_permissions_unauthenticated.
  - reflexivity.
  - unfold GET_admin.
    by rewrite bind_run, depends_require_permissions_unauthenticated.
  - intros updates. unfold PATCH_admin.
    by rewrite bind_run, depends_require_permissions_unauthenticated.
  - intros page_id Hid Hpub. apply get_page_id_resolves in Hid.
    unfold Unauthenticated, Denied.
    rewrite GET_pages_run, Hid, (get_page_not_public _ _ _ Hpub).
    split; [reflexivity|intros Hd; discriminate Hd].
  - intros page_id Hid Hpub. apply get_page_id_resolves in Hid.
    rewrite GET_pages_run, Hid. by rewrite (get_page_public _ _ _ Hpub).
Qed.

Lemma absent_caller_is_unauthenticated_witness :
  (get_page_id Demo.ROOT_ORG_NAME (get_page_path "/foo") Demo.world
   = (Ok (Some Demo.FOO_ID), Demo.world)
   /\ public (page_record Demo.world Demo.FOO_ID) = false)
  /\ Unauthenticated (GET_pages Demo.ROOT_ORG_NAME None "/foo" Demo.world).
Proof.
  split; [split; vm_compute; reflexivity|].
  apply (absent_caller_is_unauthenticated Demo.ROOT_ORG_ID Demo.ROOT_ORG_NAME
           Demo.ADMIN_EMAILS Demo.world "/foo") with Demo.FOO_ID.
  - vm_compute; reflexivity.
  - vm_compute; reflexivity.
Defined.

(** C8 (as stated) fails for reading a public page: without credentials
    the [GET] route on the public root page answers the contents; it is
    not unauthenticated. *)
Lemma public_page_is_read_without_credentials :
  public (page_record Demo.world Demo.ROOT_ORG_ID) = true
  /\ GET_pages Demo.ROOT_ORG_NAME None "/" Demo.world = (Ok "#ffffff", Demo.world)
  /\ ~ Unauthenticated (GET_pages Demo.ROOT_ORG_NAME None "/" Demo.world).
Proof.
  split; [reflexivity|]. split; [vm_compute; reflexivity|].
  vm_compute. intros H. discriminate H.
Qed.

(* ===================================================================== *)
(** * Properties of the frontend route guard                             *)
(* ===================================================================== *)

(** The loop over the required permissions ends with the children when
    [raw] includes every one of them. *)
Lemma for_permissions_children raw belongsTo children fallback :
  Forall (fun permission => permission ∈ raw) belongsTo ->
  Frontend.for_permissions raw belongsTo children fallback = children.
Proof.
  induction 1 as [|permission rest Hin _ IH]; simpl; [done|].
  unfold Frontend.includes. by rewrite bool_decide_eq_true_2.
Qed.

(** C10 (as amended). In the route guard of the frontend, while one of
    the two queries is loading the guard renders the loading indicator,
    and when one has failed it renders the error page. Once both have
    settled without error, a page whose admin info says [public] is
    rendered to the caller whatever the list of required permissions
    is, [write] and [admin] included, and whatever groups the caller
    has: the bypass of the client is not limited to reading. *)
Theorem public_page_bypasses_route_guard
    (props : Frontend.Props) (groups : Frontend.GroupsQuery)
    (info : Frontend.AdminPageInfoQuery) :
  (Frontend.isGroupsLoading groups || Frontend.isAdminPageInfoLoading info = true ->
   Frontend.AssertGroups props groups info = Frontend.Loading true)
  /\ (Frontend.isGroupsLoading groups || Frontend.isAdminPageInfoLoading info = false ->
      Frontend.isGroupsError groups || Frontend.isAdminPageInfoError info = true ->
      Frontend.AssertGroups props groups info = Frontend.Oops None)
  /\ (forall d,
        Frontend.isGroupsLoading groups = false ->
        Frontend.isAdminPageInfoLoading info = false ->
        Frontend.isGroupsError groups = false ->
        Frontend.isAdminPageInfoError info = false ->
        Frontend.data info = Some d ->
        Frontend.public d = true ->
        Frontend.AssertGroups props groups info = Frontend.children props).
Proof.
  unfold Frontend.AssertGroups. split; [|split].
  - by intros ->.
  - by intros -> ->.
  - intros d Hgl Hal Hge Hae Hd Hp. by rewrite Hgl, Hal, Hge, Hae, Hd, Hp.
Qed.

Lemma public_page_bypasses_route_guard_witness :
  Frontend.AssertGroups
    {| Frontend.root := "edit";
       Frontend.belongsTo := ["write"; "admin"];
       Frontend.children := Frontend.Markup "PageEdit";
       Frontend.fallback := None |}
    {| Frontend.isGroupsLoading := false;
       Frontend.isGroupsError := false;
       Frontend.isViewer := false;
       Frontend.isAdmin := false;
       Frontend.isEditor := false;
       Frontend.raw := [] |}
    {| Frontend.data := Some {| Frontend.public := true; Frontend.users := [] |};
       Frontend.isAdminPageInfoLoading := false;
       Frontend.isAdminPageInfoError := false |}
  = Frontend.Markup "PageEdit".
Proof.
  exact (proj2 (proj2 (public_page_bypasses_route_guard
           {| Frontend.root := "edit";
              Frontend.belongsTo := ["write"; "admin"];
              Frontend.children := Frontend.Markup "PageEdit";
              Frontend.fallback := None |}
           {| Frontend.isGroupsLoading := false;
              Frontend.isGroupsError := false;
              Frontend.isViewer := false;
              Frontend.isAdmin := false;
              Frontend.isEditor := false;
              Frontend.raw := [] |}
           {| Frontend.data := Some {| Frontend.public := true; Frontend.users := [] |};
              Frontend.isAdminPageInfoLoading := false;
              Frontend.isAdminPageInfoError := false |}))
           {| Frontend.public := true; Frontend.users := [] |}
           eq_refl eq_refl eq_refl eq_refl eq_refl eq_refl).
Defined.

(** The same caller, with no group, on the same route of a page that is
    not public gets the fallback. *)
Example route_guard_not_public :
  Frontend.AssertGroups
    {| Frontend.root := "edit";
       Frontend.belongsTo := ["write"; "admin"];
       Frontend.children := Frontend.Markup "PageEdit";
       Frontend.fallback := None |}
    {| Frontend.isGroupsLoading := false;
       Frontend.isGroupsError := false;
       Frontend.isViewer := false;
       Frontend.isAdmin := false;
       Frontend.isEditor := false;
       Frontend.raw := [] |}
    {| Frontend.data := Some {| Frontend.public := false; Frontend.users := [] |};
       Frontend.isAdminPageInfoLoading := false;
       Frontend.isAdminPageInfoError := false |}
  = Frontend.Oops (Some "You do not have permission to view this page").
Proof. reflexivity. Qed.

(** C10 (as stated) fails while the groups of the caller are still
    loading: the admin info of the page says [public], and the guard
    renders the loading indicator, not the children. *)
Lemma route_guard_waits_for_groups :
  Frontend.AssertGroups
    {| Frontend.root := "edit";
       Frontend.belongsTo := ["write"; "admin"];
       Frontend.children := Frontend.Markup "PageEdit";
       Frontend.fallback := None |}
    {| Frontend.isGroupsLoading := true;
       Frontend.isGroupsError := false;
       Frontend.isViewer := false;
       Frontend.isAdmin := false;
       Frontend.isEditor := false;
       Frontend.raw := [] |}
    {| Frontend.data := Some {| Frontend.public := true; Frontend.users := [] |};
       Frontend.isAdminPageInfoLoading := false;
       Frontend.isAdminPageInfoError := false |}
  <> Frontend.Markup "PageEdit".
Proof. discriminate. Qed.

(* ===================================================================== *)
(** * Further properties of the path resolver                            *)
(* ===================================================================== *)

Section Segments.

Variable sep : Ascii.ascii.

Lemma split_no_sep s : has_char sep s = false -> Py.split sep s = [s].
Proof.
  induction s as [|c s IH]; simpl; [done|].
  destruct (Ascii.eqb c sep); [done|]. simpl. intros H. by rewrite IH.
Qed.

Lemma split_pieces_no_sep s :
  Forall (fun x => has_char sep x = false) (Py.split sep s).
Proof.
  induction s as [|c s IH]; simpl; [by repeat constructor|].
  destruct (Ascii.eqb c sep) eqn:E; [by constructor|].
  destruct (Py.split sep s) as [|x xs]; [by repeat constructor; simpl; rewrite E|].
  apply Forall_cons in IH as [Hx Hxs]. constructor; [|done].
  simpl. by rewrite E.
Qed.

(** Splitting a joined list gives the list back, when the separator
    occurs in none of its elements but possibly the first. *)
Lemma split_join_cons x l :
  Forall (fun y => has_char sep y = false) l ->
  Py.split sep (Py.join (String sep EmptyString) (x :: l)) = Py.split sep x ++ l.
Proof.
  revert x. induction l as [|y l IH]; intros x Hl.
  - simpl. by rewrite app_nil_r.
  - apply Forall_cons in Hl as [Hy Hl].
    change (Py.join (String sep EmptyString) (x :: y :: l))
      with (x +:+ String sep (Py.join (String sep EmptyString) (y :: l))).
    by rewrite split_app_sep, IH, (split_no_sep y).
Qed.

End Segments.

Lemma get_page_path_slash_free p :
  Forall (fun x => has_char "/" x = false) (get_page_path p).
Proof.
  unfold get_page_path. apply Forall_forall. intros x Hx.
  apply list_elem_of_In, List.filter_In in Hx as [Hx _].
  pose proof (split_pieces_no_sep "/" p) as H.
  rewrite Forall_forall in H. by apply H, list_elem_of_In.
Qed.

Lemma filter_truthy_id l :
  Forall (fun x => x <> EmptyString) l -> List.filter Py.truthy l = l.
Proof.
  induction 1 as [|x l Hx _ IH]; simpl; [done|].
  destruct x; [done|]. simpl. by rewrite IH.
Qed.

Lemma get_page_path_join segs :
  Forall (fun x => has_char "/" x = false) segs ->
  get_page_path (Py.join "/" segs) = List.filter Py.truthy segs.
Proof.
  intros H. unfold get_page_path. destruct segs as [|x l]; [done|].
  apply Forall_cons in H as [Hx Hl].
  by rewrite (split_join_cons "/" x l Hl), (split_no_sep "/" x Hx).
Qed.

(** X1. The segments [get_page_path] returns are never empty and hold no
    slash, and they are a normal form: joining them with slashes and
    resolving the result gives the same segments again. More generally,
    resolving the join of slash-free pieces drops exactly the empty
    pieces. *)
Theorem get_page_path_normal_form :
  (forall p,
     Forall (fun x => x <> EmptyString /\ has_char "/" x = false) (get_page_path p))
  /\ (forall p, get_page_path (Py.join "/" (get_page_path p)) = get_page_path p)
  /\ (forall segs,
        Forall (fun x => has_char "/" x = false) segs ->
        get_page_path (Py.join "/" segs) = List.filter Py.truthy segs).
Proof.
  split; [|split].
  - intros p. pose proof (get_page_path_segments p) as H1.
    pose proof (get_page_path_slash_free p) as H2.
    rewrite Forall_forall in H1, H2. apply Forall_forall. intros x Hx. split; auto.
  - intros p. rewrite get_page_path_join by apply get_page_path_slash_free.
    apply filter_truthy_id, get_page_path_segments.
  - exact get_page_path_join.
Qed.

Lemma get_page_path_normal_form_witness :
  Forall (fun x => has_char "/" x = false) ["foo"; EmptyString; "bar"]
  /\ get_page_path (Py.join "/" ["foo"; EmptyString; "bar"]) = ["foo"; "bar"].
Proof.
  split; [by repeat constructor|].
  apply (proj2 (proj2 get_page_path_normal_form) ["foo"; EmptyString; "bar"]).
  by repeat constructor.
Defined.

(** X2. Different pages are backed by different organisations: two raw
    paths whose organisation names are equal resolve to the same
    segments, whatever the name of the root organisation is. *)
Theorem org_name_injective (ROOT_ORG_NAME : string) (p q : string) :
  org_name ROOT_ORG_NAME (get_page_path p) = org_name ROOT_ORG_NAME (get_page_path q) ->
  get_page_path p = get_page_path q.
Proof.
  unfold org_name. intros H. apply (f_equal (Py.split "/")) in H.
  change ([ROOT_ORG_NAME] ++ get_page_path p) with (ROOT_ORG_NAME :: get_page_path p) in H.
  change ([ROOT_ORG_NAME] ++ get_page_path q) with (ROOT_ORG_NAME :: get_page_path q) in H.
  rewrite !split_join_cons in H by apply get_page_path_slash_free.
  by apply app_inv_head in H.
Qed.

Lemma org_name_injective_witness :
  org_name "MyOrg" (get_page_path "/foo//bar/") = org_name "MyOrg" (get_page_path "foo/bar")
  /\ get_page_path "/foo//bar/" = get_page_path "foo/bar".
Proof.
  split; [reflexivity|].
  apply (org_name_injective "MyOrg" "/foo//bar/" "foo/bar"). reflexivity.
Defined.

(* ===================================================================== *)
(** * Further properties of the routes                                   *)
(* ===================================================================== *)

(** X3. The routes that depend on [require_permissions] check the
    caller first, the page second and the permissions last: without
    valid credentials the answer is 401 whether the page exists or not,
    for an authenticated caller on a path with no page it is 404
    whatever the caller's permissions are, and otherwise the gate
    decides between 403 and the page id. The world is never changed by
    these checks. *)
Theorem gate_checks_caller_then_page_then_permissions
    (ROOT_ORG_NAME : string) (permissions : list Permission)
    (page_path : string) (w : World) :
  (forall token,
     token = None \/ token = Some InvalidToken ->
     depends_require_permissions ROOT_ORG_NAME permissions token page_path w
     = (Raise (HTTPException HTTP_401_UNAUTHORIZED), w))
  /\ (forall u,
        get_page_id ROOT_ORG_NAME (get_page_path page_path) w = (Ok None, w) ->
        depends_require_permissions ROOT_ORG_NAME permissions (Some (ValidToken u))
                                    page_path w
        = (Raise (HTTPException HTTP_404_NOT_FOUND), w))
  /\ (forall u page_id S,
        get_page_id ROOT_ORG_NAME (get_page_path page_path) w = (Ok (Some page_id), w) ->
        caller_permissions (Some u) page_id w S ->
        depends_require_permissions ROOT_ORG_NAME permissions (Some (ValidToken u))
                                    page_path w
        = if decide (Forall (fun p => p ∈ S) permissions)
          then (Ok page_id, w)
          else (Raise (HTTPException HTTP_403_FORBIDDEN), w)).
Proof.
  split; [|split].
  - intros token [->| ->]; by rewrite depends_require_permissions_run.
  - intros u Hid. apply get_page_id_resolves in Hid.
    by rewrite depends_require_permissions_run, Hid.
  - intros u page_id S Hid HS. apply get_page_id_resolves in Hid.
    rewrite depends_require_permissions_run, Hid.
    rewrite (require_permissions_run _ _ _ _ _ HS).
    by destruct (decide (Forall _ permissions)).
Qed.

Lemma gate_checks_caller_then_page_then_permissions_witness :
  get_page_id Demo.ROOT_ORG_NAME (get_page_path "/nowhere") Demo.world
  = (Ok None, Demo.world)
  /\ depends_require_permissions Demo.ROOT_ORG_NAME [Write] (Some (ValidToken "bob"))
       "/nowhere" Demo.world
     = (Raise (HTTPException HTTP_404_NOT_FOUND), Demo.world).
Proof.
  split; [vm_compute; reflexivity|].
  apply (gate_checks_caller_then_page_then_permissions Demo.ROOT_ORG_NAME [Write]
           "/nowhere" Demo.world).
  vm_compute; reflexivity.
Defined.

(** X4. The [GET] route looks for the page before it looks at the
    caller: a token that does not validate is rejected with 401 on
    every path, also a public page's, and a caller without credentials
    or with valid ones gets 404 on a path with no page. Neither changes
    the world. *)
Theorem GET_pages_invalid_token_or_missing_page
    (ROOT_ORG_NAME : string) (page_path : string) (w : World) :
  GET_pages ROOT_ORG_NAME (Some InvalidToken) page_path w
  = (Raise (HTTPException HTTP_401_UNAUTHORIZED), w)
  /\ (forall token,
        token <> Some InvalidToken ->
        get_page_id ROOT_ORG_NAME (get_page_path page_path) w = (Ok None, w) ->
        GET_pages ROOT_ORG_NAME token page_path w
        = (Raise (HTTPException HTTP_404_NOT_FOUND), w)).
Proof.
  split; [by rewrite GET_pages_run|].
  intros token Htok Hid. apply get_page_id_resolves in Hid.
  rewrite GET_pages_run, Hid. by destruct token as [[u|]|].
Qed.

Lemma GET_pages_invalid_token_or_missing_page_witness :
  get_page_id Demo.ROOT_ORG_NAME (get_page_path "/nowhere") Demo.world
  = (Ok None, Demo.world)
  /\ GET_pages Demo.ROOT_ORG_NAME None "/nowhere" Demo.world
     = (Raise (HTTPException HTTP_404_NOT_FOUND), Demo.world).
Proof.
  split; [vm_compute; reflexivity|].
  apply (GET_pages_invalid_token_or_missing_page Demo.ROOT_ORG_NAME "/nowhere"
           Demo.world).
  - discriminate.
  - vm_compute; reflexivity.
Defined.

(* ===================================================================== *)
(** * Further properties of the page registry                            *)
(* ===================================================================== *)

Lemma put_page_world page_id body w :
  put_page page_id body w
  = (Ok tt,
     {| slashid := slashid w;
        pages := <[page_id := {| public := public (page_record w page_id);
                                 contents := body |}]> (pages w) |}).
Proof.
  unfold put_page. rewrite bind_run, pages_getitem_run.
  unfold pages_setitem. unfold_M. cbn [fst snd].
  destruct (pages w !! page_id); cbn [pages slashid]; [done|].
  by rewrite insert_insert_eq.
Qed.

Lemma page_record_insert w page_id page :
  page_record {| slashid := slashid w; pages := <[page_id := page]> (pages w) |} page_id
  = page.
Proof. unfold page_record. simpl. by rewrite lookup_insert_eq. Qed.

(** What [get_page] answers on a page that has a record. *)
Lemma get_page_registered person_id page_id page w :
  pages w !! page_id = Some page ->
  get_page person_id page_id w
  = if public page then (Ok (contents page), w)
    else match require_permissions [Read] person_id (Some page_id) w with
         | (Ok _, _) => (Ok (contents page), w)
         | (Raise e, _) => (Raise e, w)
         end.
Proof.
  intros Hp.
  assert (Hrec : page_record w page_id = page) by (unfold page_record; by rewrite Hp).
  assert (Hw : (pages_getitem page_id w).2 = w) by (by rewrite pages_getitem_run, Hp).
  destruct (public page) eqn:Hpub.
  - rewrite get_page_public by (by rewrite Hrec). by rewrite Hrec, Hw.
  - rewrite get_page_not_public by (by rewrite Hrec). cbv zeta. by rewrite Hrec, Hw.
Qed.

(** X5. Writing a page and reading it back: when the [PUT] route
    succeeds, the platform is untouched, the record of the page keeps
    its [public] flag and holds the body, the records of the other
    pages are what they were, and every caller the [GET] route then
    lets through reads the body that was written. *)
Theorem PUT_then_GET
    (ROOT_ORG_NAME : string) (token : option Credentials) (page_path body : string)
    (w w' : World) :
  PUT_pages ROOT_ORG_NAME token page_path body w = (Ok tt, w') ->
  exists page_id,
    get_page_id ROOT_ORG_NAME (get_page_path page_path) w = (Ok (Some page_id), w)
    /\ slashid w' = slashid w
    /\ pages w' = <[page_id := {| public := public (page_record w page_id);
                                 contents := body |}]> (pages w)
    /\ (forall reader,
          Allowed (GET_pages ROOT_ORG_NAME reader page_path w') ->
          GET_pages ROOT_ORG_NAME reader page_path w' = (Ok body, w')).
Proof.
  intros H. unfold PUT_pages in H.
  rewrite bind_run, depends_require_permissions_run in H.
  destruct token as [[u|]|]; try discriminate H.
  destruct (org_ids (slashid w) !! org_name ROOT_ORG_NAME (get_page_path page_path))
    as [page_id|] eqn:Hid; [|discriminate H].
  destruct (require_permissions [Write] (Some u) (Some page_id) w) as [[S|e] w1];
    [|discriminate H].
  rewrite put_page_world in H. injection H as <-.
  exists page_id. split; [by apply get_page_id_resolves|].
  split; [done|]. split; [done|].
  intros reader [a Ha]. rewrite GET_pages_run in Ha |- *. cbn [slashid] in Ha |- *.
  destruct reader as [[r|]|]; try discriminate Ha; rewrite Hid in Ha |- *.
  - erewrite get_page_registered in Ha |- * by apply lookup_insert_eq.
    cbn [public contents] in Ha |- *.
    destruct (public (page_record w page_id)); [done|].
    by destruct (require_permissions _ _ _ _) as [[S'|e] w2].
  - erewrite get_page_registered in Ha |- * by apply lookup_insert_eq.
    cbn [public contents] in Ha |- *.
    destruct (public (page_record w page_id)); [done|].
    by destruct (require_permissions _ _ _ _) as [[S'|e] w2].
Qed.

Lemma PUT_then_GET_witness :
  PUT_pages Demo.ROOT_ORG_NAME (Some (ValidToken "alice")) "/foo" "#123456" Demo.world
  = (Ok tt, (PUT_pages Demo.ROOT_ORG_NAME (Some (ValidToken "alice")) "/foo" "#123456"
               Demo.world).2)
  /\ exists page_id,
      get_page_id Demo.ROOT_ORG_NAME (get_page_path "/foo") Demo.world
      = (Ok (Some page_id), Demo.world)
      /\ slashid (PUT_pages Demo.ROOT_ORG_NAME (Some (ValidToken "alice")) "/foo"
                    "#123456" Demo.world).2 = slashid Demo.world
      /\ pages (PUT_pages Demo.ROOT_ORG_NAME (Some (ValidToken "alice")) "/foo"
                  "#123456" Demo.world).2
         = <[page_id := {| public := public (page_record Demo.world page_id);
                           contents := "#123456" |}]> (pages Demo.world)
      /\ (forall reader,
            Allowed (GET_pages Demo.ROOT_ORG_NAME reader "/foo"
                       (PUT_pages Demo.ROOT_ORG_NAME (Some (ValidToken "alice")) "/foo"
                          "#123456" Demo.world).2) ->
            GET_pages Demo.ROOT_ORG_NAME reader "/foo"
              (PUT_pages Demo.ROOT_ORG_NAME (Some (ValidToken "alice")) "/foo"
                 "#123456" Demo.world).2
            = (Ok "#123456",
               (PUT_pages Demo.ROOT_ORG_NAME (Some (ValidToken "alice")) "/foo"
                  "#123456" Demo.world).2)).
Proof.
  split; [vm_compute; reflexivity|].
  apply (PUT_then_GET Demo.ROOT_ORG_NAME (Some (ValidToken "alice")) "/foo" "#123456"
           Demo.world).
  vm_compute; reflexivity.
Defined.

(** X6. Reading a page the registry has no record of yet (every page
    after a restart) registers the default record, also when the caller
    is turned away: the page is then treated as not public, a caller
    whose permission set holds [Read] gets the default contents, any
    other authenticated caller 403 and a caller without credentials
    401. *)
Theorem get_page_registers_default
    (person_id : option UserID) (page_id : PageID) (w : World)
    (S : gset Permission) :
  pages w !! page_id = None ->
  caller_permissions person_id page_id w S ->
  get_page person_id page_id w
  = (if decide (Read ∈ S) then Ok (contents default_page)
     else match person_id with
          | Some _ => Raise (HTTPException HTTP_403_FORBIDDEN)
          | None => Raise (HTTPException HTTP_401_UNAUTHORIZED)
          end,
     {| slashid := slashid w; pages := <[page_id := default_page]> (pages w) |}).
Proof.
  intros Hnone HS.
  assert (Hrec : page_record w page_id = default_page)
    by (unfold page_record; by rewrite Hnone).
  rewrite get_page_not_public by (by rewrite Hrec). cbv zeta.
  rewrite Hrec, pages_getitem_run, Hnone. cbn [snd].
  set (w1 := {| slashid := slashid w; pages := _ |}).
  assert (HS1 : caller_permissions person_id page_id w1 S)
    by (by apply (caller_permissions_registry _ _ w w1)).
  destruct person_id as [u|].
  - rewrite (require_permissions_run _ _ _ _ _ HS1).
    destruct (decide (Read ∈ S)) as [Hr|Hr].
    + by rewrite decide_True by (by repeat constructor).
    + rewrite decide_False; [done|]. by inversion 1.
  - apply caller_permissions_absent in HS as ->. simpl.
    rewrite decide_False; [done|]. apply not_elem_of_empty.
Qed.

Lemma get_page_registers_default_witness :
  (pages {| slashid := Demo.platform; pages := ∅ |} !! Demo.FOO_ID = None
   /\ caller_permissions (Some "bob") Demo.FOO_ID
        {| slashid := Demo.platform; pages := ∅ |} {[Read]})
  /\ get_page (Some "bob") Demo.FOO_ID {| slashid := Demo.platform; pages := ∅ |}
     = (Ok "default content",
        {| slashid := Demo.platform; pages := {[ Demo.FOO_ID := default_page ]} |}).
Proof.
  split; [split; vm_compute; reflexivity|].
  rewrite (get_page_registers_default (Some "bob") Demo.FOO_ID
             {| slashid := Demo.platform; pages := ∅ |} {[Read]})
    by (vm_compute; reflexivity).
  vm_compute; reflexivity.
Defined.

Section Patch.

Variable ROOT_ORG_ID : PageID.

(** The world the registry part of [patch_page_settings] hands to the
    updates of the users. *)
Lemma patch_page_settings_registry page_id updates w :
  let w0 :=
    match patch_public updates with
    | Some b =>
        {| slashid := slashid w;
           pages := <[page_id := {| public := b;
                                    contents := contents (page_record w page_id) |}]>
                      (pages w) |}
    | None => w
    end in
  patch_page_settings ROOT_ORG_ID page_id updates w
  = match patch_users updates with
    | Some users =>
        match gather (permission_updates ROOT_ORG_ID page_id users) w0 with
        | (Ok _, w') => (Ok tt, w')
        | (Raise e, w') => (Raise e, w')
        end
    | None => (Ok tt, w0)
    end.
Proof.
  cbv zeta. unfold patch_page_settings. rewrite bind_run.
  destruct (patch_public updates) as [b|].
  - rewrite bind_run, pages_getitem_run. unfold pages_setitem. unfold_M.
    cbn [fst snd].
    assert (Hins : forall (m : World),
               m = match pages w !! page_id with
                   | Some _ => w
                   | None => {| slashid := slashid w;
                                pages := <[page_id := default_page]> (pages w) |}
                   end ->
               {| slashid := slashid m;
                  pages := <[page_id := {| public := b;
                                           contents := contents (page_record w page_id) |}]>
                             (pages m) |}
               = {| slashid := slashid w;
                    pages := <[page_id := {| public := b;
                                             contents := contents (page_record w page_id) |}]>
                               (pages w) |}).
    { intros m ->. destruct (pages w !! page_id); cbn [slashid pages]; [done|].
      by rewrite insert_insert_eq. }
    rewrite (Hins _ eq_refl).
    destruct (patch_users updates) as [users|]; [|done].
    by destruct (gather _ _) as [[r|e] w2].
  - cbn [mret M_ret]. destruct (patch_users updates) as [users|]; [|done].
    rewrite bind_run. by destruct (gather _ _) as [[r|e] w2].
Qed.

Lemma permission_updates_keep_pages page_id users w :
  pages (gather (permission_updates ROOT_ORG_ID page_id users) w).2 = pages w.
Proof.
  apply (gather_preserves (fun w1 => pages w1 = pages w)); [|done].
  apply Forall_forall. intros c Hc w1 Hw1.
  apply elem_of_permission_updates in Hc as (e & ps & _ & _ & ->).
  pose proof (set_user_permissions_frame ROOT_ORG_ID (patch_id e) page_id ps w1)
    as (Hp & _).
  by rewrite Hp.
Qed.

End Patch.

(** X7. In the registry, [patch_page_settings] changes the [public] flag
    of its page and nothing else: with a flag in the patch the record of
    the page gets that flag and keeps its contents, without one the
    registry is left as it is; the updates of the users never touch the
    registry. With no users in the patch the call succeeds and the
    platform is untouched. *)
Theorem patch_page_settings_registry_effect
    (ROOT_ORG_ID page_id : PageID) (updates : PageSettingsPatch) (w : World) :
  pages (patch_page_settings ROOT_ORG_ID page_id updates w).2
  = match patch_public updates with
    | Some b => <[page_id := {| public := b;
                                contents := contents (page_record w page_id) |}]> (pages w)
    | None => pages w
    end
  /\ (patch_users updates = None ->
      (patch_page_settings ROOT_ORG_ID page_id updates w).1 = Ok tt
      /\ slashid (patch_page_settings ROOT_ORG_ID page_id updates w).2 = slashid w).
Proof.
  rewrite patch_page_settings_registry. cbv zeta. split.
  - destruct (patch_users updates) as [users|].
    + pose proof (permission_updates_keep_pages ROOT_ORG_ID page_id users) as Hk.
      destruct (patch_public updates) as [b|].
      * specialize (Hk {| slashid := slashid w;
                          pages := <[page_id := {| public := b;
                                       contents := contents (page_record w page_id) |}]>
                                     (pages w) |}).
        by destruct (gather _ _) as [[r|e] w2].
      * specialize (Hk w). by destruct (gather _ _) as [[r|e] w2].
    + by destruct (patch_public updates).
  - intros ->. by destruct (patch_public updates).
Qed.

Lemma patch_page_settings_registry_effect_witness :
  patch_users {| patch_public := Some true; patch_users := None |} = None
  /\ slashid (patch_page_settings Demo.ROOT_ORG_ID Demo.FOO_ID
               {| patch_public := Some true; patch_users := None |} Demo.world).2
     = slashid Demo.world.
Proof.
  split; [reflexivity|].
  apply (patch_page_settings_registry_effect Demo.ROOT_ORG_ID Demo.FOO_ID
           {| patch_public := Some true; patch_users := None |} Demo.world).
  reflexivity.
Defined.

(** Making [/foo] public opens it to a caller without credentials, who
    was turned away before. *)
Example patch_public_scenario :
  (GET_pages Demo.ROOT_ORG_NAME None "/foo" Demo.world).1
  = Raise (HTTPException HTTP_401_UNAUTHORIZED)
  /\ (GET_pages Demo.ROOT_ORG_NAME None "/foo"
        (PATCH_admin Demo.ROOT_ORG_ID Demo.ROOT_ORG_NAME (Some (ValidToken "carol"))
           "/foo" {| patch_public := Some true; patch_users := None |} Demo.world).2).1
     = Ok "#00ff00".
Proof. split; vm_compute; reflexivity. Qed.

(* ===================================================================== *)
(** * Further properties of the permission updates                       *)
(* ===================================================================== *)

Lemma Permission_of_value_value p : Permission_of_value (Permission_value p) = Some p.
Proof. by destruct p. Qed.

Lemma permissions_of_groups_values (l : list Permission) w :
  permissions_of_groups (Permission_value <$> l) w = (Ok (list_to_set l), w).
Proof.
  induction l as [|p l IH]; [done|].
  cbn [fmap list_fmap permissions_of_groups]. rewrite Permission_of_value_value.
  by rewrite bind_run, IH.
Qed.

Lemma get_permissions_groups u page_id w gs :
  groups_of w page_id u = Some gs ->
  get_permissions (Some u) (Some page_id) w = permissions_of_groups gs w.
Proof.
  unfold groups_of. intros H. cbn [get_permissions].
  rewrite bind_run. unfold Api.persons_person_id_groups_get. unfold_M. by rewrite H.
Qed.

Lemma get_permissions_not_member u page_id w :
  groups_of w page_id u = None ->
  get_permissions (Some u) (Some page_id) w = (Raise (ApiException 404), w).
Proof.
  unfold groups_of. intros H. cbn [get_permissions].
  rewrite bind_run. unfold Api.persons_person_id_groups_get. unfold_M. by rewrite H.
Qed.

Lemma persons_put_ok org_id req w w' :
  Api.persons_put org_id req w = (Ok tt, w') ->
  exists person_id,
    is_Some (organizations (slashid w) !! org_id)
    /\ Api.person_of_handles (slashid w) (req_handles req) = Some person_id.
Proof.
  unfold Api.persons_put. unfold_M.
  destruct (organizations (slashid w) !! org_id) as [o|]; [|discriminate].
  destruct (Api.person_of_handles (slashid w) (req_handles req)) as [person|];
    [|discriminate].
  intros _. by exists person.
Qed.

Lemma persons_person_id_delete_ok person_id org_id w w' :
  Api.persons_person_id_delete person_id org_id w = (Ok tt, w') ->
  member w org_id person_id.
Proof.
  unfold Api.persons_person_id_delete, member, groups_of, Api.members. unfold_M.
  destruct (organizations (slashid w) !! org_id) as [o|]; [|discriminate].
  destruct (persons o !! person_id) as [gs|]; [|discriminate].
  intros _. by exists gs.
Qed.

Section SetPermissions.

Variable ROOT_ORG_ID : PageID.

(** The groups a successful [set_user_permissions] leaves the user with
    on the page. *)
Lemma set_user_permissions_ok user_id page_id permissions w w' :
  set_user_permissions ROOT_ORG_ID user_id page_id permissions w = (Ok tt, w') ->
  if bool_decide (page_id <> ROOT_ORG_ID) && bool_decide (permissions = ∅)
  then member w page_id user_id /\ groups_of w' page_id user_id = None
  else member w ROOT_ORG_ID user_id
       /\ groups_of w' page_id user_id
          = Some (Permission_value <$> elements permissions).
Proof.
  intros H.
  assert (Hw' : w' = (set_user_permissions ROOT_ORG_ID user_id page_id permissions w).2)
    by (by rewrite H).
  unfold set_user_permissions in H, Hw'.
  destruct (bool_decide (page_id <> ROOT_ORG_ID) && bool_decide (permissions = ∅)).
  - split; [by apply persons_person_id_delete_ok in H|].
    rewrite Hw', persons_person_id_delete_groups. by rewrite decide_True.
  - rewrite bind_run, persons_person_id_handles_get_run in H, Hw'.
    unfold member, groups_of.
    destruct (Api.members (slashid w) ROOT_ORG_ID !! user_id) as [gs|];
      [|discriminate H].
    split; [by eexists|].
    apply persons_put_ok in H as (person & [o Ho] & Hperson).
    cbn [req_handles] in Hperson.
    pose proof (person_of_handles_of_inv _ _ _ Hperson) as ->.
    fold (groups_of w' page_id user_id).
    rewrite Hw', persons_put_groups. cbn [req_handles req_groups].
    by rewrite Ho, Hperson, decide_True.
Qed.

End SetPermissions.

Lemma set_user_permissions_then_get_permissions_aux
    ROOT_ORG_ID user_id page_id permissions w w' :
  set_user_permissions ROOT_ORG_ID user_id page_id permissions w = (Ok tt, w') ->
  (page_id = ROOT_ORG_ID \/ permissions <> ∅) ->
  caller_permissions (Some user_id) page_id w' permissions.
Proof.
  intros H Hcase. apply set_user_permissions_ok in H.
  assert (Hb : bool_decide (page_id <> ROOT_ORG_ID) && bool_decide (permissions = ∅)
               = false).
  { destruct Hcase as [->|Hne].
    - by rewrite bool_decide_eq_false_2 by (intros H'; by apply H').
    - rewrite (bool_decide_eq_false_2 (permissions = ∅)) by done.
      apply andb_false_r. }
  rewrite Hb in H. destruct H as [_ Hg]. unfold caller_permissions.
  rewrite (get_permissions_groups _ _ _ _ Hg), permissions_of_groups_values.
  by rewrite list_to_set_elements_L.
Qed.

(** X8. Setting permissions and reading them back: when
    [set_user_permissions] succeeds with an empty set on a page that is
    not the root page, the user was a member of the page's organisation
    and is none afterwards; in every other case the user was known to
    the root organisation and [get_permissions] then reports, for that
    user on that page, exactly the set that was given. *)
Theorem set_user_permissions_then_get_permissions
    (ROOT_ORG_ID : PageID) (user_id : UserID) (page_id : PageID)
    (permissions : gset Permission) (w w' : World) :
  set_user_permissions ROOT_ORG_ID user_id page_id permissions w = (Ok tt, w') ->
  (page_id <> ROOT_ORG_ID -> permissions = ∅ ->
   member w page_id user_id /\ ~ member w' page_id user_id)
  /\ ((page_id = ROOT_ORG_ID \/ permissions <> ∅) ->
      member w ROOT_ORG_ID user_id
      /\ caller_permissions (Some user_id) page_id w' permissions).
Proof.
  intros H. apply set_user_permissions_ok in H. split.
  - intros Hne Hempty.
    rewrite !bool_decide_eq_true_2 in H by done. destruct H as [Hm Hg].
    split; [done|]. unfold member. rewrite Hg. by intros [? ?].
  - intros Hcase.
    assert (Hb : bool_decide (page_id <> ROOT_ORG_ID) && bool_decide (permissions = ∅)
                 = false).
    { destruct Hcase as [->|Hne].
      - by rewrite bool_decide_eq_false_2 by (intros H'; by apply H').
      - rewrite (bool_decide_eq_false_2 (permissions = ∅)) by done.
        apply andb_false_r. }
    rewrite Hb in H. destruct H as [Hm Hg]. split; [done|].
    unfold caller_permissions.
    rewrite (get_permissions_groups _ _ _ _ Hg), permissions_of_groups_values.
    by rewrite list_to_set_elements_L.
Qed.

Lemma set_user_permissions_then_get_permissions_witness :
  set_user_permissions Demo.ROOT_ORG_ID "bob" Demo.FOO_ID {[Read; Write]} Demo.world
  = (Ok tt, (set_user_permissions Demo.ROOT_ORG_ID "bob" Demo.FOO_ID {[Read; Write]}
               Demo.world).2)
  /\ caller_permissions (Some "bob") Demo.FOO_ID
       (set_user_permissions Demo.ROOT_ORG_ID "bob" Demo.FOO_ID {[Read; Write]}
          Demo.world).2 {[Read; Write]}.
Proof.
  split; [vm_compute; reflexivity|].
  apply (set_user_permissions_then_get_permissions Demo.ROOT_ORG_ID "bob" Demo.FOO_ID
           {[Read; Write]} Demo.world).
  - vm_compute; reflexivity.
  - right. vm_compute. intros H. discriminate H.
Defined.

(* ===================================================================== *)
(** * Further properties of page creation                                *)
(* ===================================================================== *)

Lemma require_permissions_ok_inv permissions u page_id w S w1 :
  require_permissions permissions (Some u) (Some page_id) w = (Ok S, w1) ->
  w1 = w
  /\ caller_permissions (Some u) page_id w S
  /\ Forall (fun p => p ∈ S) permissions.
Proof.
  intros H.
  pose proof (get_permissions_readonly (Some u) (Some page_id) w) as Hro.
  destruct (get_permissions (Some u) (Some page_id) w) as [[S'|e] w0] eqn:HS;
    simpl in Hro; subst w0.
  - rewrite (require_permissions_run _ _ _ _ _ HS) in H.
    destruct (decide (Forall _ permissions)); [|discriminate H].
    by injection H as <- <-.
  - unfold require_permissions in H. rewrite (bind_raise _ _ _ _ _ HS) in H.
    discriminate H.
Qed.

Lemma organizations_suborganizations_post_world parent req w id w1 :
  Api.organizations_suborganizations_post parent req w = (Ok id, w1) ->
  (id ∉ dom (organizations (slashid w)))
  /\ organizations (slashid w1)
     = <[id := {| name := sub_org_name req; org_admins := admins req; persons := ∅ |}]>
         (organizations (slashid w)).
Proof.
  unfold Api.organizations_suborganizations_post. unfold_M.
  destruct (organizations (slashid w) !! parent); [|discriminate].
  destruct (org_ids (slashid w) !! sub_org_name req); [discriminate|].
  intros [= <- <-]. split; [apply is_fresh|done].
Qed.

Section Creation.

Variable ROOT_ORG_ID : PageID.
Variable ROOT_ORG_NAME : string.
Variable ADMIN_EMAILS : list string.

(** Setting permissions on a page leaves the groups of every other page
    alone. *)
Lemma set_user_permissions_other_page user_id page_id permissions w page u :
  page <> page_id ->
  groups_of (set_user_permissions ROOT_ORG_ID user_id page_id permissions w).2 page u
  = groups_of w page u.
Proof.
  intros Hne. unfold set_user_permissions.
  destruct (bool_decide (page_id <> ROOT_ORG_ID) && bool_decide (permissions = ∅)).
  - rewrite persons_person_id_delete_groups.
    rewrite decide_False; [done|]. by intros [? _].
  - rewrite bind_run, persons_person_id_handles_get_run.
    destruct (Api.members (slashid w) ROOT_ORG_ID !! user_id); [|done].
    rewrite persons_put_groups.
    destruct (organizations (slashid w) !! page_id); [|done].
    destruct (Api.person_of_handles _ _) as [person|]; [|done].
    rewrite decide_False; [done|]. by intros [? _].
Qed.

Lemma post_page_created person_id page_path page_id body w w' :
  post_page ROOT_ORG_ID ROOT_ORG_NAME ADMIN_EMAILS person_id page_path page_id body w
  = (Ok tt, w') ->
  exists parent_page_id new_page_id S,
    org_ids (slashid w) !! org_name ROOT_ORG_NAME (Py.init page_path)
    = Some parent_page_id
    /\ org_ids (slashid w') !! org_name ROOT_ORG_NAME page_path = Some new_page_id
    /\ (new_page_id ∉ dom (organizations (slashid w)))
    /\ caller_permissions (Some person_id) parent_page_id w S
    /\ Admin ∈ S
    /\ caller_permissions (Some person_id) new_page_id w' S
    /\ (forall v, v <> person_id -> groups_of w' new_page_id v = None)
    /\ (forall other v, other <> new_page_id ->
                        groups_of w' other v = groups_of w other v).
Proof.
  intros H. destruct page_id as [?|]; [discriminate|].
  unfold post_page in H. rewrite !bind_run, get_page_id_run in H.
  destruct (org_ids (slashid w) !! org_name ROOT_ORG_NAME (Py.init page_path))
    as [parent|] eqn:Hparent; [|discriminate H].
  cbn [require_page_id mret M_ret] in H. rewrite bind_run in H.
  destruct (require_permissions [Admin] (Some person_id) (Some parent) w)
    as [[S|e] w0] eqn:Hreq; [|discriminate H].
  apply require_permissions_ok_inv in Hreq as (-> & HS & HAdmin).
  apply Forall_cons in HAdmin as [HAdmin _].
  rewrite bind_run in H.
  destruct (Api.organizations_suborganizations_post _ _ w) as [[id|e] w1] eqn:Hpost;
    [|discriminate H].
  pose proof (organizations_suborganizations_post_ok _ _ _ _ _ Hpost)
    as (_ & Hids & _ & _).
  apply organizations_suborganizations_post_world in Hpost as (Hfresh & Horgs).
  simpl in Hids, Horgs.
  rewrite bind_run in H.
  pose proof (set_user_permissions_frame ROOT_ORG_ID person_id id S w1) as (_ & Hi2 & _).
  destruct (set_user_permissions ROOT_ORG_ID person_id id S w1) as [[[]|e] w2] eqn:Hset;
    [|discriminate H].
  simpl in Hi2.
  pose proof (set_user_permissions_other ROOT_ORG_ID person_id id S w1) as Hother.
  pose proof (set_user_permissions_other_page person_id id S w1) as Hpage.
  rewrite Hset in Hother, Hpage. simpl in Hother, Hpage.
  assert (Hcp : caller_permissions (Some person_id) id w2 S).
  { apply (set_user_permissions_then_get_permissions_aux _ _ _ _ _ _ Hset).
    right. intros ->. by apply not_elem_of_empty in HAdmin. }
  rewrite bind_run, pages_getitem_run in H.
  unfold pages_setitem in H. unfold_M. cbn [fst snd] in H.
  assert (Hplat : slashid w' = slashid w2).
  { injection H as <-. by destruct (pages w2 !! parent). }
  assert (Hg1 : forall other v, other <> id -> groups_of w1 other v = groups_of w other v).
  { intros other v Hne. unfold groups_of, Api.members.
    by rewrite Horgs, lookup_insert_ne. }
  assert (Hg1' : forall v, groups_of w1 id v = None).
  { intros v. unfold groups_of, Api.members. by rewrite Horgs, lookup_insert_eq. }
  exists parent, id, S. split; [done|].
  split; [by rewrite Hplat, Hi2, Hids, lookup_insert_eq|].
  split; [done|]. split; [done|]. split; [done|].
  split.
  { by apply (caller_permissions_registry _ _ w2 w'). }
  split.
  - intros v Hv. rewrite (groups_of_platform w' w2) by done.
    by rewrite Hother, Hg1'.
  - intros other v Hne. rewrite (groups_of_platform w' w2) by done.
    by rewrite Hpage, Hg1.
Qed.

End Creation.

(** X9. When [post_page] succeeds, the creating user held [Admin] on the
    parent page and holds on the new page exactly the permission set
    held on the parent; the organisation of the new page is a new one,
    the creating user is its only member, and the memberships and
    groups of every other organisation are what they were. *)
Theorem creator_gets_parent_permissions
    (ROOT_ORG_ID : PageID) (ROOT_ORG_NAME : string) (ADMIN_EMAILS : list string)
    (person_id : UserID) (page_path : PagePath) (page_id : option PageID)
    (body : string) (w w' : World) :
  post_page ROOT_ORG_ID ROOT_ORG_NAME ADMIN_EMAILS person_id page_path page_id body w
  = (Ok tt, w') ->
  exists parent_page_id new_page_id S,
    get_page_id ROOT_ORG_NAME (Py.init page_path) w = (Ok (Some parent_page_id), w)
    /\ get_page_id ROOT_ORG_NAME page_path w' = (Ok (Some new_page_id), w')
    /\ (new_page_id ∉ dom (organizations (slashid w)))
    /\ caller_permissions (Some person_id) parent_page_id w S
    /\ Admin ∈ S
    /\ caller_permissions (Some person_id) new_page_id w' S
    /\ (forall v, v <> person_id -> ~ member w' new_page_id v)
    /\ (forall other v, other <> new_page_id ->
                        groups_of w' other v = groups_of w other v).
Proof.
  intros H.
  apply post_page_created in H
    as (parent & id & S & Hparent & Hid & Hfresh & HS & HAdmin & HS' & Honly & Hother).
  exists parent, id, S. rewrite !get_page_id_resolves.
  repeat (split; [done|]). split; [|done].
  intros v Hv. unfold member. rewrite (Honly v Hv). by intros [? ?].
Qed.

Lemma creator_gets_parent_permissions_witness :
  post_page Demo.ROOT_ORG_ID Demo.ROOT_ORG_NAME Demo.ADMIN_EMAILS "alice" ["bar"] None
            "#abcdef" Demo.world
  = (Ok tt, Demo.world_after_post)
  /\ exists parent_page_id new_page_id S,
      get_page_id Demo.ROOT_ORG_NAME (Py.init ["bar"]) Demo.world
      = (Ok (Some parent_page_id), Demo.world)
      /\ get_page_id Demo.ROOT_ORG_NAME ["bar"] Demo.world_after_post
         = (Ok (Some new_page_id), Demo.world_after_post)
      /\ (new_page_id ∉ dom (organizations (slashid Demo.world)))
      /\ caller_permissions (Some "alice") parent_page_id Demo.world S
      /\ Admin ∈ S
      /\ caller_permissions (Some "alice") new_page_id Demo.world_after_post S
      /\ (forall v, v <> "alice" -> ~ member Demo.world_after_post new_page_id v)
      /\ (forall other v, other <> new_page_id ->
            groups_of Demo.world_after_post other v = groups_of Demo.world other v).
Proof.
  split; [vm_compute; reflexivity|].
  apply (creator_gets_parent_permissions Demo.ROOT_ORG_ID Demo.ROOT_ORG_NAME
           Demo.ADMIN_EMAILS "alice" ["bar"] None "#abcdef").
  vm_compute; reflexivity.
Defined.

(** X10. [post_page] creates nothing when the parent page does not exist
    or the caller is no administrator of it: on a path whose parent has
    no organisation it ends with 404, and for a caller whose permission
    set on the parent lacks [Admin] it ends with 403, in both cases in
    the world it was called in. *)
Theorem post_page_refusals
    (ROOT_ORG_ID : PageID) (ROOT_ORG_NAME : string) (ADMIN_EMAILS : list string)
    (person_id : UserID) (page_path : PagePath) (body : string) (w : World) :
  (get_page_id ROOT_ORG_NAME (Py.init page_path) w = (Ok None, w) ->
   post_page ROOT_ORG_ID ROOT_ORG_NAME ADMIN_EMAILS person_id page_path None body w
   = (Raise (HTTPException HTTP_404_NOT_FOUND), w))
  /\ (forall parent_page_id S,
        get_page_id ROOT_ORG_NAME (Py.init page_path) w
        = (Ok (Some parent_page_id), w) ->
        caller_permissions (Some person_id) parent_page_id w S ->
        Admin ∉ S ->
        post_page ROOT_ORG_ID ROOT_ORG_NAME ADMIN_EMAILS person_id page_path None body w
        = (Raise (HTTPException HTTP_403_FORBIDDEN), w)).
Proof.
  split.
  - intros Hid. apply get_page_id_resolves in Hid.
    unfold post_page. by rewrite !bind_run, get_page_id_run, Hid.
  - intros parent S Hid HS HAdmin. apply get_page_id_resolves in Hid.
    unfold post_page. rewrite !bind_run, get_page_id_run, Hid.
    cbn [require_page_id mret M_ret]. rewrite bind_run.
    by rewrite (require_permissions_denied Admin _ _ _ _ HS HAdmin).
Qed.

Lemma post_page_refusals_witness :
  (get_page_id Demo.ROOT_ORG_NAME (Py.init ["foo"; "baz"]) Demo.world
   = (Ok (Some Demo.FOO_ID), Demo.world)
   /\ caller_permissions (Some "bob") Demo.FOO_ID Demo.world {[Read]})
  /\ post_page Demo.ROOT_ORG_ID Demo.ROOT_ORG_NAME Demo.ADMIN_EMAILS "bob"
       ["foo"; "baz"] None "#abcdef" Demo.world
     = (Raise (HTTPException HTTP_403_FORBIDDEN), Demo.world).
Proof.
  split; [split; vm_compute; reflexivity|].
  apply (proj2 (post_page_refusals Demo.ROOT_ORG_ID Demo.ROOT_ORG_NAME Demo.ADMIN_EMAILS
                  "bob" ["foo"; "baz"] "#abcdef" Demo.world) Demo.FOO_ID {[Read]}).
  - vm_compute; reflexivity.
  - vm_compute; reflexivity.
  - vm_compute. intros H. discriminate H.
Defined.

(* ===================================================================== *)
(** * Further properties of the users and the administration view        *)
(* ===================================================================== *)

Lemma elem_of_handles_of p person_id h :
  h ∈ Api.handles_of p person_id <-> handle_owner p !! h = Some person_id.
Proof.
  split; [apply handles_of_owner|].
  intros Hh. unfold Api.handles_of.
  apply list_elem_of_fmap. exists (h, person_id). split; [done|].
  apply list_elem_of_In, List.filter_In. split.
  - by apply list_elem_of_In, elem_of_map_to_list.
  - by apply bool_decide_eq_true.
Qed.

Section Users.

Variable ROOT_ORG_ID : PageID.

(** The answer of [get_user_by_id]: the user's data when the root
    organisation knows the user, 404 otherwise. *)
Lemma get_user_by_id_run user_id w :
  get_user_by_id ROOT_ORG_ID user_id w
  = (match groups_of w ROOT_ORG_ID user_id with
     | Some _ =>
         Ok {| user_id := user_id;
               user_name := name_attribute (slashid w) !! user_id;
               emails := handle_value <$>
                 List.filter (fun h => bool_decide (handle_type h = EMAIL_ADDRESS))
                             (Api.handles_of (slashid w) user_id);
               phones := handle_value <$>
                 List.filter (fun h => bool_decide (handle_type h = PHONE_NUMBER))
                             (Api.handles_of (slashid w) user_id) |}
     | None => Raise (HTTPException HTTP_404_NOT_FOUND)
     end, w).
Proof.
  unfold get_user_by_id, try_except_api, groups_of.
  rewrite bind_run.
  unfold Api.persons_person_id_attributes_bucket_name_get. unfold_M.
  destruct (Api.members (slashid w) ROOT_ORG_ID !! user_id) as [gs|] eqn:Hm; [|done].
  rewrite persons_person_id_handles_get_run, Hm.
  destruct (name_attribute (slashid w) !! user_id) as [n|]; [|done].
  by rewrite lookup_singleton_eq.
Qed.

Lemma get_user_permissions_run page_id user_id w :
  get_user_permissions ROOT_ORG_ID page_id user_id w
  = (match groups_of w page_id user_id with
     | None => Raise (ApiException 404)
     | Some [] => Ok None
     | Some (g :: gs) =>
         match (get_user_by_id ROOT_ORG_ID user_id w).1 with
         | Ok user =>
             match (permissions_of_groups (g :: gs) w).1 with
             | Ok permissions =>
                 Ok (Some {| up_user := user; up_permissions := permissions |})
             | Raise e => Raise e
             end
         | Raise e => Raise e
         end
     end, w).
Proof.
  unfold get_user_permissions, groups_of. rewrite bind_run.
  unfold Api.persons_person_id_groups_get. unfold_M.
  destruct (Api.members (slashid w) page_id !! user_id) as [[|g gs]|]; try done.
  rewrite get_user_by_id_run. cbn [fst].
  destruct (groups_of w ROOT_ORG_ID user_id); [|done].
  pose proof (permissions_of_groups_readonly (g :: gs) w) as Hro.
  destruct (permissions_of_groups (g :: gs) w) as [[S|e] w1]; simpl in Hro; by subst.
Qed.

Lemma get_user_permissions_readonly page_id user_id w :
  (get_user_permissions ROOT_ORG_ID page_id user_id w).2 = w.
Proof. by rewrite get_user_permissions_run. Qed.

Lemma permissions_of_groups_nonempty g gs w S :
  (permissions_of_groups (g :: gs) w).1 = Ok S -> S <> ∅.
Proof.
  cbn [permissions_of_groups]. destruct (Permission_of_value g) as [p|]; [|done].
  rewrite bind_run. destruct (permissions_of_groups gs w) as [[ps|e] w1]; [|done].
  intros [= <-] Hempty.
  assert (p ∈ ({[p]} ∪ ps : gset Permission)) as Hp by set_solver.
  rewrite Hempty in Hp. by apply not_elem_of_empty in Hp.
Qed.

(** One answer of [get_user_permissions], read backwards. *)
Lemma get_user_permissions_ok page_id u w r :
  (get_user_permissions ROOT_ORG_ID page_id u w).1 = Ok r ->
  match r with
  | None => groups_of w page_id u = Some []
  | Some up =>
      user_id (up_user up) = u
      /\ (exists gs, groups_of w page_id u = Some gs /\ gs <> [])
      /\ caller_permissions (Some u) page_id w (up_permissions up)
      /\ up_permissions up <> ∅
  end.
Proof.
  rewrite get_user_permissions_run. cbn [fst].
  destruct (groups_of w page_id u) as [[|g gs]|] eqn:Hg; [| |done].
  - by intros [= <-].
  - rewrite get_user_by_id_run. cbn [fst].
    destruct (groups_of w ROOT_ORG_ID u); [|done].
    destruct (permissions_of_groups (g :: gs) w) as [[S|e] w1] eqn:HS; [|done].
    cbn [fst]. intros [= <-]. cbn.
    split; [done|]. split; [by exists (g :: gs)|].
    pose proof (permissions_of_groups_readonly (g :: gs) w) as Hro.
    rewrite HS in Hro. simpl in Hro. subst w1. split.
    + unfold caller_permissions. by rewrite (get_permissions_groups _ _ _ _ Hg).
    + apply (permissions_of_groups_nonempty g gs w). by rewrite HS.
Qed.

End Users.

Section GatherReadonly.

Context {A : Type}.

(** Awaitables that leave the world alone: [gather] leaves it alone as
    well, and when it ends with a list, the list holds the answer of
    each awaitable, in order. *)
Lemma gather_readonly (cs : list (M A)) w :
  Forall (fun c => forall w1, (c w1).2 = w1) cs ->
  (gather cs w).2 = w
  /\ forall l, (gather cs w).1 = Ok l -> Forall2 (fun c r => (c w).1 = Ok r) cs l.
Proof.
  induction 1 as [|c cs Hc _ [IHw IHl]];
    [split; [done|]; intros l [= <-]; constructor|].
  cbn [gather]. specialize (Hc w).
  destruct (c w) as [r w1] eqn:Hcw. simpl in Hc. subst w1.
  destruct (gather cs w) as [rs w2]. simpl in IHw. subst w2.
  split; [done|]. intros l Hl. simpl in Hl.
  destruct r as [a|e]; [|done]. destruct rs as [l'|e]; [|done].
  injection Hl as <-. constructor; [by rewrite Hcw|]. by apply IHl.
Qed.

End GatherReadonly.

(** X11. The user data of [get_user_by_id]: for a person the root
    organisation does not know the answer is the 404 of the backend,
    not the exception of the platform's client; for a known person it
    carries the id that was asked for, the [name] attribute if there is
    one, as emails exactly the values of the email handles the pool
    attributes to the person and as phones exactly those of the phone
    handles. The world is left as it was. *)
Theorem get_user_by_id_answer (ROOT_ORG_ID : PageID) (u : UserID) (w : World) :
  (~ member w ROOT_ORG_ID u ->
   get_user_by_id ROOT_ORG_ID u w = (Raise (HTTPException HTTP_404_NOT_FOUND), w))
  /\ (member w ROOT_ORG_ID u ->
      exists info,
        get_user_by_id ROOT_ORG_ID u w = (Ok info, w)
        /\ user_id info = u
        /\ user_name info = name_attribute (slashid w) !! u
        /\ (forall v, v ∈ emails info
                      <-> handle_owner (slashid w)
                            !! {| handle_type := EMAIL_ADDRESS; handle_value := v |}
                          = Some u)
        /\ (forall v, v ∈ phones info
                      <-> handle_owner (slashid w)
                            !! {| handle_type := PHONE_NUMBER; handle_value := v |}
                          = Some u)).
Proof.
  rewrite get_user_by_id_run. unfold member. split.
  - intros Hm. destruct (groups_of w ROOT_ORG_ID u); [|done].
    destruct Hm. by eexists.
  - intros [gs ->]. eexists. split; [reflexivity|]. cbn.
    split; [done|]. split; [done|].
    split; intros v; rewrite list_elem_of_fmap; split.
    + intros ([t v'] & -> & Hin).
      apply list_elem_of_In, List.filter_In in Hin as [Hin Ht].
      apply bool_decide_eq_true in Ht. simpl in Ht. subst t.
      by apply elem_of_handles_of, list_elem_of_In.
    + intros Hv. exists {| handle_type := EMAIL_ADDRESS; handle_value := v |}.
      split; [done|]. apply list_elem_of_In, List.filter_In. split; [|done].
      by apply list_elem_of_In, elem_of_handles_of.
    + intros ([t v'] & -> & Hin).
      apply list_elem_of_In, List.filter_In in Hin as [Hin Ht].
      apply bool_decide_eq_true in Ht. simpl in Ht. subst t.
      by apply elem_of_handles_of, list_elem_of_In.
    + intros Hv. exists {| handle_type := PHONE_NUMBER; handle_value := v |}.
      split; [done|]. apply list_elem_of_In, List.filter_In. split; [|done].
      by apply list_elem_of_In, elem_of_handles_of.
Qed.

Lemma get_user_by_id_answer_witness :
  ~ member Demo.world Demo.ROOT_ORG_ID "mallory"
  /\ get_user_by_id Demo.ROOT_ORG_ID "mallory" Demo.world
     = (Raise (HTTPException HTTP_404_NOT_FOUND), Demo.world).
Proof.
  assert (H : ~ member Demo.world Demo.ROOT_ORG_ID "mallory")
    by (vm_compute; intros [x Hx]; discriminate Hx).
  split; [exact H|].
  exact (proj1 (get_user_by_id_answer Demo.ROOT_ORG_ID "mallory" Demo.world) H).
Defined.

Lemma elem_of_persons_get page_id w l :
  (Api.persons_get page_id w).1 = Ok l ->
  forall u, u ∈ l <-> member w page_id u.
Proof.
  unfold Api.persons_get, member, groups_of, Api.members. unfold_M.
  destruct (organizations (slashid w) !! page_id) as [o|]; [|done].
  intros [= <-] u. rewrite list_elem_of_fmap. split.
  - intros ([u' gs] & -> & Hin). apply elem_of_map_to_list in Hin. by exists gs.
  - intros [gs Hgs]. exists (u, gs). split; [done|]. by apply elem_of_map_to_list.
Qed.

Lemma persons_get_readonly page_id w : (Api.persons_get page_id w).2 = w.
Proof.
  unfold Api.persons_get. unfold_M.
  by destruct (organizations (slashid w) !! page_id).
Qed.

(** The users of the view, from the answers about the members. *)
Lemma settings_users_of_answers ROOT_ORG_ID page_id w persons l :
  Forall2 (fun u r => (get_user_permissions ROOT_ORG_ID page_id u w).1 = Ok r) persons l ->
  (forall u, u ∈ (fun up => user_id (up_user up)) <$> omap id l
             <-> u ∈ persons
                 /\ exists gs, groups_of w page_id u = Some gs /\ gs <> [])
  /\ Forall (fun up =>
               caller_permissions (Some (user_id (up_user up))) page_id w
                                  (up_permissions up)
               /\ up_permissions up <> ∅) (omap id l).
Proof.
  induction 1 as [|u r persons l Hr _ [IHu IHf]].
  - split; [|by constructor]. intros u. split.
    + intros Hu. by apply elem_of_nil in Hu.
    + intros [Hu _]. by apply elem_of_nil in Hu.
  - apply get_user_permissions_ok in Hr. destruct r as [up|]; cbn [omap list_omap id].
    + destruct Hr as (Hid & Hgs & Hcp & Hne). split.
      * intros v. cbn [fmap list_fmap]. rewrite !elem_of_cons, IHu. split.
        -- intros [->|[Hv Hg]]; [|by auto]. rewrite Hid. by auto.
        -- intros [[->|Hv] Hg]; [by left|by right].
      * constructor; [|done]. by rewrite Hid.
    + split; [|done]. intros v. rewrite IHu, elem_of_cons. split.
      * intros [Hv Hg]. by auto.
      * intros [[->|Hv] Hg]; [|done].
        destruct Hg as (gs & Hgs & Hne). rewrite Hr in Hgs. by injection Hgs as <-.
Qed.

(** X12. The administration view of a page: when [get_page_settings]
    succeeds, the view carries the id of the page and the [public] flag
    of its record, the platform is untouched, the users it lists are
    exactly the members of the page's organisation that have at least
    one group there (a member with no group is left out), and each
    listed user comes with the permission set the gate would see for
    that user, which is never empty. *)
Theorem get_page_settings_lists_members_with_groups
    (ROOT_ORG_ID page_id : PageID) (w w' : World) (s : PageSettings) :
  get_page_settings ROOT_ORG_ID page_id w = (Ok s, w') ->
  settings_id s = page_id
  /\ settings_public s = public (page_record w page_id)
  /\ slashid w' = slashid w
  /\ (forall u, u ∈ (fun up => user_id (up_user up)) <$> settings_users s
                <-> exists gs, groups_of w page_id u = Some gs /\ gs <> [])
  /\ Forall (fun up =>
               caller_permissions (Some (user_id (up_user up))) page_id w
                                  (up_permissions up)
               /\ up_permissions up <> ∅) (settings_users s).
Proof.
  intros H. unfold get_page_settings in H. rewrite bind_run in H.
  pose proof (persons_get_readonly page_id w) as Hro.
  pose proof (elem_of_persons_get page_id w) as Hmem.
  destruct (Api.persons_get page_id w) as [[persons|e] w0]; [|discriminate H].
  simpl in Hro. subst w0. specialize (Hmem persons eq_refl).
  rewrite bind_run, pages_getitem_run in H. rewrite bind_run in H.
  set (w1 := match pages w !! page_id with Some _ => w | None => _ end) in H.
  assert (Hplat : slashid w1 = slashid w) by (subst w1; by destruct (pages w !! page_id)).
  destruct (gather_readonly (get_user_permissions ROOT_ORG_ID page_id <$> persons) w1)
    as [Hw Hl].
  { apply Forall_forall. intros c Hc w2.
    apply list_elem_of_fmap in Hc as (u & -> & _).
    apply get_user_permissions_readonly. }
  destruct (gather _ w1) as [[l|e] w2]; [|discriminate H].
  simpl in Hw. subst w2. specialize (Hl l eq_refl).
  apply Forall2_fmap_l in Hl.
  apply settings_users_of_answers in Hl as [Hu Hf].
  injection H as <- <-. cbn.
  split; [done|]. split; [done|]. split; [done|]. split.
  - intros u. rewrite Hu, Hmem. rewrite (groups_of_platform w1 w) by done.
    split; [by intros [_ ?]|]. intros (gs & Hgs & Hne).
    split; [|by exists gs]. unfold member. rewrite Hgs. by eexists.
  - eapply Forall_impl; [exact Hf|]. intros up [Hcp Hne]. split; [|done].
    by apply (caller_permissions_registry _ _ w1 w).
Qed.

Lemma get_page_settings_lists_members_with_groups_witness :
  exists s,
    get_page_settings Demo.ROOT_ORG_ID Demo.ROOT_ORG_ID Demo.world = (Ok s, Demo.world)
    /\ (forall u, u ∈ (fun up => user_id (up_user up)) <$> settings_users s
                  <-> exists gs, groups_of Demo.world Demo.ROOT_ORG_ID u = Some gs
                                 /\ gs <> []).
Proof.
  eexists. split; [vm_compute; reflexivity|].
  apply (get_page_settings_lists_members_with_groups Demo.ROOT_ORG_ID Demo.ROOT_ORG_ID
           Demo.world Demo.world).
  vm_compute; reflexivity.
Defined.

(** On the root page of the demo [carol] is a member with no group: the
    view lists [alice] and [bob] and leaves her out. *)
Example get_page_settings_scenario :
  (fun s => (fun up => user_id (up_user up)) <$> settings_users s)
    <$> (match (get_page_settings Demo.ROOT_ORG_ID Demo.ROOT_ORG_ID Demo.world).1 with
         | Ok s => Some s
         | Raise _ => None
         end)
  = Some ["alice"; "bob"].
Proof. vm_compute. reflexivity. Qed.

(* ===================================================================== *)
(** * Properties of the current user's view                              *)
(* ===================================================================== *)

Section Dict.

Context {V : Type}.

Lemma elem_of_dict_setitem (k : string) (v : V) d kv :
  kv ∈ PyData.dict_setitem k v d -> kv = (k, v) \/ kv ∈ d.
Proof.
  induction d as [|[k' v'] d IH]; simpl.
  - intros H. apply list_elem_of_singleton in H. by left.
  - destruct (decide (k = k')) as [->|Hne].
    + intros H. apply elem_of_cons in H as [->|H]; [by left|].
      right. by right.
    + intros H. apply elem_of_cons in H as [->|H]; [right; by left|].
      destruct (IH H) as [->|H']; [by left|]. right. by right.
Qed.

Lemma dict_setitem_keys (k : string) (v : V) d k' :
  k' ∈ (PyData.dict_setitem k v d).*1 <-> k' = k \/ k' ∈ d.*1.
Proof.
  induction d as [|[k0 v0] d IH]; simpl.
  - rewrite list_elem_of_singleton. split; [by left|].
    intros [->|H]; [done|]. by apply elem_of_nil in H.
  - destruct (decide (k = k0)) as [->|Hne]; cbn [fmap list_fmap fst];
      rewrite !elem_of_cons.
    + split; [intros [->|H]; [by left|right; by right]|].
      intros [->|[->|H]]; [by left|by left|by right].
    + rewrite IH. split.
      * intros [->|[->|H]]; [right; by left|by left|right; by right].
      * intros [->|[->|H]]; [right; by left|by left|right; by right].
Qed.

End Dict.

Lemma elem_of_insert_by_key {A} (key : A -> string) x l y :
  y ∈ PyData.insert_by_key key x l <-> y = x \/ y ∈ l.
Proof.
  induction l as [|z l IH]; simpl.
  - rewrite list_elem_of_singleton. split; [by left|].
    intros [->|H]; [done|]. by apply elem_of_nil in H.
  - destruct (String.leb (key x) (key z)).
    + by rewrite elem_of_cons.
    + rewrite !elem_of_cons, IH. split.
      * intros [->|[->|H]]; [right; by left|by left|right; by right].
      * intros [->|[->|H]]; [right; by left|by left|right; by right].
Qed.

(** Sorting keeps the elements. *)
Lemma elem_of_sort_by_key {A} (key : A -> string) l y :
  y ∈ PyData.sort_by_key key l <-> y ∈ l.
Proof.
  induction l as [|x l IH]; simpl; [done|].
  by rewrite elem_of_insert_by_key, elem_of_cons, IH.
Qed.

Lemma elem_of_person_orgs u root w l :
  (ApiUsers.persons_person_id_organizations_get u root w).1 = Ok l ->
  forall org,
    org ∈ l <-> exists o, organizations (slashid w) !! po_id org = Some o
                          /\ po_org_name org = name o
                          /\ is_Some (persons o !! u).
Proof.
  unfold ApiUsers.persons_person_id_organizations_get. unfold_M.
  destruct (Api.members (slashid w) root !! u); [|done].
  intros [= <-] org. rewrite list_elem_of_fmap. split.
  - intros ([id o] & -> & Hin).
    apply list_elem_of_In, List.filter_In in Hin as [Hin Hm].
    apply list_elem_of_In, elem_of_map_to_list in Hin.
    apply bool_decide_eq_true in Hm. by exists o.
  - intros (o & Ho & Hn & Hm). exists (po_id org, o). split.
    + destruct org as [id n]. simpl in *. by subst.
    + apply list_elem_of_In, List.filter_In. split.
      * by apply list_elem_of_In, elem_of_map_to_list.
      * by apply bool_decide_eq_true.
Qed.

Lemma persons_person_id_organizations_get_readonly u root w :
  (ApiUsers.persons_person_id_organizations_get u root w).2 = w.
Proof.
  unfold ApiUsers.persons_person_id_organizations_get. unfold_M.
  by destruct (Api.members (slashid w) root !! u).
Qed.

Lemma persons_person_id_groups_get_run u page_id w :
  Api.persons_person_id_groups_get u page_id w
  = (match groups_of w page_id u with
     | Some groups => Ok groups
     | None => Raise (ApiException 404)
     end, w).
Proof.
  unfold Api.persons_person_id_groups_get, groups_of. unfold_M.
  by destruct (Api.members (slashid w) page_id !! u).
Qed.

Section Me.

Variable ROOT_ORG_ID : PageID.
Variable ROOT_ORG_NAME : string.

(** The dict comprehension: it leaves the world alone; every item of
    the result was in the accumulator or comes from an organisation
    with groups, whose permission set it holds; and every organisation
    with groups has its key in the result. *)
Lemma pages_permissions_ok items acc w d w' :
  pages_permissions ROOT_ORG_NAME items acc w = (Ok d, w') ->
  w' = w
  /\ (forall kv, kv ∈ d ->
        kv ∈ acc
        \/ exists org g gs S,
            (org, g :: gs) ∈ items
            /\ (permissions_of_groups (g :: gs) w).1 = Ok S
            /\ kv = (page_name ROOT_ORG_NAME (po_org_name org), S))
  /\ (forall k, k ∈ acc.*1 -> k ∈ d.*1)
  /\ (forall org g gs,
        (org, g :: gs) ∈ items -> page_name ROOT_ORG_NAME (po_org_name org) ∈ d.*1).
Proof.
  revert acc. induction items as [|[org groups] items IH]; intros acc H.
  - cbn in H. injection H as <- <-. split; [done|]. split; [by left|].
    split; [done|]. intros org g gs Hin. by apply elem_of_nil in Hin.
  - cbn [pages_permissions] in H. destruct groups as [|g gs].
    + apply IH in H as (-> & Hs & Hk & Hc). split; [done|]. split; [|split; [done|]].
      * intros kv Hkv. destruct (Hs kv Hkv) as [?|(o & g & gs & S & Hin & HS & ->)];
          [by left|].
        right. exists o, g, gs, S. split; [by right|done].
      * intros o g gs Hin. apply elem_of_cons in Hin as [Heq|Hin]; [discriminate Heq|].
        by apply (Hc o g gs).
    + rewrite bind_run in H.
      pose proof (permissions_of_groups_readonly (g :: gs) w) as Hro.
      destruct (permissions_of_groups (g :: gs) w) as [[S|e] w1] eqn:HS;
        [|discriminate H].
      simpl in Hro. subst w1.
      apply IH in H as (-> & Hs & Hk & Hc). split; [done|]. split; [|split].
      * intros kv Hkv.
        destruct (Hs kv Hkv) as [Hacc|(o & g' & gs' & S' & Hin & HS' & ->)].
        -- apply elem_of_dict_setitem in Hacc as [->|Hacc]; [|by left].
           right. exists org, g, gs, S. split; [by left|]. by rewrite HS.
        -- right. exists o, g', gs', S'. split; [by right|done].
      * intros k Hin. apply Hk, dict_setitem_keys. by right.
      * intros o g' gs' Hin. apply elem_of_cons in Hin as [[= -> -> ->]|Hin].
        -- apply Hk, dict_setitem_keys. by left.
        -- by apply (Hc o g' gs').
Qed.

(** The groups the platform answers for the listed organisations, paired
    with them. *)
Lemma zip_groups u (orgs : list PersonOrganization) (groups : list (list string)) w :
  Forall2 (fun org r => (Api.persons_person_id_groups_get u (po_id org) w).1 = Ok r)
          orgs groups ->
  (forall org gs, (org, gs) ∈ zip orgs groups ->
                  org ∈ orgs /\ groups_of w (po_id org) u = Some gs)
  /\ (forall org, org ∈ orgs -> exists gs, (org, gs) ∈ zip orgs groups).
Proof.
  induction 1 as [|org r orgs groups Hr _ [IH1 IH2]]; simpl.
  - split; [intros org gs H; by apply elem_of_nil in H|].
    intros org H. by apply elem_of_nil in H.
  - rewrite persons_person_id_groups_get_run in Hr. cbn [fst] in Hr.
    destruct (groups_of w (po_id org) u) as [gs0|] eqn:Hg; [|done].
    injection Hr as ->. split.
    + intros o gs Hin. apply elem_of_cons in Hin as [[= -> ->]|Hin].
      * split; [by left|done].
      * destruct (IH1 o gs Hin). split; [by right|done].
    + intros o Hin. apply elem_of_cons in Hin as [->|Hin].
      * exists r. by left.
      * destruct (IH2 o Hin) as [gs Hgs]. exists gs. by right.
Qed.

End Me.

(** X13. The view of the current user: when [get_user_me] succeeds the
    world is left as it was and the user data is the caller's; every
    entry of [pages] is keyed by the page name of an organisation of the
    platform and holds the permission set the gate sees for the caller
    on that page, which is never empty; and every organisation in which
    the caller has at least one group has its page name among the
    keys. *)
Theorem get_user_me_pages
    (ROOT_ORG_ID : PageID) (ROOT_ORG_NAME : string) (u : UserID)
    (w w' : World) (me : MeInfo) :
  get_user_me ROOT_ORG_ID ROOT_ORG_NAME u w = (Ok me, w') ->
  w' = w
  /\ user_id (me_user me) = u
  /\ (forall k S,
        (k, S) ∈ me_pages me ->
        exists id o,
          organizations (slashid w) !! id = Some o
          /\ k = page_name ROOT_ORG_NAME (name o)
          /\ caller_permissions (Some u) id w S
          /\ S <> ∅)
  /\ (forall id o g gs,
        organizations (slashid w) !! id = Some o ->
        groups_of w id u = Some (g :: gs) ->
        page_name ROOT_ORG_NAME (name o) ∈ (me_pages me).*1).
Proof.
  intros H. unfold get_user_me in H. rewrite bind_run in H.
  pose proof (persons_person_id_organizations_get_readonly u ROOT_ORG_ID w) as Hro.
  pose proof (elem_of_person_orgs u ROOT_ORG_ID w) as Horgs.
  destruct (ApiUsers.persons_person_id_organizations_get u ROOT_ORG_ID w)
    as [[orgs|e] w0]; [|discriminate H].
  simpl in Hro. subst w0. specialize (Horgs orgs eq_refl).
  rewrite bind_run in H.
  set (sorted := PyData.sort_by_key po_org_name orgs) in H.
  destruct (gather_readonly
              ((fun org => Api.persons_person_id_groups_get u (po_id org)) <$> sorted) w)
    as [Hw Hl].
  { apply Forall_forall. intros c Hc w1. apply list_elem_of_fmap in Hc as (org & -> & _).
    by rewrite persons_person_id_groups_get_run. }
  destruct (gather _ w) as [[groups|e] w1]; [|discriminate H].
  simpl in Hw. subst w1. specialize (Hl groups eq_refl).
  apply Forall2_fmap_l in Hl. apply zip_groups in Hl as [Hzip1 Hzip2].
  rewrite bind_run in H.
  destruct (pages_permissions ROOT_ORG_NAME (zip sorted groups) [] w)
    as [[d|e] w1] eqn:Hd; [|discriminate H].
  apply pages_permissions_ok in Hd as (-> & Hsound & _ & Hcomplete).
  rewrite bind_run, get_user_by_id_run in H.
  destruct (groups_of w ROOT_ORG_ID u); [|discriminate H].
  injection H as <- <-. cbn.
  split; [done|]. split; [done|]. split.
  - intros k S Hin.
    destruct (Hsound _ Hin) as [Hnil|(org & g & gs & S' & Hitem & HS & [= -> ->])];
      [by apply elem_of_nil in Hnil|].
    destruct (Hzip1 _ _ Hitem) as [Horg Hg].
    apply elem_of_sort_by_key, Horgs in Horg as (o & Ho & Hname & _).
    exists (po_id org), o. split; [done|]. split; [by rewrite Hname|].
    split.
    + unfold caller_permissions. rewrite (get_permissions_groups _ _ _ _ Hg).
      pose proof (permissions_of_groups_readonly (g :: gs) w) as Hro.
      destruct (permissions_of_groups (g :: gs) w) as [r w1]. simpl in *. by subst.
    + by apply (permissions_of_groups_nonempty g gs w).
  - intros id o g gs Ho Hg.
    assert (Horg : {| po_id := id; po_org_name := name o |} ∈ sorted).
    { apply elem_of_sort_by_key, Horgs. exists o. cbn.
      split; [done|]. split; [done|].
      unfold groups_of, Api.members in Hg. rewrite Ho in Hg. by eexists. }
    destruct (Hzip2 _ Horg) as [gs' Hitem].
    destruct (Hzip1 _ _ Hitem) as [_ Hg']. cbn in Hg'.
    rewrite Hg in Hg'. injection Hg' as <-.
    by apply (Hcomplete _ g gs) in Hitem.
Qed.

Lemma get_user_me_pages_witness :
  exists me,
    get_user_me Demo.ROOT_ORG_ID Demo.ROOT_ORG_NAME "carol" Demo.world
    = (Ok me, Demo.world)
    /\ user_id (me_user me) = "carol".
Proof.
  eexists. split; [vm_compute; reflexivity|].
  apply (get_user_me_pages Demo.ROOT_ORG_ID Demo.ROOT_ORG_NAME "carol" Demo.world
           Demo.world).
  vm_compute; reflexivity.
Defined.

(** In the demo [carol] has no group on the root page and one on
    [/foo]: her view holds the key of [/foo] only. *)
Example get_user_me_scenario :
  (fun me => (me_pages me).*1)
    <$> (match (get_user_me Demo.ROOT_ORG_ID Demo.ROOT_ORG_NAME "carol" Demo.world).1 with
         | Ok me => Some me
         | Raise _ => None
         end)
  = Some ["/foo/"].
Proof. vm_compute. reflexivity. Qed.

(** X14. Changing the name of the current user and reading it back:
    when [patch_user_me] succeeds with a name in the patch,
    [get_user_by_id] then answers that name for the user; without a
    name in the patch nothing is changed. The call touches neither the
    registry nor the organisations. *)
Theorem patch_user_me_then_get_user_by_id
    (ROOT_ORG_ID : PageID) (u : UserID) (updates : MeInfoPatch) (w w' : World) :
  patch_user_me ROOT_ORG_ID u updates w = (Ok tt, w') ->
  pages w' = pages w
  /\ organizations (slashid w') = organizations (slashid w)
  /\ match patch_user updates ≫= patch_name with
     | Some n =>
         exists info,
           get_user_by_id ROOT_ORG_ID u w' = (Ok info, w')
           /\ user_id info = u
           /\ user_name info = Some n
     | None => w' = w
     end.
Proof.
  unfold patch_user_me. destruct (patch_user updates) as [[[n|]]|]; cbn.
  - unfold ApiUsers.persons_person_id_attributes_bucket_name_put. unfold_M.
    destruct (Api.members (slashid w) ROOT_ORG_ID !! u) as [gs|] eqn:Hm; [|done].
    intros [= <-]. split; [done|]. split; [done|].
    rewrite get_user_by_id_run. unfold groups_of, Api.members in *. cbn.
    rewrite Hm. eexists. split; [reflexivity|]. cbn.
    split; [done|]. apply lookup_insert_eq.
  - by intros [= <-].
  - by intros [= <-].
Qed.

Lemma patch_user_me_then_get_user_by_id_witness :
  exists w',
    patch_user_me Demo.ROOT_ORG_ID "bob"
      {| patch_user := Some {| patch_name := Some "Bob" |} |} Demo.world = (Ok tt, w')
    /\ exists info,
        get_user_by_id Demo.ROOT_ORG_ID "bob" w' = (Ok info, w')
        /\ user_id info = "bob"
        /\ user_name info = Some "Bob".
Proof.
  eexists. split; [vm_compute; reflexivity|].
  apply (patch_user_me_then_get_user_by_id Demo.ROOT_ORG_ID "bob"
           {| patch_user := Some {| patch_name := Some "Bob" |} |} Demo.world).
  vm_compute; reflexivity.
Defined.

(* ===================================================================== *)
(** * Properties of the frontend hooks and pages                         *)
(* ===================================================================== *)

Section Strings.

Lemma append_cons x (a b : string) : String x a +:+ b = String x (a +:+ b).
Proof. reflexivity. Qed.

Lemma append_nil (b : string) : EmptyString +:+ b = b.
Proof. reflexivity. Qed.

Lemma append_assoc (a b c : string) : (a +:+ b) +:+ c = a +:+ (b +:+ c).
Proof.
  induction a as [|x a IH]; [done|]. rewrite !append_cons. by f_equal.
Qed.

Lemma slice_from_append (a b : string) :
  PyData.slice_from (String.length a) (a +:+ b) = b.
Proof.
  induction a as [|x a IH]; [rewrite append_nil; by destruct b|].
  rewrite append_cons. exact IH.
Qed.

Lemma prefix_append (a b : string) : String.prefix a (a +:+ b) = true.
Proof.
  induction a as [|x a IH]; [rewrite append_nil; by destruct b|].
  rewrite append_cons. cbn [String.prefix].
  by destruct (Ascii.ascii_dec x x).
Qed.

Lemma split_from_skip sep (t s : string) :
  Js.split_from sep (String.length t) (t +:+ s) = Js.split_from sep 0 s.
Proof.
  induction t as [|x t IH]; [reflexivity|]. rewrite append_cons. exact IH.
Qed.

(** A separator in front gives an empty first piece. *)
Lemma split_separator_first c sep s :
  Js.split (String c sep) (String c sep +:+ s)
  = EmptyString :: Js.split (String c sep) s.
Proof.
  unfold Js.split. rewrite append_cons. cbn [Js.split_from].
  rewrite <- append_cons, prefix_append. cbn [String.length].
  replace (S (String.length sep) - 1) with (String.length sep) by lia.
  by rewrite split_from_skip.
Qed.

(** Without an occurrence of the separator there is one piece. *)
Lemma split_absent sep s : Js.occurs sep s = false -> Js.split sep s = [s].
Proof.
  unfold Js.split. induction s as [|c s IH]; [done|].
  cbn [Js.occurs Js.split_from]. intros H. apply orb_false_iff in H as [Hp Ho].
  rewrite Hp, (IH Ho). done.
Qed.

Lemma replace_absent pattern replacement s :
  Js.occurs pattern s = false -> Js.replace pattern replacement s = s.
Proof.
  induction s as [|c s IH]; cbn [Js.occurs Js.replace]; intros H;
    apply orb_false_iff in H as [Hp Ho]; rewrite Hp; [done|].
  by rewrite (IH Ho).
Qed.

(** A piece without a slash takes no part in a double slash. *)
Lemma occurs_double_slash_piece x t :
  has_char "/" x = false ->
  Js.occurs "//" (x +:+ t) = Js.occurs "//" t.
Proof.
  induction x as [|c x IH]; [done|]. cbn [has_char]. intros H.
  apply orb_false_iff in H as [Hc Hx].
  change (String c x +:+ t) with (String c (x +:+ t)).
  cbn [Js.occurs String.prefix]. rewrite (IH Hx).
  destruct (Ascii.ascii_dec "/" c) as [<-|]; [done|]. done.
Qed.

Lemma occurs_double_slash_after_slash c s :
  Ascii.eqb c "/" = false ->
  Js.occurs "//" (String "/" (String c s)) = Js.occurs "//" (String c s).
Proof.
  intros Hc. cbn [Js.occurs String.prefix].
  destruct (Ascii.ascii_dec "/" "/"); [|done].
  destruct (Ascii.ascii_dec "/" c) as [<-|]; [done|]. done.
Qed.

(** No double slash in a slash, segments joined by slashes and a
    slash. *)
Lemma no_double_slash_in_key segs :
  segs <> [] ->
  Forall (fun x => x <> EmptyString /\ has_char "/" x = false) segs ->
  Js.occurs "//" ("/" +:+ (Py.join "/" segs +:+ "/")) = false.
Proof.
  intros Hne H. induction H as [|x l [Hx Hs] Hl IH]; [done|]. clear Hne.
  destruct x as [|c x]; [done|].
  assert (Hc : Ascii.eqb c "/" = false).
  { cbn [has_char] in Hs. by apply orb_false_iff in Hs as [? _]. }
  destruct l as [|y l].
  - change ("/" +:+ (Py.join "/" [String c x] +:+ "/"))
      with (String "/" (String c (x +:+ "/"))).
    rewrite occurs_double_slash_after_slash by done.
    change (String c (x +:+ "/")) with (String c x +:+ "/").
    by rewrite occurs_double_slash_piece.
  - change (Py.join "/" (String c x :: y :: l))
      with (String c x +:+ ("/" +:+ Py.join "/" (y :: l))).
    rewrite append_assoc.
    change ("/" +:+ (String c x +:+ ("/" +:+ Py.join "/" (y :: l)) +:+ "/"))
      with (String "/" (String c (x +:+ (("/" +:+ Py.join "/" (y :: l)) +:+ "/")))).
    rewrite occurs_double_slash_after_slash by done.
    change (String c (x +:+ (("/" +:+ Py.join "/" (y :: l)) +:+ "/")))
      with (String c x +:+ (("/" +:+ Py.join "/" (y :: l)) +:+ "/")).
    rewrite occurs_double_slash_piece by done.
    apply IH. done.
Qed.

End Strings.

Lemma page_name_org_name ROOT_ORG_NAME x l :
  page_name ROOT_ORG_NAME (org_name ROOT_ORG_NAME (x :: l))
  = "/" +:+ (Py.join "/" (x :: l) +:+ "/").
Proof.
  unfold page_name.
  change (org_name ROOT_ORG_NAME (x :: l))
    with (ROOT_ORG_NAME +:+ ("/" +:+ Py.join "/" (x :: l))).
  by rewrite slice_from_append, append_assoc.
Qed.

Lemma page_name_root ROOT_ORG_NAME :
  page_name ROOT_ORG_NAME (org_name ROOT_ORG_NAME []) = "/".
Proof.
  unfold page_name. change (org_name ROOT_ORG_NAME []) with ROOT_ORG_NAME.
  pose proof (slice_from_append ROOT_ORG_NAME EmptyString) as H.
  assert (Hnil : forall s : string, s +:+ EmptyString = s).
  { induction s as [|c s IH]; [done|]. rewrite append_cons. by f_equal. }
  rewrite Hnil in H. by rewrite H.
Qed.

Lemma join_truthy x l :
  x <> EmptyString -> Js.truthy (Py.join "/" (x :: l)) = true.
Proof. destruct x as [|c x]; [done|]. by destruct l. Qed.

(** X15. The backend and the frontend agree on the key of a page. For a
    page path of non-empty segments without slashes, on the route
    [/root/...] of that page, as long as [/root/] does not occur again
    in the joined segments, [usePageId] gives the joined segments as the
    page id, and as the page key the very key under which
    [get_user_me] files the permissions of the page. On the index route
    the page key is the key of the root page. *)
Theorem page_key_is_page_name
    (ROOT_ORG_NAME root : string) (segs : list string) :
  (segs <> [] ->
   Forall (fun x => x <> EmptyString /\ has_char "/" x = false) segs ->
   Js.occurs ("/" +:+ root +:+ "/") (Py.join "/" segs) = false ->
   Hooks.pageId (Hooks.usePageId root (("/" +:+ root +:+ "/") +:+ Py.join "/" segs))
   = Py.join "/" segs
   /\ Hooks.pageKey (Hooks.usePageId root
                       (("/" +:+ root +:+ "/") +:+ Py.join "/" segs))
      = page_name ROOT_ORG_NAME (org_name ROOT_ORG_NAME segs))
  /\ Hooks.pageKey (Hooks.usePageId EmptyString "/")
     = page_name ROOT_ORG_NAME (org_name ROOT_ORG_NAME []).
Proof.
  split; [|by rewrite page_name_root].
  intros Hne Hsegs Hocc.
  assert (Hid : Hooks.pageId (Hooks.usePageId root
                                (("/" +:+ root +:+ "/") +:+ Py.join "/" segs))
                = Py.join "/" segs).
  { unfold Hooks.usePageId. cbn [Hooks.pageId].
    change ("/" +:+ root +:+ "/") with (String "/" (root +:+ "/")) in *.
    by rewrite split_separator_first, (split_absent _ _ Hocc). }
  split; [exact Hid|].
  unfold Hooks.usePageId in *. cbn [Hooks.pageId Hooks.pageKey] in *. rewrite Hid.
  destruct segs as [|x l]; [done|].
  rewrite join_truthy by (apply Forall_cons in Hsegs as [[? _] _]; done).
  rewrite replace_absent by (by apply no_double_slash_in_key).
  by rewrite page_name_org_name.
Qed.

Lemma page_key_is_page_name_witness :
  (["foo"; "bar"] <> []
   /\ Forall (fun x => x <> EmptyString /\ has_char "/" x = false) ["foo"; "bar"]
   /\ Js.occurs ("/" +:+ "page" +:+ "/") (Py.join "/" ["foo"; "bar"]) = false)
  /\ Hooks.pageKey (Hooks.usePageId "page" "/page/foo/bar")
     = page_name "MyOrg" (org_name "MyOrg" ["foo"; "bar"]).
Proof.
  assert (H1 : ["foo"; "bar"] <> []) by discriminate.
  assert (H2 : Forall (fun x => x <> EmptyString /\ has_char "/" x = false)
                      ["foo"; "bar"]) by (repeat constructor; discriminate).
  assert (H3 : Js.occurs ("/" +:+ "page" +:+ "/") (Py.join "/" ["foo"; "bar"]) = false)
    by reflexivity.
  split; [done|].
  exact (proj2 (proj1 (page_key_is_page_name "MyOrg" "page" ["foo"; "bar"]) H1 H2 H3)).
Defined.

(** X16. When [/root/] does not occur in the pathname, [usePageId] gives
    the empty page id and the page key of the root page. This is what
    the guards of the routes [edit/...] and [new/...] get, since they are
    given the root [admin]: they look at the root page, not at the page
    of the route. *)
Theorem usePageId_without_root (root pathname : string) :
  Js.occurs ("/" +:+ root +:+ "/") pathname = false ->
  Hooks.usePageId root pathname
  = {| Hooks.pageId := EmptyString; Hooks.pageKey := "/" |}.
Proof.
  intros Hocc. unfold Hooks.usePageId. by rewrite (split_absent _ _ Hocc).
Qed.

Lemma usePageId_without_root_witness :
  Js.occurs ("/" +:+ "admin" +:+ "/") "/edit/foo" = false
  /\ Hooks.usePageId "admin" "/edit/foo"
     = {| Hooks.pageId := EmptyString; Hooks.pageKey := "/" |}.
Proof.
  split; [reflexivity|]. apply (usePageId_without_root "admin" "/edit/foo"). reflexivity.
Defined.

(** The flags of a state agree with its raw groups. *)
Lemma useGroups_keeps_flags root pathname query state :
  (Hooks.isViewer state = Frontend.includes (Hooks.raw state) "read"
   /\ Hooks.isEditor state = Frontend.includes (Hooks.raw state) "write"
   /\ Hooks.isAdmin state = Frontend.includes (Hooks.raw state) "admin") ->
  let state' := (Hooks.useGroups root pathname query state).2 in
  Hooks.isViewer state' = Frontend.includes (Hooks.raw state') "read"
  /\ Hooks.isEditor state' = Frontend.includes (Hooks.raw state') "write"
  /\ Hooks.isAdmin state' = Frontend.includes (Hooks.raw state') "admin".
Proof.
  intros H. cbv zeta. unfold Hooks.useGroups. cbn [snd].
  destruct (negb _ && negb _ && bool_decide _ && negb _); [|done].
  by destruct (Hooks.data query ≫= _).
Qed.

Lemma useGroups_frozen root pathname query state :
  Hooks.initialised state = true ->
  (Hooks.useGroups root pathname query state).2 = state.
Proof.
  intros H. unfold Hooks.useGroups. cbn [snd]. rewrite H. cbn [negb].
  by rewrite andb_false_r.
Qed.

(** X17. The state of [useGroups] over any sequence of renders from the
    initial state: the three flags always say whether [read], [write]
    and [admin] are among the raw groups; the first render in which the
    query has settled with data initialises the state, with the groups
    filed under the page key of that render when there are any; and
    once initialised the state never changes again, whatever the later
    pathnames and query results are. *)
Theorem useGroups_initialises_once (root : string) :
  (forall inputs,
     Hooks.isViewer (Hooks.renders root inputs Hooks.initial_state)
     = Frontend.includes (Hooks.raw (Hooks.renders root inputs Hooks.initial_state)) "read"
     /\ Hooks.isEditor (Hooks.renders root inputs Hooks.initial_state)
        = Frontend.includes (Hooks.raw (Hooks.renders root inputs Hooks.initial_state))
                            "write"
     /\ Hooks.isAdmin (Hooks.renders root inputs Hooks.initial_state)
        = Frontend.includes (Hooks.raw (Hooks.renders root inputs Hooks.initial_state))
                            "admin")
  /\ (forall pathname query state user,
        Hooks.isLoading query = false ->
        Hooks.isError query = false ->
        Hooks.data query = Some user ->
        Hooks.initialised state = false ->
        Hooks.initialised (Hooks.useGroups root pathname query state).2 = true
        /\ Hooks.raw (Hooks.useGroups root pathname query state).2
           = default (Hooks.raw state)
               (Hooks.property (Hooks.pages user)
                  (Hooks.pageKey (Hooks.usePageId root pathname))))
  /\ (forall inputs state,
        Hooks.initialised state = true ->
        Hooks.renders root inputs state = state).
Proof.
  split; [|split].
  - intros inputs.
    assert (Hgen : forall state,
               (Hooks.isViewer state = Frontend.includes (Hooks.raw state) "read"
                /\ Hooks.isEditor state = Frontend.includes (Hooks.raw state) "write"
                /\ Hooks.isAdmin state = Frontend.includes (Hooks.raw state) "admin") ->
               Hooks.isViewer (Hooks.renders root inputs state)
               = Frontend.includes (Hooks.raw (Hooks.renders root inputs state)) "read"
               /\ Hooks.isEditor (Hooks.renders root inputs state)
                  = Frontend.includes (Hooks.raw (Hooks.renders root inputs state)) "write"
               /\ Hooks.isAdmin (Hooks.renders root inputs state)
                  = Frontend.includes (Hooks.raw (Hooks.renders root inputs state))
                                      "admin").
    { induction inputs as [|[pathname query] inputs IH]; intros state Hst; [done|].
      cbn [Hooks.renders]. apply IH. by apply useGroups_keeps_flags. }
    apply Hgen. done.
  - intros pathname query state user Hl He Hd Hi.
    unfold Hooks.useGroups. cbn [snd]. rewrite Hl, He, Hd, Hi. cbn.
    by destruct (Hooks.property _ _).
  - induction inputs as [|[pathname query] inputs IH]; intros state Hi; [done|].
    cbn [Hooks.renders]. rewrite useGroups_frozen by done. by apply IH.
Qed.

Lemma useGroups_initialises_once_witness :
  Hooks.initialised
    {| Hooks.initialised := true; Hooks.isViewer := true; Hooks.isEditor := false;
       Hooks.isAdmin := false; Hooks.raw := ["read"] |} = true
  /\ Hooks.renders "page"
       [("/page/bar",
         {| Hooks.data :=
              Some {| Hooks.pages := [("/bar/", ["read"; "write"; "admin"])];
                      Hooks.user := {| Frontend.id := "u"; Frontend.name := "U";
                                       Frontend.phones := []; Frontend.emails := [] |} |};
            Hooks.isLoading := false; Hooks.isError := false |})]
       {| Hooks.initialised := true; Hooks.isViewer := true; Hooks.isEditor := false;
          Hooks.isAdmin := false; Hooks.raw := ["read"] |}
     = {| Hooks.initialised := true; Hooks.isViewer := true; Hooks.isEditor := false;
          Hooks.isAdmin := false; Hooks.raw := ["read"] |}.
Proof.
  split; [reflexivity|].
  apply (proj2 (proj2 (useGroups_initialises_once "page"))). reflexivity.
Defined.

Lemma for_permissions_fallback raw belongsTo children fallback :
  ~ Forall (fun permission => permission ∈ raw) belongsTo ->
  Frontend.for_permissions raw belongsTo children fallback = fallback.
Proof.
  induction belongsTo as [|permission rest IH]; intros H; [by destruct H|].
  cbn [Frontend.for_permissions]. unfold Frontend.includes.
  destruct (decide (permission ∈ raw)) as [Hin|Hin].
  - rewrite bool_decide_eq_true_2 by done. cbn [negb]. apply IH.
    intros Hrest. apply H. by constructor.
  - by rewrite bool_decide_eq_false_2.
Qed.

(** X18. Once both queries have settled without error and the admin
    info does not say the page is public, the route guard renders the
    children exactly when the caller's raw groups include every
    required permission; otherwise it renders the fallback, which is
    the permission message when the route gives none. With no required
    permission the children are always rendered. *)
Theorem route_guard_requires_every_permission
    (props : Frontend.Props) (groups : Frontend.GroupsQuery)
    (info : Frontend.AdminPageInfoQuery) :
  Frontend.isGroupsLoading groups = false ->
  Frontend.isAdminPageInfoLoading info = false ->
  Frontend.isGroupsError groups = false ->
  Frontend.isAdminPageInfoError info = false ->
  (forall d, Frontend.data info = Some d -> Frontend.public d = false) ->
  Frontend.AssertGroups props groups info
  = if decide (Forall (fun permission => permission ∈ Frontend.raw groups)
                      (Frontend.belongsTo props))
    then Frontend.children props
    else default (Frontend.Oops (Some "You do not have permission to view this page"))
                 (Frontend.fallback props).
Proof.
  intros Hgl Hal Hge Hae Hd. unfold Frontend.AssertGroups.
  rewrite Hgl, Hal, Hge, Hae. cbn [orb].
  assert (Hpub : match Frontend.data info with
                 | Some d => Frontend.public d
                 | None => false
                 end = false).
  { destruct (Frontend.data info) as [d|]; [by apply Hd|done]. }
  rewrite Hpub.
  destruct (decide (Forall _ (Frontend.belongsTo props))) as [H|H].
  - by apply for_permissions_children.
  - by apply for_permissions_fallback.
Qed.

Lemma route_guard_requires_every_permission_witness :
  Frontend.AssertGroups
    {| Frontend.root := "admin";
       Frontend.belongsTo := ["write"];
       Frontend.children := Frontend.Markup "PageEdit";
       Frontend.fallback := None |}
    {| Frontend.isGroupsLoading := false;
       Frontend.isGroupsError := false;
       Frontend.isViewer := true;
       Frontend.isAdmin := false;
       Frontend.isEditor := false;
       Frontend.raw := ["read"] |}
    {| Frontend.data := Some {| Frontend.public := false; Frontend.users := [] |};
       Frontend.isAdminPageInfoLoading := false;
       Frontend.isAdminPageInfoError := false |}
  = Frontend.Oops (Some "You do not have permission to view this page").
Proof.
  rewrite (route_guard_requires_every_permission
             {| Frontend.root := "admin";
                Frontend.belongsTo := ["write"];
                Frontend.children := Frontend.Markup "PageEdit";
                Frontend.fallback := None |}
             {| Frontend.isGroupsLoading := false;
                Frontend.isGroupsError := false;
                Frontend.isViewer := true;
                Frontend.isAdmin := false;
                Frontend.isEditor := false;
                Frontend.raw := ["read"] |}
             {| Frontend.data := Some {| Frontend.public := false; Frontend.users := [] |};
                Frontend.isAdminPageInfoLoading := false;
                Frontend.isAdminPageInfoError := false |}
             eq_refl eq_refl eq_refl eq_refl).
  - vm_compute. reflexivity.
  - intros d [= <-]. reflexivity.
Defined.

(** Replacing the first double slash by a slash: either there is none,
    or the string is cut around it. *)
Lemma replace_double_slash s :
  Js.replace "//" "/" s = s
  \/ exists p q, s = p +:+ "//" +:+ q /\ Js.replace "//" "/" s = p +:+ "/" +:+ q.
Proof.
  induction s as [|c s IH]; [by left|].
  cbn [Js.replace]. destruct (String.prefix "//" (String c s)) eqn:Hp.
  - right. exists EmptyString.
    cbn [String.prefix] in Hp.
    destruct (Ascii.ascii_dec "/" c) as [<-|]; [|discriminate Hp].
    destruct s as [|c' s]; [discriminate Hp|].
    cbn [String.prefix] in Hp.
    destruct (Ascii.ascii_dec "/" c') as [<-|]; [|discriminate Hp].
    exists s. split; reflexivity.
  - destruct IH as [->|(p & q & -> & ->)]; [by left|].
    right. exists (String c p), q. split; reflexivity.
Qed.

Lemma get_page_path_replace s :
  get_page_path (Js.replace "//" "/" s) = get_page_path s.
Proof.
  destruct (replace_double_slash s) as [->|(p & q & -> & ->)]; [done|].
  symmetry. apply slash_variant_sound, sv_repeated.
Qed.

(** X19. The path the page-creation form sends resolves, on the backend,
    to the segments of the parent page followed by the segments of the
    new id; with no parent page it resolves to the segments of the new
    id alone. *)
Theorem toPath_resolves (pageId id : string) :
  get_page_path (Pages.toPath pageId id)
  = if Js.truthy pageId then get_page_path pageId ++ get_page_path id
    else get_page_path id.
Proof.
  unfold Pages.toPath. destruct (Js.truthy pageId); [|done].
  rewrite get_page_path_replace.
  apply (get_page_path_app_sep pageId id).
Qed.

(** The key of a page and the id of a page resolve to the same
    segments. *)
Example toPath_scenarios :
  Pages.toPath "foo" "bar" = "foo/bar"
  /\ Pages.toPath "foo/" "bar" = "foo/bar"
  /\ Pages.toPath EmptyString "bar" = "bar"
  /\ get_page_path (Pages.toPath "foo/" "/bar") = ["foo"; "bar"].
Proof. repeat split. Qed.
